(** * convert_to_json.py: the offline data packager

    A shallow embedding of [src/convert_to_json.py].  The script reads a
    fixed set of arrays, tables and a fitted scaler from disk, assembles
    one nested document, writes it as [app_data_complete.json], and then
    derives [app_data_compact.json] from the file it has just written.

    Layout of the development:
    - [Py]       Python values, dictionaries (insertion ordered), and the
                 few builtins the script uses ([len], [str]);
    - [Json]     JSON documents, [json.dump] and [json.load];
    - [Run]      console, file store, exceptions, and the small monad in
                 which the loaders run;
    - [Convert]  what the run reads from outside (library calls, number
                 conversions, the clock) and the functions of the script,
                 in source order;
    - the theorems, one group per property of the specification. *)

From Stdlib Require Import List String Ascii ZArith Bool Lia DecimalString.
From Stdlib Require DecimalZ DecimalPos.
Import ListNotations.
Local Open Scope string_scope.

(* ================================================================== *)
(** ** Python values *)

Module Py.

(** Dictionary keys.  The script only ever uses [str] keys and, for the
    norm tables and [norm_groups], [int] keys. *)
Inductive pykey : Type :=
| KInt (z : Z)
| KStr (s : string).

(** Values.  A float is identified by the literal Python prints for it
    ([repr]); the script performs no float arithmetic, and the
    conversions between floats and integers are left to the environment
    (see [numbers] below). *)
Unset Elimination Schemes.
Inductive pyval : Type :=
| PNone
| PBool (b : bool)
| PInt (z : Z)
| PFloat (lit : string)
| PStr (s : string)
| PList (l : list pyval)
| PDict (d : list (pykey * pyval)).
Set Elimination Schemes.

Definition dict : Type := list (pykey * pyval).

Definition pykey_eqb (a b : pykey) : bool :=
  match a, b with
  | KInt x, KInt y => Z.eqb x y
  | KStr x, KStr y => String.eqb x y
  | _, _ => false
  end.

(** [d.get(k)] / [k in d]: dictionaries hold one binding per key. *)
Fixpoint dict_get (k : pykey) (d : dict) : option pyval :=
  match d with
  | [] => None
  | (k', v) :: r => if pykey_eqb k k' then Some v else dict_get k r
  end.

(** [d[k] = v]: a key already present keeps its position. *)
Fixpoint dict_set (k : pykey) (v : pyval) (d : dict) : dict :=
  match d with
  | [] => [(k, v)]
  | (k', v') :: r =>
      if pykey_eqb k k' then (k', v) :: r else (k', v') :: dict_set k v r
  end.

(** A dictionary display [{k1: v1, **d, k2: v2, ...}] evaluates its items
    left to right, each one assigned in turn. *)
Definition dict_of (items : list (pykey * pyval)) : dict :=
  fold_left (fun d kv => dict_set (fst kv) (snd kv) d) items [].

Definition dict_keys (d : dict) : list pykey := map fst d.
Definition dict_values (d : dict) : list pyval := map snd d.

Definition key_val (k : pykey) : pyval :=
  match k with KInt z => PInt z | KStr s => PStr s end.

(** [str(n)] for an [int]. *)
Definition str_of_Z (z : Z) : string := NilZero.string_of_int (Z.to_int z).

(** Number of code points of a UTF-8 string: the bytes that are not
    continuation bytes [10xxxxxx]. *)
Fixpoint code_points (s : string) : nat :=
  match s with
  | EmptyString => 0
  | String c r =>
      (if (128 <=? nat_of_ascii c) && (nat_of_ascii c <? 192) then 0 else 1)
      + code_points r
  end%nat.

End Py.
Export Py.

(* ================================================================== *)
(** ** JSON documents, [json.dump] and [json.load] *)

Module Json.

(** The text of a JSON file, as its syntax tree.  An object is the
    sequence of its members as written, so a text may repeat a key. *)
Unset Elimination Schemes.
Inductive json : Type :=
| JNull
| JBool (b : bool)
| JInt (z : Z)
| JFloat (lit : string)
| JStr (s : string)
| JArr (items : list json)
| JObj (members : list (string * json)).
Set Elimination Schemes.

(** [json.dump] writes a non-string key as the string of its value. *)
Definition key_str (k : pykey) : string :=
  match k with
  | KInt z => str_of_Z z
  | KStr s => s
  end.

(** [json.dump(v, f)]: every value of [pyval] is serialisable; members
    are written in dictionary order. *)
Fixpoint json_dump (v : pyval) : json :=
  match v with
  | PNone => JNull
  | PBool b => JBool b
  | PInt z => JInt z
  | PFloat lit => JFloat lit
  | PStr s => JStr s
  | PList l => JArr (map json_dump l)
  | PDict d => JObj (map (fun kv => let '(k, x) := kv in (key_str k, json_dump x)) d)
  end.

(** [json.load(f)]: objects become dictionaries with [str] keys, built by
    assigning the members in order, so the last value of a repeated key
    wins. *)
Fixpoint json_load (j : json) : pyval :=
  match j with
  | JNull => PNone
  | JBool b => PBool b
  | JInt z => PInt z
  | JFloat lit => PFloat lit
  | JStr s => PStr s
  | JArr items => PList (map json_load items)
  | JObj members =>
      PDict (dict_of (map (fun kv => let '(k, x) := kv in (KStr k, json_load x)) members))
  end.

End Json.
Export Json.

(* ================================================================== *)
(** ** Exceptions, console, files, and the monad of the script *)

Module Run.

(** The exceptions that can reach the script's handlers. *)
Inductive exn : Type :=
| FileNotFoundError
| KeyError (k : string)
| ValueError
| TypeError
| AttributeError
| OSError
| JSONDecodeError
| ParserError
| OverflowError.

(** [except FileNotFoundError] *)
Definition is_file_not_found (e : exn) : bool :=
  match e with FileNotFoundError => true | _ => false end.

(** [except:] and [except Exception] *)
Definition any_exception (e : exn) : bool := true.

(** What the script prints.  Each constructor stands for one kind of
    [print] line and carries the values interpolated into it; the
    decoration of the text is not modelled. *)
Inductive event : Type :=
| Progress (msg : string)                       (* banners and headings *)
| FileLoaded (file : string) (n : nat)          (* "{file} - {n} ..." *)
| ShapeLoaded (file : string) (shape : option (list nat))
                                                (* "{file} - shape: {shape}", N/A when empty *)
| Sample (items : list pyval)                   (* first items of a list *)
| FileMissing (file : string)                   (* "{file} not found" *)
| LengthWarning (lengths : list nat)            (* lengths differ *)
| QuestionColumn (lang : string) (n : nat)      (* "{lang}: {n} questions" *)
| QuestionFallback (lang : string)              (* "{lang} not found, using English" *)
| Saved (file : string)                         (* "saved to {file}" and its size *)
| SummaryCount (label : string) (n : nat)
| SummaryKeys (label : string) (keys : list pykey)
| Validation (label : string) (ok : bool)       (* "Data Validation" lines *)
| ExampleJobs (lang : string) (jobs : list pyval)
| ConversionError (e : exn)                     (* "Error during conversion: {e}" *)
| Traceback (e : exn)                           (* traceback.print_exc() *)
| CompactFailed (e : exn).                      (* "Failed to create compact version: {e}" *)

(** A file on disk: a complete JSON text, or the torn prefix left behind
    by a [json.dump] that raised part-way. *)
Inductive file : Type :=
| Text (j : json)
| Torn.

Record state : Type := mkState {
  console : list event;
  files : list (string * file)
}.

Inductive res (A : Type) : Type :=
| Ret (a : A)
| Raise (e : exn).
Arguments Ret {A} a.
Arguments Raise {A} e.

Definition M (A : Type) : Type := state -> res A * state.

Definition ret {A} (a : A) : M A := fun s => (Ret a, s).
Definition raise {A} (e : exn) : M A := fun s => (Raise e, s).

Definition bind {A B} (m : M A) (f : A -> M B) : M B :=
  fun s =>
    match m s with
    | (Ret a, s') => f a s'
    | (Raise e, s') => (Raise e, s')
    end.

(** [try: body  except <catches>: handler] *)
Definition try_except {A} (body : M A) (catches : exn -> bool)
    (handler : exn -> M A) : M A :=
  fun s =>
    match body s with
    | (Ret a, s') => (Ret a, s')
    | (Raise e, s') => if catches e then handler e s' else (Raise e, s')
    end.

Definition print (e : event) : M unit :=
  fun s => (Ret tt, mkState (console s ++ [e]) (files s)).

(** [for x in xs: acc = body x acc] *)
Fixpoint for_each {A S} (xs : list A) (acc : S) (body : A -> S -> M S) : M S :=
  match xs with
  | [] => ret acc
  | x :: r => bind (body x acc) (fun acc' => for_each r acc' body)
  end.

Definition when (b : bool) (m : M unit) : M unit :=
  if b then m else ret tt.

(** The file store. *)
Fixpoint fs_lookup (name : string) (fs : list (string * file)) : option file :=
  match fs with
  | [] => None
  | (n, f) :: r => if String.eqb name n then Some f else fs_lookup name r
  end.

Definition fs_put (name : string) (f : file) (fs : list (string * file))
    : list (string * file) :=
  (name, f) :: filter (fun nf => negb (String.eqb name (fst nf))) fs.

(** How [open(name, "w")] followed by [json.dump] ends. *)
Inductive write_outcome : Type :=
| WriteOk
| OpenFails      (* the file cannot be opened for writing *)
| DumpFails.     (* opened and truncated, then the write raises *)

(** [with open(name, "w") as f: json.dump(v, f, ...)] *)
Definition write_json (how : write_outcome) (name : string) (v : pyval) : M unit :=
  fun s =>
    match how with
    | WriteOk => (Ret tt, mkState (console s) (fs_put name (Text (json_dump v)) (files s)))
    | OpenFails => (Raise OSError, s)
    | DumpFails => (Raise OSError, mkState (console s) (fs_put name Torn (files s)))
    end.

(** [with open(name, "r") as f: json.load(f)] *)
Definition read_json (name : string) : M pyval :=
  fun s =>
    match fs_lookup name (files s) with
    | None => (Raise FileNotFoundError, s)
    | Some Torn => (Raise JSONDecodeError, s)
    | Some (Text j) => (Ret (json_load j), s)
    end.

(** Dynamic operations on values read back from a file. *)

(** [v.get(k, default)] *)
Definition py_get (v : pyval) (k : string) (default : pyval) : M pyval :=
  match v with
  | PDict d =>
      ret (match dict_get (KStr k) d with Some x => x | None => default end)
  | _ => raise AttributeError
  end.

(** [len(v)] *)
Definition py_len (v : pyval) : M nat :=
  match v with
  | PList l => ret (List.length l)
  | PDict d => ret (List.length d)
  | PStr s => ret (code_points s)
  | _ => raise TypeError
  end.

(** [list(v.keys())] *)
Definition py_keys (v : pyval) : M pyval :=
  match v with
  | PDict d => ret (PList (map key_val (dict_keys d)))
  | _ => raise AttributeError
  end.

End Run.
Export Run.

Declare Scope py_scope.
Delimit Scope py_scope with py.
Notation "x <- m ;; k" := (bind m (fun x => k))
  (at level 61, m at next level, right associativity) : py_scope.
Notation "m ;; k" := (bind m (fun _ => k))
  (at level 61, right associativity) : py_scope.

(* ================================================================== *)
(** ** The script *)

Module Convert.
Local Open Scope py_scope.

(** *** What the run reads from outside *)

(** A library call returns or raises. *)
Inductive load (A : Type) : Type :=
| Raises (e : exn)
| Loaded (a : A).
Arguments Raises {A} e.
Arguments Loaded {A} a.

Definition call {A} (o : load A) : M A :=
  match o with
  | Raises e => raise e
  | Loaded a => ret a
  end.

(** A cell of a table read by [pd.read_csv]. *)
Inductive cell : Type :=
| CNaN
| CInt (z : Z)
| CFloat (lit : string)
| CStr (s : string).

(** A [DataFrame]: the header and the rows, each row holding one cell per
    column ([CNaN] where the text had none).  The dtype of a column is
    read off its cells: integers only make an [int64] column; floats or
    missing values, with or without integers, a [float64] column, whose
    integers are then floats; any string makes it an [object] column. *)
Record DataFrame : Type := mkDataFrame {
  columns : list string;
  rows : list (list cell)
}.

(** An attribute of the object that [joblib.load] returns: not there
    ([hasattr] is false); there, with what [.tolist()] (for
    [n_samples_seen_], [int]) returns for it; or there but not
    convertible, as when it holds [None] or, for [int], an array of
    several counts. *)
Inductive attr (A : Type) : Type :=
| NoAttr
| Attr (a : A)
| BadAttr.
Arguments NoAttr {A}.
Arguments Attr {A} a.
Arguments BadAttr {A}.

Record scaler : Type := mkScaler {
  mean_ : attr pyval;
  scale_ : attr pyval;
  var_ : attr pyval;
  n_samples_seen_ : attr Z
}.

(** How [int(x)] ends for a float or a string [x]. *)
Inductive conversion : Type :=
| Converted (z : Z)
| NotANumber      (* ValueError: nan, or a string that is not an integer *)
| TooLarge.       (* OverflowError: an infinity *)

(** The number conversions of the interpreter.  Floats are carried as
    their literals, so what these conversions return is not computed
    here: it is read from the environment, like the result of a library
    call. *)
Record numbers : Type := mkNumbers {
  float_of_int : Z -> string;            (* repr(float(n)) *)
  int_of_float : string -> conversion;   (* int(x), x the float printed as the literal *)
  int_of_str : string -> conversion      (* int(s) *)
}.

(** The environment of one run: what each library call does on each
    path or argument, the number conversions, the clock, and how writing
    each output file ends. *)
Record world : Type := mkWorld {
  np_load_tolist : string -> load (list pyval);  (* np.load(p, allow_pickle=True).tolist() *)
  np_array_shape : list pyval -> load (list nat); (* np.array(x).shape *)
  np_load_item : string -> load pyval;           (* np.load(p, allow_pickle=True).item() *)
  pd_read_csv : string -> load DataFrame;        (* pd.read_csv(p, sep='\t') *)
  joblib_load : string -> load scaler;           (* joblib.load(p) *)
  num : numbers;
  timestamp_now : string;                        (* pd.Timestamp.now().isoformat() *)
  open_write : string -> write_outcome
}.

(** *** Table helpers *)

Fixpoint index_of (name : string) (cols : list string) : option nat :=
  match cols with
  | [] => None
  | c :: r => if String.eqb name c then Some 0%nat
              else option_map S (index_of name r)
  end.

(** [name in df.columns] *)
Definition has_column (df : DataFrame) (name : string) : bool :=
  match index_of name (columns df) with Some _ => true | None => false end.

(** [row[name]] for a row of [df.iterrows()]. *)
Definition row_getitem (df : DataFrame) (row : list cell) (name : string) : M cell :=
  match index_of name (columns df) with
  | Some i => ret (nth i row CNaN)
  | None => raise (KeyError name)
  end.

(** One cell of [series.fillna('').astype(str)]. *)
Definition fillna_str (c : cell) : string :=
  match c with
  | CNaN => EmptyString
  | CInt z => str_of_Z z
  | CFloat lit => lit
  | CStr s => s
  end.

(** One cell of [series.tolist()]. *)
Definition cell_val (c : cell) : pyval :=
  match c with
  | CNaN => PFloat "nan"
  | CInt z => PInt z
  | CFloat lit => PFloat lit
  | CStr s => PStr s
  end.

(** The dtype of a column, and of the array [df.values] that holds a
    whole table. *)
Inductive dtype : Type :=
| DInt       (* int64 *)
| DFloat     (* float64 *)
| DObject.   (* object *)

Definition cell_dtype (c : cell) : dtype :=
  match c with
  | CInt _ => DInt
  | CNaN | CFloat _ => DFloat
  | CStr _ => DObject
  end.

(** The common dtype of two: [int64] and [float64] give [float64],
    anything with [object] gives [object]. *)
Definition common_dtype (a b : dtype) : dtype :=
  match a, b with
  | DObject, _ | _, DObject => DObject
  | DFloat, _ | _, DFloat => DFloat
  | DInt, DInt => DInt
  end.

Definition cells_dtype (cs : list cell) : dtype :=
  fold_left (fun d c => common_dtype d (cell_dtype c)) cs DInt.

(** A cell as it sits in an array of the given dtype: in a [float64]
    array an integer has become a float. *)
Definition upcast (w : world) (d : dtype) (c : cell) : cell :=
  match d, c with
  | DFloat, CInt z => CFloat (float_of_int (num w) z)
  | _, _ => c
  end.

(** The cells of column [i] as the table gives them, the dtype of the
    column, and the column as a [Series]. *)
Definition column_cells (df : DataFrame) (i : nat) : list cell :=
  map (fun r => nth i r CNaN) (rows df).

Definition column_dtype (df : DataFrame) (i : nat) : dtype :=
  cells_dtype (column_cells df i).

Definition series (w : world) (df : DataFrame) (i : nat) : list cell :=
  map (upcast w (column_dtype df i)) (column_cells df i).

(** [df[name]]: [KeyError] when there is no such column. *)
Definition df_getitem (w : world) (df : DataFrame) (name : string) : M (list cell) :=
  match index_of name (columns df) with
  | Some i => ret (series w df i)
  | None => raise (KeyError name)
  end.

(** The rows of the table, each cell in the dtype of its column. *)
Definition typed_rows (w : world) (df : DataFrame) : list (list cell) :=
  map (fun row =>
         map (fun ic => upcast w (column_dtype df (fst ic)) (snd ic))
             (combine (seq 0 (List.length row)) row))
      (rows df).

(** The dtype of [df.values]: the common dtype of the columns. *)
Definition values_dtype (df : DataFrame) : dtype :=
  cells_dtype (List.concat (rows df)).

(** The rows of [df.values]; [df.iterrows()] yields each of them as a
    [Series] of the same dtype. *)
Definition df_values (w : world) (df : DataFrame) : list (list cell) :=
  map (map (upcast w (values_dtype df))) (typed_rows w df).

Definition converted (c : conversion) : M Z :=
  match c with
  | Converted z => ret z
  | NotANumber => raise ValueError
  | TooLarge => raise OverflowError
  end.

(** [int(c)]: an integer is itself, a missing value raises [ValueError],
    a float or a string is converted by the interpreter. *)
Definition py_int (w : world) (c : cell) : M Z :=
  match c with
  | CNaN => raise ValueError
  | CInt z => ret z
  | CFloat lit => converted (int_of_float (num w) lit)
  | CStr s => converted (int_of_str (num w) s)
  end.

(** [[f(x) for x in xs]] where [f] may raise. *)
Fixpoint map_m {A B} (f : A -> M B) (xs : list A) : M (list B) :=
  match xs with
  | [] => ret []
  | x :: r => y <- f x ;; ys <- map_m f r ;; ret (y :: ys)
  end.

(** [all(len(v) == n for v in vs)], stopping at the first [False]. *)
Fixpoint all_len_eq (n : nat) (vs : list pyval) : M bool :=
  match vs with
  | [] => ret true
  | v :: r => k <- py_len v ;; if Nat.eqb k n then all_len_eq n r else ret false
  end.

(** The first [n] code points of a UTF-8 string. *)
Fixpoint utf8_firstn (n : nat) (s : string) : string :=
  match s with
  | EmptyString => EmptyString
  | String c r =>
      if (128 <=? nat_of_ascii c)%nat && (nat_of_ascii c <? 192)%nat
      then String c (utf8_firstn n r)
      else match n with
           | O => EmptyString
           | S m => String c (utf8_firstn m r)
           end
  end.

(** [v[:n]] *)
Definition py_firstn (n : nat) (v : pyval) : M pyval :=
  match v with
  | PList l => ret (PList (firstn n l))
  | PStr s => ret (PStr (utf8_firstn n s))
  | _ => raise TypeError
  end.

(** [v[k]] on a dictionary. *)
Definition py_getitem (v : pyval) (k : string) : M pyval :=
  match v with
  | PDict d =>
      match dict_get (KStr k) d with Some x => ret x | None => raise (KeyError k) end
  | _ => raise TypeError
  end.

(** [k in v] on a dictionary. *)
Definition py_contains (v : pyval) (k : string) : M bool :=
  match v with
  | PDict d => ret (match dict_get (KStr k) d with Some _ => true | None => false end)
  | _ => raise TypeError
  end.

(** [v.values()] *)
Definition py_values (v : pyval) : M (list pyval) :=
  match v with
  | PDict d => ret (dict_values d)
  | _ => raise AttributeError
  end.

(** *** load_multilingual_jobs *)

Definition languages : list string := ["en"; "zh"; "es"; "fr"; "ru"; "ar"].

(** [len(set(lengths))] *)
Definition distinct_count (lengths : list nat) : nat :=
  List.length (nodup Nat.eq_dec lengths).

(** The body of the loop over the languages. *)
Definition load_job_file (w : world) (lang : string) (job_translations : dict)
    : M dict :=
  let filepath := "job_" ++ lang ++ ".npy" in
  try_except
    (job_list <- call (np_load_tolist w filepath) ;;
     print (FileLoaded filepath (List.length job_list)) ;;
     when (0 <? List.length job_list)%nat (print (Sample (firstn 3 job_list))) ;;
     ret (dict_set (KStr lang) (PList job_list) job_translations))
    is_file_not_found
    (fun _ =>
       print (FileMissing filepath) ;;
       ret (dict_set (KStr lang) (PList []) job_translations)).

Definition load_multilingual_jobs (w : world) : M dict :=
  print (Progress "Loading multilingual job files...") ;;
  job_translations <- for_each languages ([] : dict) (load_job_file w) ;;
  lengths <-
    map_m (fun v => py_len v)
      (flat_map (fun lang =>
                   match dict_get (KStr lang) job_translations with
                   | Some v => [v]
                   | None => []
                   end) languages) ;;
  when (negb (Nat.eqb (List.length lengths) 0) && (1 <? distinct_count lengths)%nat)
       (print (LengthWarning lengths)) ;;
  ret job_translations.

(** *** load_base_job_data *)

(** [np.array(x).shape if x else 'N/A'] *)
Definition array_shape (w : world) (x : list pyval) : M (option (list nat)) :=
  match x with
  | [] => ret None
  | _ => shape <- call (np_array_shape w x) ;; ret (Some shape)
  end.

Definition load_base_job_data (w : world) : M dict :=
  print (Progress "Loading base job data...") ;;
  let base_data : dict := [] in
  base_data <-
    try_except
      (job_codes <- call (np_load_tolist w "job_codes.npy") ;;
       print (FileLoaded "job_codes.npy" (List.length job_codes)) ;;
       print (Sample (firstn 5 job_codes)) ;;
       ret (dict_set (KStr "job_codes") (PList job_codes) base_data))
      is_file_not_found
      (fun _ =>
         print (FileMissing "job_codes.npy") ;;
         ret (dict_set (KStr "job_codes") (PList []) base_data)) ;;
  base_data <-
    try_except
      (pca_weights <- call (np_load_tolist w "pca_weights.npy") ;;
       shape <- array_shape w pca_weights ;;
       print (ShapeLoaded "pca_weights.npy" shape) ;;
       ret (dict_set (KStr "pca_weights") (PList pca_weights) base_data))
      is_file_not_found
      (fun _ =>
         print (FileMissing "pca_weights.npy") ;;
         ret (dict_set (KStr "pca_weights") (PList []) base_data)) ;;
  base_data <-
    try_except
      (scaled_features <- call (np_load_tolist w "scaled_job_features.npy") ;;
       print (FileLoaded "scaled_job_features.npy" (List.length scaled_features)) ;;
       ret (dict_set (KStr "scaled_features") (PList scaled_features) base_data))
      is_file_not_found
      (fun _ =>
         print (FileMissing "scaled_job_features.npy") ;;
         ret (dict_set (KStr "scaled_features") (PList []) base_data)) ;;
  ret base_data.

(** *** load_questions *)

(** The body of the loop over the languages. *)
Definition load_question_column (w : world) (questions_df : DataFrame) (lang : string)
    (questions_dict : dict) : M dict :=
  if has_column questions_df lang then
    col <- df_getitem w questions_df lang ;;
    let questions := map fillna_str col in
    print (QuestionColumn lang (List.length questions)) ;;
    ret (dict_set (KStr lang) (PList (map PStr questions)) questions_dict)
  else
    print (QuestionFallback lang) ;;
    en <- df_getitem w questions_df "en" ;;
    ret (dict_set (KStr lang) (PList (map PStr (map fillna_str en)))
           questions_dict).

Definition load_questions (w : world) : M (dict * nat) :=
  print (Progress "Loading questions.tsv...") ;;
  let questions_dict : dict := [] in
  try_except
    (questions_df <- call (pd_read_csv w "questions.tsv") ;;
     print (FileLoaded "questions.tsv" (List.length (rows questions_df))) ;;
     questions_dict <-
       for_each languages questions_dict (load_question_column w questions_df) ;;
     ret (questions_dict, List.length (rows questions_df)))
    is_file_not_found
    (fun _ =>
       print (FileMissing "questions.tsv") ;;
       ret (([] : dict), 0%nat)).

(** *** convert_tsv_files *)

(** The body of the loop over [df.iterrows()], the same for the two norm
    tables. *)
Definition norms_row (w : world) (df : DataFrame) (row : list cell) (norms : dict)
    : M dict :=
  g <- row_getitem df row "group" ;;
  group <- py_int w g ;;
  let values := map cell_val (skipn 1 row) in
  ret (dict_set (KInt group) (PList values) norms).

Definition norms_json (w : world) (df : DataFrame) : M dict :=
  for_each (df_values w df) ([] : dict) (norms_row w df).

Definition convert_tsv_files (w : world) : M dict :=
  print (Progress "Converting .tsv files...") ;;
  let tsv_data : dict := [] in
  tsv_data <-
    try_except
      (mean_norms <- call (pd_read_csv w "meanNorms.tsv") ;;
       mean_norms_json <- norms_json w mean_norms ;;
       print (FileLoaded "meanNorms.tsv" (List.length mean_norms_json)) ;;
       ret (dict_set (KStr "mean_norms") (PDict mean_norms_json) tsv_data))
      is_file_not_found
      (fun _ =>
         print (FileMissing "meanNorms.tsv") ;;
         ret (dict_set (KStr "mean_norms") (PDict []) tsv_data)) ;;
  tsv_data <-
    try_except
      (sd_norms <- call (pd_read_csv w "sdNorms.tsv") ;;
       sd_norms_json <- norms_json w sd_norms ;;
       print (FileLoaded "sdNorms.tsv" (List.length sd_norms_json)) ;;
       ret (dict_set (KStr "sd_norms") (PDict sd_norms_json) tsv_data))
      is_file_not_found
      (fun _ =>
         print (FileMissing "sdNorms.tsv") ;;
         ret (dict_set (KStr "sd_norms") (PDict []) tsv_data)) ;;
  tsv_data <-
    try_except
      (weights <- call (pd_read_csv w "weightsB5.tsv") ;;
       let values := map (fun row => PList (map cell_val row)) (df_values w weights) in
       print (FileLoaded "weightsB5.tsv" (List.length values)) ;;
       ret (dict_set (KStr "weights") (PList values) tsv_data))
      is_file_not_found
      (fun _ =>
         print (FileMissing "weightsB5.tsv") ;;
         ret (dict_set (KStr "weights") (PList []) tsv_data)) ;;
  ret tsv_data.

(** *** load_scaler *)

Definition trait_labels : pyval :=
  PList [PStr "Neuroticism"; PStr "Extraversion"; PStr "Openness";
         PStr "Agreeableness"; PStr "Conscientiousness"].

(** [x.attr.tolist() if hasattr(x, 'attr') else default], and the same
    with [int(x.attr)]; [bad] is what the conversion raises on an
    attribute that is not convertible. *)
Definition attr_or {A} (a : attr A) (bad : exn) (default : A) : M A :=
  match a with
  | NoAttr => ret default
  | Attr v => ret v
  | BadAttr => raise bad
  end.

Definition load_scaler (w : world) : M dict :=
  print (Progress "Loading scaler...") ;;
  try_except
    (scaler <- call (joblib_load w "your_scaler.pkl") ;;
     mean <- attr_or (mean_ scaler) AttributeError (PList []) ;;
     scale <- attr_or (scale_ scaler) AttributeError (PList []) ;;
     var <- attr_or (var_ scaler) AttributeError (PList []) ;;
     n_samples_seen <- attr_or (n_samples_seen_ scaler) TypeError 0%Z ;;
     let scaler_params := dict_of [
       (KStr "mean", mean);
       (KStr "scale", scale);
       (KStr "var", var);
       (KStr "n_samples_seen", PInt n_samples_seen);
       (KStr "feature_names", trait_labels)] in
     print (Progress "your_scaler.pkl loaded") ;;
     ret scaler_params)
    is_file_not_found
    (fun _ =>
       print (FileMissing "your_scaler.pkl") ;;
       ret ([] : dict)).

(** *** load_other_files *)

Definition load_other_files (w : world) : M dict :=
  print (Progress "Loading other support files...") ;;
  let other_data : dict := [] in
  other_data <-
    try_except
      (text_dict <- call (np_load_item w "text_dict.npy") ;;
       print (Progress "text_dict.npy loaded") ;;
       ret (dict_set (KStr "text_dict") text_dict other_data))
      any_exception
      (fun _ =>
         print (FileMissing "text_dict.npy") ;;
         ret (dict_set (KStr "text_dict") (PDict []) other_data)) ;;
  other_data <-
    try_except
      (language_display <- call (np_load_item w "language_display.npy") ;;
       print (Progress "language_display.npy loaded") ;;
       ret (dict_set (KStr "language_display") language_display other_data))
      any_exception
      (fun _ =>
         print (FileMissing "language_display.npy") ;;
         ret (dict_set (KStr "language_display") (PDict []) other_data)) ;;
  ret other_data.

(** *** get_translation_texts *)

Definition get_translation_texts : pyval :=
  PDict (dict_of [
    (KStr "titles", PDict (dict_of [
      (KStr "en", PStr "Your Big Five Personality Profile (T scores)");
      (KStr "zh", PStr "你的大五人格雷达图（T分）");
      (KStr "es", PStr "Tu Perfil de Personalidad Big Five (Puntajes T)");
      (KStr "fr", PStr "Votre profil de personnalité Big Five (scores T)");
      (KStr "ru", PStr "Ваш профиль личности по Big Five (T-баллы)");
      (KStr "ar", PStr "ملف الشخصية الخاص بك (Big Five) بدرجات T")]));
    (KStr "trait_names", PDict (dict_of [
      (KStr "en", PList [PStr "Neuroticism"; PStr "Extraversion"; PStr "Openness"; PStr "Agreeableness"; PStr "Conscientiousness"]);
      (KStr "zh", PList [PStr "神经质"; PStr "外向性"; PStr "开放性"; PStr "宜人性"; PStr "尽责性"]);
      (KStr "es", PList [PStr "Neuroticismo"; PStr "Extraversión"; PStr "Apertura"; PStr "Amabilidad"; PStr "Conciencia"]);
      (KStr "fr", PList [PStr "Névrosisme"; PStr "Extraversion"; PStr "Ouverture"; PStr "Amabilité"; PStr "Conscienciosité"]);
      (KStr "ru", PList [PStr "Невротизм"; PStr "Экстраверсия"; PStr "Открытость"; PStr "Доброжелательность"; PStr "Сознательность"]);
      (KStr "ar", PList [PStr "الضيق العصبي"; PStr "الانفتاح"; PStr "الانبساطية"; PStr "التعاطف"; PStr "الضمير المهني"])]));
    (KStr "disclaimer", PDict (dict_of [
      (KStr "en", PStr "The career recommendations provided here are for your reference only. It's important to consider your personal circumstances, preferences, and goals when making a career decision. We encourage you to explore different options and take the time to evaluate each one carefully. May you find a fulfilling and rewarding career that aligns with your values and aspirations. Best of luck on your journey to success! 😊");
      (KStr "zh", PStr "这里提供的职业推荐仅供参考。在做出职业选择时，请务必考虑您的个人情况、兴趣和目标。我们鼓励您探索不同的职业选项，并仔细评估每一个选择。希望您能够找到一个符合自己价值观和人生目标的理想职业，祝您在职业生涯中取得圆满成功！😊");
      (KStr "es", PStr "Las recomendaciones de carrera proporcionadas aquí son solo para su referencia. Es importante tener en cuenta sus circunstancias personales, preferencias y objetivos al tomar una decisión sobre su carrera. Le animamos a explorar diferentes opciones y tomarse el tiempo necesario para evaluar cada una de ellas con cuidado. ¡Le deseamos mucho éxito en su camino hacia una carrera gratificante y satisfactoria! 😊");
      (KStr "fr", PStr "Les recomendaciones de carrière fournies aquí son uniquement à titre de référence. Il est important de prendre en compte vos circonstances personnelles, vos préférences et vos objectifs lorsque vous prenez una décision concernant votre carrière. Nous vous encourageons à explorer diferentes opciones et à prendre le temps d'évaluer cada choix avec soin. Nous vous souhaitons de trouver une carrière épanouissante et gratifiante qui corresponde à vos valeurs et aspirations. Bonne chance dans votre parcours vers le succès ! 😊");
      (KStr "ru", PStr "Предоставленные рекомендации по карьере предназначены только для вашего ознакомления. Важно учитывать ваши личные обстоятельства, предпочтения и цели при принятии решения о карьере. Мы призываем вас исследовать различные варианты и уделять достаточно времени на тщательную оценку каждого из них. Желаем вам найти карьеру, которая будет соответствовать вашим ценностям и устремлениям, и успешного пути к успеху! 😊");
      (KStr "ar", PStr "التوصيات المهنية المقدمة здесь предназначены только для справки. Важно учитывать ваши личные обстоятельства, предпочтения и цели при принятии решения о карьере. Мы призываем вас исследовать различные варианты и уделять достаточно времени на тщательную оценку каждого из них. Желаем вам найти карьеру, которая будет соответствовать вашим ценностям и устремлениям, и успешного пути к успеху! 😊")]));
    (KStr "ideal_job_prompt", PDict (dict_of [
      (KStr "en", PStr "Please enter your ideal career (e.g., Data Scientist):");
      (KStr "zh", PStr "请输入您的理想职业（例如：数据科学家）：");
      (KStr "es", PStr "Por favor, introduzca su carrera ideal (por ejemplo: Científico de datos):");
      (KStr "fr", PStr "Veuillez saisir votre métier idéal (par exemple : Data Scientist) :");
      (KStr "ru", PStr "Пожалуйста, введите вашу идеальную профессию (например: специалист по данным):");
      (KStr "ar", PStr "يرجى إدخال مهنتك المثالية (مثال: عالم بيانات):")]));
    (KStr "ideal_job_warning", PDict (dict_of [
      (KStr "en", PStr "⚠️ Please enter your ideal career.");
      (KStr "zh", PStr "⚠️ 请输入您的理想职业。");
      (KStr "es", PStr "⚠️ Por favor, introduzca su carrera ideal.");
      (KStr "fr", PStr "⚠️ Veuillez saisir votre métier idéal.");
      (KStr "ru", PStr "⚠️ Пожалуйста, введите вашу идеальную профессию.");
      (KStr "ar", PStr "⚠️ يرجى إدخال مهنتك المثالية.")]));
    (KStr "ideal_job_result", PDict (dict_of [
      (KStr "en", PStr "The career closest to your ideal is: **{}**");
      (KStr "zh", PStr "您的理想职业最相近的是：**{}**");
      (KStr "es", PStr "La carrera más cercana a su ideal es: **{}**");
      (KStr "fr", PStr "Le métier le plus proche de votre idéal est : **{}**");
      (KStr "ru", PStr "Самая близкая к вашей идеальной профессия: **{}**");
      (KStr "ar", PStr "أقرب مهنة к вашей идеальной профессии: **{}**")]));
    (KStr "closest_text", PDict (dict_of [
      (KStr "en", PStr "Your trait closest to the ideal career:");
      (KStr "zh", PStr "与理想职业特征最接近的是：");
      (KStr "es", PStr "Tu rasgo más cercano al trabajo ideal:");
      (KStr "fr", PStr "Votre trait le plus proche du métier idéal :");
      (KStr "ru", PStr "Ваша черта, наиболее близкая к идеальной профессии:");
      (KStr "ar", PStr "سمتك الأقرب إلى المهنة المثالية:")]));
    (KStr "furthest_text", PDict (dict_of [
      (KStr "en", PStr "Your trait furthest from the ideal career:");
      (KStr "zh", PStr "与理想职业特征差距最大的是：");
      (KStr "es", PStr "Tu rasgo más alejado del trabajo ideal:");
      (KStr "fr", PStr "Votre trait le plus éloigné du métier idéal :");
      (KStr "ru", PStr "Ваша черта, наиболее далёкая от идеальной профессии:");
      (KStr "ar", PStr "سمتك الأبعد عن المهنة المثالية:")]))
  ]).

(** *** get_metadata *)

Definition get_metadata (w : world) : dict :=
  dict_of [
    (KStr "version", PStr "2.0.0");
    (KStr "created_at", PStr (timestamp_now w));
    (KStr "data_sources", PList [
       PStr "job_en.npy, job_zh.npy, job_es.npy, job_fr.npy, job_ru.npy, job_ar.npy";
       PStr "job_codes.npy";
       PStr "scaled_job_features.npy";
       PStr "pca_weights.npy";
       PStr "meanNorms.tsv";
       PStr "sdNorms.tsv";
       PStr "questions.tsv";
       PStr "weightsB5.tsv";
       PStr "your_scaler.pkl"]);
    (KStr "languages_supported", PList (map PStr languages));
    (KStr "n_jobs", PInt 263);
    (KStr "model_info", PDict (dict_of [
       (KStr "name", PStr "JobRecommenderMLP");
       (KStr "input_dim", PInt 5);
       (KStr "hidden_dim", PInt 128);
       (KStr "output_dim", PInt 263)]))].

(** *** convert_all_data *)

Definition norm_group (gender age_range description : string) : pyval :=
  PDict (dict_of [
    (KStr "gender", PStr gender);
    (KStr "age_range", PStr age_range);
    (KStr "description", PStr description)]).

Definition norm_groups : pyval :=
  PDict (dict_of [
    (KInt 1, norm_group "Female" "<35" "Female under 35");
    (KInt 2, norm_group "Female" ">=35" "Female 35 and over");
    (KInt 3, norm_group "Male" "<35" "Male under 35");
    (KInt 4, norm_group "Male" ">=35" "Male 35 and over")]).

(** [d.get(k, default)] on a dictionary built by the script itself. *)
Definition get_or (d : dict) (k : string) (default : pyval) : pyval :=
  match dict_get (KStr k) d with Some v => v | None => default end.

(** Step 8: the dictionary display that builds [complete_data]. *)
Definition complete_data_of (w : world) (job_translations base_data other_data
    questions_dict : dict) (n_questions : nat) (tsv_data scaler_params : dict)
    (translations : pyval) (n_jobs_en : nat) : dict :=
  dict_of (
    [ (KStr "job_translations", PDict job_translations);
      (KStr "job_codes", get_or base_data "job_codes" (PList []));
      (KStr "pca_weights", get_or base_data "pca_weights" (PList []));
      (KStr "scaled_features", get_or base_data "scaled_features" (PList []));
      (KStr "job_names", get_or job_translations "en" (PList [])) ]
    ++ other_data
    ++ [ (KStr "questions", PDict questions_dict) ]
    ++ tsv_data
    ++ [ (KStr "scaler_params", PDict scaler_params);
         (KStr "translations", translations);
         (KStr "metadata", PDict (dict_of (
            get_metadata w
            ++ [ (KStr "n_jobs", PInt (Z.of_nat n_jobs_en));
                 (KStr "n_questions", PInt (Z.of_nat n_questions));
                 (KStr "languages_available",
                    PList (map key_val (dict_keys job_translations))) ])));
         (KStr "norm_groups", norm_groups) ]).

Definition output_file : string := "app_data_complete.json".

(** Steps 10 and following: the summary, the validation lines and the
    examples, all computed from [complete_data]. *)
Definition print_summary (complete_data questions_dict : dict) (n_questions : nat)
    : M unit :=
  print (Progress "Data Summary:") ;;
  jt <- py_get (PDict complete_data) "job_translations" (PDict []) ;;
  en <- py_get jt "en" (PList []) ;;
  n_jobs <- py_len en ;;
  print (SummaryCount "Total Jobs" n_jobs) ;;
  print (SummaryCount "Total Questions" n_questions) ;;
  n_langs <- py_len jt ;;
  print (SummaryCount "Languages Available" n_langs) ;;
  sf <- py_get (PDict complete_data) "scaled_features" (PList []) ;;
  n_features <- py_len sf ;;
  print (SummaryCount "Job Features" n_features) ;;
  print (SummaryCount "Norm Groups" 4) ;;
  print (SummaryKeys "Question Languages" (dict_keys questions_dict)) ;;
  print (Progress "Data Validation:") ;;
  vs <- py_values jt ;;
  ok_translations <- all_len_eq n_jobs vs ;;
  print (Validation "Job translations" ok_translations) ;;
  jc <- py_get (PDict complete_data) "job_codes" (PList []) ;;
  n_codes <- py_len jc ;;
  print (Validation "Job codes" (Nat.eqb n_codes n_jobs)) ;;
  sf' <- py_get (PDict complete_data) "scaled_features" (PList []) ;;
  n_features' <- py_len sf' ;;
  print (Validation "Scaled features" (Nat.eqb n_features' n_jobs)) ;;
  print (Progress "Example Data (first 3 jobs in each language):") ;;
  for_each languages tt (fun lang _ =>
    present <- py_contains jt lang ;;
    if present then
      jobs_all <- py_getitem jt lang ;;
      jobs <- py_firstn 3 jobs_all ;;
      print (ExampleJobs lang
               (match jobs with PList l => l | other => [other] end))
    else ret tt).

(** The body of the [try] block. *)
Definition convert_all_data_try (w : world) : M (option string) :=
  job_translations <- load_multilingual_jobs w ;;
  base_data <- load_base_job_data w ;;
  other_data <- load_other_files w ;;
  qn <- load_questions w ;;
  let '(questions_dict, n_questions) := qn in
  tsv_data <- convert_tsv_files w ;;
  scaler_params <- load_scaler w ;;
  let translations := get_translation_texts in
  print (Progress "Building complete data structure...") ;;
  n_jobs_en <- py_len (get_or job_translations "en" (PList [])) ;;
  let complete_data :=
    complete_data_of w job_translations base_data other_data questions_dict
      n_questions tsv_data scaler_params translations n_jobs_en in
  print (Progress "Saving to JSON file...") ;;
  write_json (open_write w output_file) output_file (PDict complete_data) ;;
  print (Saved output_file) ;;
  print_summary complete_data questions_dict n_questions ;;
  ret (Some output_file).

Definition convert_all_data (w : world) : M (option string) :=
  print (Progress "Converting all data to JSON format...") ;;
  try_except
    (convert_all_data_try w)
    any_exception
    (fun e =>
       print (ConversionError e) ;;
       print (Traceback e) ;;
       ret None).

(** *** create_compact_version *)

Definition compact_file : string := "app_data_compact.json".

(** The dictionary display that builds [compact_data]; every [.get] and
    [len] is evaluated in the order of the display. *)
Definition compact_data_of (full_data : pyval) : M dict :=
  job_translations <- py_get full_data "job_translations" (PDict []) ;;
  job_codes <- py_get full_data "job_codes" (PList []) ;;
  scaled_features <- py_get full_data "scaled_features" (PList []) ;;
  pca_weights <- py_get full_data "pca_weights" (PList []) ;;
  questions <- py_get full_data "questions" (PDict []) ;;
  mean_norms <- py_get full_data "mean_norms" (PDict []) ;;
  sd_norms <- py_get full_data "sd_norms" (PDict []) ;;
  weights <- py_get full_data "weights" (PList []) ;;
  scaler_params <- py_get full_data "scaler_params" (PDict []) ;;
  translations <- py_get full_data "translations" (PDict []) ;;
  trait_names <- py_get translations "trait_names" (PDict []) ;;
  translations' <- py_get full_data "translations" (PDict []) ;;
  disclaimer <- py_get translations' "disclaimer" (PDict []) ;;
  jt <- py_get full_data "job_translations" (PDict []) ;;
  jobs_en <- py_get jt "en" (PList []) ;;
  n_jobs <- py_len jobs_en ;;
  qs <- py_get full_data "questions" (PDict []) ;;
  questions_en <- py_get qs "en" (PList []) ;;
  n_questions <- py_len questions_en ;;
  jt' <- py_get full_data "job_translations" (PDict []) ;;
  langs <- py_keys jt' ;;
  ret (dict_of [
    (KStr "job_translations", job_translations);
    (KStr "job_codes", job_codes);
    (KStr "scaled_features", scaled_features);
    (KStr "pca_weights", pca_weights);
    (KStr "questions", questions);
    (KStr "mean_norms", mean_norms);
    (KStr "sd_norms", sd_norms);
    (KStr "weights", weights);
    (KStr "scaler_params", scaler_params);
    (KStr "translations", PDict (dict_of [
       (KStr "trait_names", trait_names);
       (KStr "disclaimer", disclaimer)]));
    (KStr "metadata", PDict (dict_of [
       (KStr "n_jobs", PInt (Z.of_nat n_jobs));
       (KStr "n_questions", PInt (Z.of_nat n_questions));
       (KStr "languages", langs)]))]).

Definition create_compact_version (w : world) : M unit :=
  print (Progress "Creating compact version...") ;;
  try_except
    (full_data <- read_json "app_data_complete.json" ;;
     compact_data <- compact_data_of full_data ;;
     write_json (open_write w compact_file) compact_file (PDict compact_data) ;;
     print (Saved compact_file))
    any_exception
    (fun e => print (CompactFailed e)).

(** *** The [__main__] block *)

Definition main (w : world) : M unit :=
  output <- convert_all_data w ;;
  match output with
  | Some _ =>
      create_compact_version w ;;
      print (Progress "All conversions complete!") ;;
      print (Progress "Generated files:") ;;
      print (Progress "Next steps:")
  | None =>
      print (Progress "Conversion failed. Please check the error messages above.")
  end.

End Convert.
Export Convert.

(* ================================================================== *)
(** ** Vocabulary of the properties *)

Module Props.

(** Values that [json.load] can return: only [str] keys, none repeated. *)
Fixpoint str_unique (ks : list pykey) : bool :=
  match ks with
  | [] => true
  | k :: r =>
      match k with KStr _ => true | KInt _ => false end
      && negb (existsb (pykey_eqb k) r) && str_unique r
  end.

Fixpoint json_like (v : pyval) : bool :=
  match v with
  | PList l => forallb json_like l
  | PDict d =>
      str_unique (map fst d)
      && forallb (fun kv => let '(_, x) := kv in json_like x) d
  | _ => true
  end.

(** The value a computation returns when started on an empty console and
    an empty disk; for the loaders it is the value on every state. *)
Definition value_of {A} (m : M A) : res A := fst (m (mkState [] [])).

(** [log s evs]: the state [s] after printing [evs]. *)
Definition log (s : state) (evs : list event) : state :=
  mkState (console s ++ evs)%list (files s).

(** The lines a computation prints when started on that state. *)
Definition events_of {A} (m : M A) : list event :=
  console (snd (m (mkState [] []))).

(** A computation that only prints: its value and the lines it prints do
    not depend on the state, the disk is untouched, and every line
    satisfies [P]. *)
Definition prints_only {A} (P : event -> Prop) (m : M A) : Prop :=
  (forall s, m s = (value_of m, log s (events_of m))) /\ Forall P (events_of m).

(** What a value becomes when it is written to a file and read back. *)
Definition rt (v : pyval) : pyval := json_load (json_dump v).

(** The document stored under [name], as a consumer parses it. *)
Definition read_doc (name : string) (s : state) : option pyval :=
  match fs_lookup name (files s) with
  | Some (Text j) => Some (json_load j)
  | _ => None
  end.

(** [doc[k1][k2]...] *)
Fixpoint at_path (path : list string) (v : pyval) : option pyval :=
  match path with
  | [] => Some v
  | k :: r =>
      match v with
      | PDict d =>
          match dict_get (KStr k) d with
          | Some x => at_path r x
          | None => None
          end
      | _ => None
      end
  end.

(** No line printed by the assembly is the banner of the compact step. *)
Definition not_compact_banner (e : event) : Prop :=
  e <> Progress "Creating compact version...".

(** The path of the job-name file of a language. *)
Definition job_path (lang : string) : string := "job_" ++ lang ++ ".npy".

(** The exception of a library call that [except FileNotFoundError] does
    not catch. *)
Definition escapes {A} (o : load A) : option exn :=
  match o with
  | Raises e => if is_file_not_found e then None else Some e
  | Loaded _ => None
  end.

(** The value of a library call, or [default] when the file is missing. *)
Definition loaded_or {A} (default : A) (o : load A) : A :=
  match o with
  | Loaded a => a
  | Raises _ => default
  end.

Fixpoint first_error (es : list (option exn)) : option exn :=
  match es with
  | [] => None
  | Some e :: _ => Some e
  | None :: r => first_error r
  end.

(** What [load_multilingual_jobs] returns when it returns. *)
Definition job_list (w : world) (lang : string) : list pyval :=
  loaded_or [] (np_load_tolist w (job_path lang)).

Definition jobs_dict (w : world) : dict :=
  map (fun lang => (KStr lang, PList (job_list w lang))) languages.

Definition jobs_error (w : world) : option exn :=
  first_error (map (fun lang => escapes (np_load_tolist w (job_path lang))) languages).

(** The result of [try: body  except FileNotFoundError: default]. *)
Definition guarded {A} (r : res A) (default : A) : res A :=
  match r with
  | Ret a => Ret a
  | Raise e => if is_file_not_found e then Ret default else Raise e
  end.

Definition of_load {A} (o : load A) : res A :=
  match o with
  | Raises e => Raise e
  | Loaded a => Ret a
  end.

Definition res_map {A B} (f : A -> B) (r : res A) : res B :=
  match r with
  | Ret a => Ret (f a)
  | Raise e => Raise e
  end.

Definition res_bind {A B} (r : res A) (f : A -> res B) : res B :=
  match r with
  | Ret a => f a
  | Raise e => Raise e
  end.

Definition raised {A} (r : res A) : option exn :=
  match r with
  | Ret _ => None
  | Raise e => Some e
  end.

(** What the block of [load_base_job_data] for [pca_weights.npy] stores
    or raises: the list loaded, once the shape of a non-empty list has
    been computed for the message; the empty list when the load, or the
    shape computation, raises [FileNotFoundError]; any other exception of
    either escapes. *)
Definition pca_value (w : world) : res (list pyval) :=
  guarded
    (res_bind (of_load (np_load_tolist w "pca_weights.npy")) (fun l =>
       match l with
       | [] => Ret l
       | _ => res_map (fun _ => l) (of_load (np_array_shape w l))
       end))
    [].

Definition pca_list (w : world) : list pyval :=
  match pca_value w with
  | Ret l => l
  | Raise _ => []
  end.

(** What [load_base_job_data] returns when it returns. *)
Definition base_dict (w : world) : dict :=
  [ (KStr "job_codes", PList (loaded_or [] (np_load_tolist w "job_codes.npy")));
    (KStr "pca_weights", PList (pca_list w));
    (KStr "scaled_features",
       PList (loaded_or [] (np_load_tolist w "scaled_job_features.npy"))) ].

Definition base_error (w : world) : option exn :=
  first_error [ escapes (np_load_tolist w "job_codes.npy");
                raised (pca_value w);
                escapes (np_load_tolist w "scaled_job_features.npy") ].

(** What [load_other_files] returns. *)
Definition other_dict (w : world) : dict :=
  [ (KStr "text_dict", loaded_or (PDict []) (np_load_item w "text_dict.npy"));
    (KStr "language_display",
       loaded_or (PDict []) (np_load_item w "language_display.npy")) ].

(** The column of a table at a position, and the column a language gets
    in [load_questions]: its own, or else the English one. *)
Definition column_at (w : world) (df : DataFrame) (i : nat) : list cell :=
  series w df i.

Definition column_or_en (w : world) (df : DataFrame) (lang : string)
    : option (list cell) :=
  match index_of lang (columns df) with
  | Some i => Some (column_at w df i)
  | None => option_map (column_at w df) (index_of "en" (columns df))
  end.

Definition question_list (w : world) (df : DataFrame) (lang : string) : pyval :=
  PList (map PStr (map fillna_str
    (match column_or_en w df lang with Some c => c | None => [] end))).

Definition questions_dict_of (w : world) (df : DataFrame) : dict :=
  map (fun lang => (KStr lang, question_list w df lang)) languages.

(** What [load_questions] returns or raises. *)
Definition questions_value (w : world) : res (dict * nat) :=
  guarded
    (res_bind (of_load (pd_read_csv w "questions.tsv")) (fun df =>
       if has_column df "en"
       then Ret (questions_dict_of w df, List.length (rows df))
       else Raise (KeyError "en")))
    ([], 0%nat).

(** What one norm table contributes, and what [convert_tsv_files]
    returns or raises. *)
Definition norms_value (w : world) (o : load DataFrame) : res pyval :=
  guarded (res_bind (of_load o) (fun df => res_map PDict (value_of (norms_json w df))))
          (PDict []).

Definition weights_value (w : world) (o : load DataFrame) : res pyval :=
  guarded (res_map (fun df => PList (map (fun row => PList (map cell_val row))
                                         (df_values w df)))
             (of_load o))
          (PList []).

Definition tsv_value (w : world) : res dict :=
  res_bind (norms_value w (pd_read_csv w "meanNorms.tsv")) (fun mean_norms =>
  res_bind (norms_value w (pd_read_csv w "sdNorms.tsv")) (fun sd_norms =>
  res_bind (weights_value w (pd_read_csv w "weightsB5.tsv")) (fun weights =>
  Ret [ (KStr "mean_norms", mean_norms);
        (KStr "sd_norms", sd_norms);
        (KStr "weights", weights) ]))).

(** What [load_scaler] returns or raises. *)
Definition attr_value {A} (a : attr A) (bad : exn) (default : A) : res A :=
  match a with
  | NoAttr => Ret default
  | Attr v => Ret v
  | BadAttr => Raise bad
  end.

Definition scaler_params_of (sc : scaler) : res dict :=
  res_bind (attr_value (mean_ sc) AttributeError (PList [])) (fun mean =>
  res_bind (attr_value (scale_ sc) AttributeError (PList [])) (fun scale =>
  res_bind (attr_value (var_ sc) AttributeError (PList [])) (fun var =>
  res_bind (attr_value (n_samples_seen_ sc) TypeError 0%Z) (fun n =>
  Ret [ (KStr "mean", mean);
        (KStr "scale", scale);
        (KStr "var", var);
        (KStr "n_samples_seen", PInt n);
        (KStr "feature_names", trait_labels) ])))).

Definition scaler_value (w : world) : res dict :=
  guarded (res_bind (of_load (joblib_load w "your_scaler.pkl")) scaler_params_of) [].

(** What the table loaders and the scaler loader hand to the assembly. *)
Record tables : Type := mkTables {
  t_questions : dict;
  t_n_questions : nat;
  t_mean_norms : pyval;
  t_sd_norms : pyval;
  t_weights : pyval;
  t_scaler : dict
}.

Definition tables_of (w : world) : res tables :=
  res_bind (questions_value w) (fun qn =>
  res_bind (norms_value w (pd_read_csv w "meanNorms.tsv")) (fun mean_norms =>
  res_bind (norms_value w (pd_read_csv w "sdNorms.tsv")) (fun sd_norms =>
  res_bind (weights_value w (pd_read_csv w "weightsB5.tsv")) (fun weights =>
  res_bind (scaler_value w) (fun sc =>
  Ret (mkTables (fst qn) (snd qn) mean_norms sd_norms weights sc)))))).

(** Everything the loaders return, or the first exception that escapes
    them, in the order in which [convert_all_data] calls them. *)
Definition inputs_of (w : world) : res tables :=
  match jobs_error w with
  | Some e => Raise e
  | None =>
      match base_error w with
      | Some e => Raise e
      | None => tables_of w
      end
  end.

(** The assembled document, key by key. *)
Definition metadata_of (w : world) (t : tables) : dict :=
  [ (KStr "version", PStr "2.0.0");
    (KStr "created_at", PStr (timestamp_now w));
    (KStr "data_sources", PList [
       PStr "job_en.npy, job_zh.npy, job_es.npy, job_fr.npy, job_ru.npy, job_ar.npy";
       PStr "job_codes.npy";
       PStr "scaled_job_features.npy";
       PStr "pca_weights.npy";
       PStr "meanNorms.tsv";
       PStr "sdNorms.tsv";
       PStr "questions.tsv";
       PStr "weightsB5.tsv";
       PStr "your_scaler.pkl"]);
    (KStr "languages_supported", PList (map PStr languages));
    (KStr "n_jobs", PInt (Z.of_nat (List.length (job_list w "en"))));
    (KStr "model_info", PDict [
       (KStr "name", PStr "JobRecommenderMLP");
       (KStr "input_dim", PInt 5);
       (KStr "hidden_dim", PInt 128);
       (KStr "output_dim", PInt 263)]);
    (KStr "n_questions", PInt (Z.of_nat (t_n_questions t)));
    (KStr "languages_available", PList (map PStr languages)) ].

Definition document (w : world) (t : tables) : dict :=
  [ (KStr "job_translations", PDict (jobs_dict w));
    (KStr "job_codes", PList (loaded_or [] (np_load_tolist w "job_codes.npy")));
    (KStr "pca_weights", PList (pca_list w));
    (KStr "scaled_features",
       PList (loaded_or [] (np_load_tolist w "scaled_job_features.npy")));
    (KStr "job_names", PList (job_list w "en"));
    (KStr "text_dict", loaded_or (PDict []) (np_load_item w "text_dict.npy"));
    (KStr "language_display",
       loaded_or (PDict []) (np_load_item w "language_display.npy"));
    (KStr "questions", PDict (t_questions t));
    (KStr "mean_norms", t_mean_norms t);
    (KStr "sd_norms", t_sd_norms t);
    (KStr "weights", t_weights t);
    (KStr "scaler_params", PDict (t_scaler t));
    (KStr "translations", get_translation_texts);
    (KStr "metadata", PDict (metadata_of w t));
    (KStr "norm_groups", norm_groups) ].

(** The lines printed by the six loaders when all of them return. *)
Definition loading_events (w : world) : list event :=
  (events_of (load_multilingual_jobs w) ++ events_of (load_base_job_data w)
   ++ events_of (load_other_files w) ++ events_of (load_questions w)
   ++ events_of (convert_tsv_files w) ++ events_of (load_scaler w))%list.

(** The job lists of the six languages, in order. *)
Definition job_lists (w : world) : list (string * list pyval) :=
  map (fun lang => (lang, job_list w lang)) languages.

(** The full document as read back from [app_data_complete.json]: the
    loaded payloads have gone through [rt], and the integer keys of
    [norm_groups] have become strings. *)
Definition parsed_document (w : world) (t : tables) : dict :=
  [ (KStr "job_translations",
       PDict (map (fun lang => (KStr lang, PList (map rt (job_list w lang))))
                languages));
    (KStr "job_codes",
       PList (map rt (loaded_or [] (np_load_tolist w "job_codes.npy"))));
    (KStr "pca_weights",
       PList (map rt (pca_list w)));
    (KStr "scaled_features",
       PList (map rt (loaded_or [] (np_load_tolist w "scaled_job_features.npy"))));
    (KStr "job_names", PList (map rt (job_list w "en")));
    (KStr "text_dict", rt (loaded_or (PDict []) (np_load_item w "text_dict.npy")));
    (KStr "language_display",
       rt (loaded_or (PDict []) (np_load_item w "language_display.npy")));
    (KStr "questions", rt (PDict (t_questions t)));
    (KStr "mean_norms", rt (t_mean_norms t));
    (KStr "sd_norms", rt (t_sd_norms t));
    (KStr "weights", rt (t_weights t));
    (KStr "scaler_params", rt (PDict (t_scaler t)));
    (KStr "translations", get_translation_texts);
    (KStr "metadata", PDict (metadata_of w t));
    (KStr "norm_groups", PDict [
       (KStr "1", norm_group "Female" "<35" "Female under 35");
       (KStr "2", norm_group "Female" ">=35" "Female 35 and over");
       (KStr "3", norm_group "Male" "<35" "Male under 35");
       (KStr "4", norm_group "Male" ">=35" "Male 35 and over")]) ].

(** The compact document built from the dictionary [d] read back from
    the full file, given the values the nested lookups produced. *)
Definition compact_of (d : dict) (trait_names disclaimer : pyval)
    (n_jobs n_questions : nat) (langs : pyval) : dict :=
  [ (KStr "job_translations", get_or d "job_translations" (PDict []));
    (KStr "job_codes", get_or d "job_codes" (PList []));
    (KStr "scaled_features", get_or d "scaled_features" (PList []));
    (KStr "pca_weights", get_or d "pca_weights" (PList []));
    (KStr "questions", get_or d "questions" (PDict []));
    (KStr "mean_norms", get_or d "mean_norms" (PDict []));
    (KStr "sd_norms", get_or d "sd_norms" (PDict []));
    (KStr "weights", get_or d "weights" (PList []));
    (KStr "scaler_params", get_or d "scaler_params" (PDict []));
    (KStr "translations", PDict [
       (KStr "trait_names", trait_names);
       (KStr "disclaimer", disclaimer)]);
    (KStr "metadata", PDict [
       (KStr "n_jobs", PInt (Z.of_nat n_jobs));
       (KStr "n_questions", PInt (Z.of_nat n_questions));
       (KStr "languages", langs)]) ].

(** One sub-field of the static text registry. *)
Definition translations_field (k : string) : pyval :=
  match get_translation_texts with
  | PDict td => get_or td k (PDict [])
  | _ => PDict []
  end.

(** The compact document of a run whose loaders returned [t]. *)
Definition compact_document (w : world) (t : tables) : dict :=
  compact_of (parsed_document w t)
    (translations_field "trait_names") (translations_field "disclaimer")
    (List.length (job_list w "en")) (t_n_questions t)
    (PList (map PStr languages)).

(** A dictionary all of whose values are lists. *)
Definition lists_dict (ls : list (string * list pyval)) : dict :=
  map (fun kl => (KStr (fst kl), PList (snd kl))) ls.

Definition lookup_list (k : string) (ls : list (string * list pyval)) : list pyval :=
  match dict_get (KStr k) (lists_dict ls) with
  | Some (PList l) => l
  | _ => []
  end.

(** The lines of the "Data Validation" block. *)
Definition is_validation (e : event) : bool :=
  match e with Validation _ _ => true | _ => false end.

(** The summary and validation lines printed for a document whose job
    translations are [ls], job codes [jc] and scaled features [sf]. *)
Definition summary_lines (ls : list (string * list pyval)) (jc sf : list pyval)
    (qd : dict) (nq : nat) : list event :=
  let n_jobs := List.length (lookup_list "en" ls) in
  [ Progress "Data Summary:";
    SummaryCount "Total Jobs" n_jobs;
    SummaryCount "Total Questions" nq;
    SummaryCount "Languages Available" (List.length ls);
    SummaryCount "Job Features" (List.length sf);
    SummaryCount "Norm Groups" 4;
    SummaryKeys "Question Languages" (dict_keys qd);
    Progress "Data Validation:";
    Validation "Job translations"
      (forallb (fun kl => Nat.eqb (List.length (snd kl)) n_jobs) ls);
    Validation "Job codes" (Nat.eqb (List.length jc) n_jobs);
    Validation "Scaled features" (Nat.eqb (List.length sf) n_jobs);
    Progress "Example Data (first 3 jobs in each language):" ].

(** The lines after the validation block: neither validation lines nor
    the banner of the compact step. *)
Definition example_line (e : event) : Prop :=
  is_validation e = false /\ not_compact_banner e.

(** The validation lines [print_summary] prints for a document, on an
    empty console. *)
Definition validation_lines (complete_data : dict) : list event :=
  filter is_validation
    (console (snd (print_summary complete_data [] 0 (mkState [] [])))).

(** Modelled from the spec: check 4.3.1 read language by language, one
    verdict per language of [translations], true when that language's
    sequence has length [N_jobs], the length of the English sequence. *)
Definition spec_per_language_check (ls : list (string * list pyval))
    : list (string * bool) :=
  map (fun kl => (fst kl,
                  Nat.eqb (List.length (snd kl)) (List.length (lookup_list "en" ls))))
      ls.

(** The inputs guarded by [except FileNotFoundError], and the exception,
    if any, with which loading one of them escapes that guard: a failing
    library call, a missing [en] or [group] column, a group that is not a
    number, weights whose shape cannot be computed, a scaler attribute
    that cannot be converted. *)
Inductive source : Type :=
| SJobNames (lang : string)
| SJobCodes
| SPcaWeights
| SScaledFeatures
| SQuestions
| SMeanNorms
| SSdNorms
| SWeights
| SScaler.

Definition source_failure (w : world) (src : source) : option exn :=
  match src with
  | SJobNames lang =>
      if existsb (String.eqb lang) languages
      then escapes (np_load_tolist w (job_path lang))
      else None
  | SJobCodes => escapes (np_load_tolist w "job_codes.npy")
  | SPcaWeights => raised (pca_value w)
  | SScaledFeatures => escapes (np_load_tolist w "scaled_job_features.npy")
  | SQuestions => raised (questions_value w)
  | SMeanNorms => raised (norms_value w (pd_read_csv w "meanNorms.tsv"))
  | SSdNorms => raised (norms_value w (pd_read_csv w "sdNorms.tsv"))
  | SWeights => raised (weights_value w (pd_read_csv w "weightsB5.tsv"))
  | SScaler => raised (scaler_value w)
  end.

(** The optional input files, one by one. *)
Inductive input : Type :=
| IJobNames (lang : string)
| IJobCodes
| IPcaWeights
| IScaledFeatures
| ITextDict
| ILanguageDisplay
| IQuestions
| IMeanNorms
| ISdNorms
| IWeights
| IScaler.

Definition input_path (i : input) : string :=
  match i with
  | IJobNames lang => job_path lang
  | IJobCodes => "job_codes.npy"
  | IPcaWeights => "pca_weights.npy"
  | IScaledFeatures => "scaled_job_features.npy"
  | ITextDict => "text_dict.npy"
  | ILanguageDisplay => "language_display.npy"
  | IQuestions => "questions.tsv"
  | IMeanNorms => "meanNorms.tsv"
  | ISdNorms => "sdNorms.tsv"
  | IWeights => "weightsB5.tsv"
  | IScaler => "your_scaler.pkl"
  end.

(** The job-name inputs are those of the six languages. *)
Definition valid_input (i : input) : Prop :=
  match i with
  | IJobNames lang => In lang languages
  | _ => True
  end.

(** A library call on a disk from which the file [path] has been
    deleted. *)
Definition absent {A} (path : string) (f : string -> load A) : string -> load A :=
  fun p => if String.eqb p path then Raises FileNotFoundError else f p.

(** The environment [w] with the file of input [i] deleted. *)
Definition without (i : input) (w : world) : world :=
  mkWorld (absent (input_path i) (np_load_tolist w))
          (np_array_shape w)
          (absent (input_path i) (np_load_item w))
          (absent (input_path i) (pd_read_csv w))
          (absent (input_path i) (joblib_load w))
          (num w) (timestamp_now w) (open_write w).

(** The fields of the full document that an input determines, with the
    value each takes when the input is missing. *)
Definition defaults (i : input) : list (list string * pyval) :=
  match i with
  | IJobNames lang =>
      (["job_translations"; lang], PList []) ::
      (if String.eqb lang "en"
       then [ (["job_names"], PList []); (["metadata"; "n_jobs"], PInt 0) ]
       else [])
  | IJobCodes => [ (["job_codes"], PList []) ]
  | IPcaWeights => [ (["pca_weights"], PList []) ]
  | IScaledFeatures => [ (["scaled_features"], PList []) ]
  | ITextDict => [ (["text_dict"], PDict []) ]
  | ILanguageDisplay => [ (["language_display"], PDict []) ]
  | IQuestions => [ (["questions"], PDict []); (["metadata"; "n_questions"], PInt 0) ]
  | IMeanNorms => [ (["mean_norms"], PDict []) ]
  | ISdNorms => [ (["sd_norms"], PDict []) ]
  | IWeights => [ (["weights"], PList []) ]
  | IScaler => [ (["scaler_params"], PDict []) ]
  end.

Definition touches (i : input) : list (list string) := map fst (defaults i).

Fixpoint is_prefix (p q : list string) : bool :=
  match p, q with
  | [], _ => true
  | _ :: _, [] => false
  | a :: p', b :: q' => String.eqb a b && is_prefix p' q'
  end.

(** Two paths are apart when neither leads into the other. *)
Definition apart (p q : list string) : bool :=
  negb (is_prefix q p) && negb (is_prefix p q).

(** What the table loaders hand over once the file of [i] is deleted. *)
Definition tables_without (i : input) (t : tables) : tables :=
  match i with
  | IQuestions =>
      mkTables [] 0 (t_mean_norms t) (t_sd_norms t) (t_weights t) (t_scaler t)
  | IMeanNorms =>
      mkTables (t_questions t) (t_n_questions t) (PDict []) (t_sd_norms t)
               (t_weights t) (t_scaler t)
  | ISdNorms =>
      mkTables (t_questions t) (t_n_questions t) (t_mean_norms t) (PDict [])
               (t_weights t) (t_scaler t)
  | IWeights =>
      mkTables (t_questions t) (t_n_questions t) (t_mean_norms t) (t_sd_norms t)
               (PList []) (t_scaler t)
  | IScaler =>
      mkTables (t_questions t) (t_n_questions t) (t_mean_norms t) (t_sd_norms t)
               (t_weights t) []
  | _ => t
  end.

(** The first line of [convert_all_data]. *)
Definition conversion_banner : event :=
  Progress "Converting all data to JSON format...".

(** The top-level fields of the compact whitelist, and the two retained
    sub-fields of [translations]. *)
Definition whitelist : list (list string) :=
  [ ["job_translations"]; ["job_codes"]; ["scaled_features"]; ["pca_weights"];
    ["questions"]; ["mean_norms"]; ["sd_norms"]; ["weights"]; ["scaler_params"];
    ["translations"; "trait_names"]; ["translations"; "disclaimer"] ].

(** *** Further behaviour of the script *)

(** The exception, if any, that stops the compact step before it writes:
    the full file is missing, is torn, or does not have the shape the
    lookups need. *)
Definition compact_input_error (s : state) : option exn :=
  match fs_lookup output_file (files s) with
  | None => Some FileNotFoundError
  | Some Torn => Some JSONDecodeError
  | Some (Text j) => raised (value_of (compact_data_of (json_load j)))
  end.

(** The top-level fields of the compact document that are copied from the
    full document, with the default each gets when the full document
    lacks it. *)
Definition compact_defaults : list (string * pyval) :=
  [ ("job_translations", PDict []); ("job_codes", PList []);
    ("scaled_features", PList []); ("pca_weights", PList []);
    ("questions", PDict []); ("mean_norms", PDict []); ("sd_norms", PDict []);
    ("weights", PList []); ("scaler_params", PDict []) ].

(** The keys, in order, of the mapping found at [path]. *)
Definition keys_at (path : list string) (doc : pyval) : option (list string) :=
  match at_path path doc with
  | Some (PDict d) => Some (map key_str (dict_keys d))
  | _ => None
  end.

(** The same disk and the same write behaviour, with the clock reading
    [now]. *)
Definition at_time (now : string) (w : world) : world :=
  mkWorld (np_load_tolist w) (np_array_shape w) (np_load_item w) (pd_read_csv w)
          (joblib_load w) (num w) now (open_write w).

(** The lengths of the six job lists, in the order of [languages]. *)
Definition job_lengths (w : world) : list nat :=
  map (fun lang => List.length (job_list w lang)) languages.

(** Lines other than the length warning. *)
Definition no_length_warning (e : event) : Prop :=
  forall l, e <> LengthWarning l.

(** How [int(c)] ends. *)
Definition conversion_value (c : conversion) : res Z :=
  match c with
  | Converted z => Ret z
  | NotANumber => Raise ValueError
  | TooLarge => Raise OverflowError
  end.

Definition int_of_cell (w : world) (c : cell) : res Z :=
  match c with
  | CNaN => Raise ValueError
  | CInt z => Ret z
  | CFloat lit => conversion_value (int_of_float (num w) lit)
  | CStr s => conversion_value (int_of_str (num w) s)
  end.

(** How [int(row['group'])] ends for a row of a norm table: with the
    group number of the row, with [KeyError] when the table has no
    [group] column, or with the exception of the conversion. *)
Definition group_of (w : world) (df : DataFrame) (row : list cell) : res Z :=
  match index_of "group" (columns df) with
  | Some i => int_of_cell w (nth i row CNaN)
  | None => Raise (KeyError "group")
  end.

(** The row has a group number; the row belongs to group [g]. *)
Definition has_group (w : world) (df : DataFrame) (row : list cell) : bool :=
  match group_of w df row with Ret _ => true | Raise _ => false end.

Definition in_group (w : world) (df : DataFrame) (g : Z) (row : list cell) : bool :=
  match group_of w df row with Ret g' => Z.eqb g' g | Raise _ => false end.

(** [row[1:].tolist()] *)
Definition row_values (row : list cell) : pyval :=
  PList (map cell_val (skipn 1 row)).

(** Lines other than those of the validation block. *)
Definition not_validation (e : event) : Prop := is_validation e = false.

(** The two norm tables and the field of the document each one fills. *)
Definition norm_tables : list (string * string) :=
  [ ("meanNorms.tsv", "mean_norms"); ("sdNorms.tsv", "sd_norms") ].

End Props.
Export Props.

(* ================================================================== *)
(** ** Sample environments *)

Module Samples.

Definition missing {A} : string -> load A := fun _ => Raises FileNotFoundError.

Definition always_ok : string -> write_outcome := fun _ => WriteOk.

(** The shape of a list of scalars or of equally long rows; rows of
    different lengths have none, and [np.array] raises [ValueError]. *)
Definition row_length (v : pyval) : option nat :=
  match v with
  | PList l => Some (List.length l)
  | _ => None
  end.

Definition sample_shape (x : list pyval) : load (list nat) :=
  match map row_length x with
  | [] => Loaded [0%nat]
  | None :: r =>
      if forallb (fun o => match o with None => true | Some _ => false end) r
      then Loaded [List.length x] else Raises ValueError
  | Some n :: r =>
      if forallb (fun o => match o with Some m => Nat.eqb m n | None => false end) r
      then Loaded [List.length x; n] else Raises ValueError
  end.

(** The number conversions on the numbers of the samples: small integers
    and the floats [1.0] and [2.0]. *)
Definition sample_numbers : numbers :=
  mkNumbers
    (fun z => str_of_Z z ++ ".0")
    (fun lit => if String.eqb lit "1.0" then Converted 1%Z
                else if String.eqb lit "2.0" then Converted 2%Z
                else if String.eqb lit "inf" then TooLarge
                else NotANumber)
    (fun s => if String.eqb s "+7" then Converted 7%Z else NotANumber).

(** Job names for three languages, the Chinese list one entry short;
    job codes; a question table with an English and a Chinese column; a
    mean-norm table; nothing else on disk. *)
Definition sample_arrays (p : string) : load (list pyval) :=
  if String.eqb p "job_en.npy" then Loaded [PStr "Actor"; PStr "Baker"]
  else if String.eqb p "job_zh.npy" then Loaded [PStr "Yanyuan"]
  else if String.eqb p "job_es.npy" then Loaded [PStr "Actor"; PStr "Panadero"]
  else if String.eqb p "job_codes.npy" then Loaded [PInt 11; PInt 12]
  else Raises FileNotFoundError.

Definition sample_questions : DataFrame :=
  mkDataFrame ["en"; "zh"]
    [ [CStr "I worry"; CNaN]; [CStr "I talk a lot"; CStr "Wo hen jiantan"] ].

Definition sample_tables (p : string) : load DataFrame :=
  if String.eqb p "questions.tsv" then Loaded sample_questions
  else if String.eqb p "meanNorms.tsv" then
    Loaded (mkDataFrame ["group"; "N"; "E"]
              [ [CFloat "1.0"; CFloat "2.5"; CFloat "3.5"];
                [CFloat "2.0"; CFloat "2.5"; CNaN] ])
  else Raises FileNotFoundError.

Definition sample_world : world :=
  mkWorld sample_arrays sample_shape missing sample_tables missing sample_numbers
          "2024-01-01T00:00:00" always_ok.

(** The same disk, except that [meanNorms.tsv] cannot be parsed. *)
Definition broken_norms_world : world :=
  mkWorld sample_arrays sample_shape missing
          (fun p => if String.eqb p "meanNorms.tsv" then Raises ParserError
                    else sample_tables p)
          missing sample_numbers "2024-01-01T00:00:00" always_ok.

(** The same disk, except that the full output file cannot be opened. *)
Definition read_only_world : world :=
  mkWorld sample_arrays sample_shape missing sample_tables missing sample_numbers
          "2024-01-01T00:00:00" (fun _ => OpenFails).

Definition empty_state : state := mkState [] [].

(** Two documents of two jobs, in each of which exactly one language has
    one job fewer than English: Chinese in the first, Spanish in the
    second. *)
Definition two_jobs : list pyval := [PStr "Actor"; PStr "Baker"].
Definition one_job : list pyval := [PStr "Actor"].

Definition lists_short_zh : list (string * list pyval) :=
  [ ("en", two_jobs); ("zh", one_job); ("es", two_jobs);
    ("fr", two_jobs); ("ru", two_jobs); ("ar", two_jobs) ].

Definition lists_short_es : list (string * list pyval) :=
  [ ("en", two_jobs); ("zh", two_jobs); ("es", one_job);
    ("fr", two_jobs); ("ru", two_jobs); ("ar", two_jobs) ].

Definition document_with (ls : list (string * list pyval)) : dict :=
  [ (KStr "job_translations", PDict (lists_dict ls));
    (KStr "job_codes", PList [PInt 11; PInt 12]);
    (KStr "scaled_features",
       PList [PList [PFloat "0.5"]; PList [PFloat "-0.5"]]) ].

(** A full document whose [metadata.n_questions] does not agree with
    its English question list, and a disk that holds it. *)
Definition stale_full_json : json :=
  JObj [ ("questions", JObj [ ("en", JArr [JStr "I worry"; JStr "I talk a lot"]) ]);
         ("metadata", JObj [ ("n_questions", JInt 5) ]) ].

Definition stale_full_state : state :=
  mkState [] [ ("app_data_complete.json", Text stale_full_json) ].

(** A disk that already holds a compact file from an earlier run, and
    an unrelated file. *)
Definition stale_state : state :=
  mkState [] [ ("app_data_compact.json", Text (JObj [("stale", JBool true)]));
               ("notes.txt", Torn) ].

(** The sample disk on which the compact file cannot be opened for
    writing. *)
Definition compact_read_only_world : world :=
  mkWorld sample_arrays sample_shape missing sample_tables missing sample_numbers
          "2024-01-01T00:00:00"
          (fun p => if String.eqb p "app_data_compact.json" then OpenFails else WriteOk).

(** The sample disk with a question table that has a Chinese column
    only. *)
Definition no_english_world : world :=
  mkWorld sample_arrays sample_shape missing
          (fun p => if String.eqb p "questions.tsv"
                    then Loaded (mkDataFrame ["zh"] [[CStr "Wo hen jiantan"]])
                    else sample_tables p)
          missing sample_numbers "2024-01-01T00:00:00" always_ok.

(** A disk whose scaler file holds an object without fitted attributes. *)
Definition bare_scaler_world : world :=
  mkWorld sample_arrays sample_shape missing sample_tables
          (fun _ => Loaded (mkScaler NoAttr NoAttr NoAttr NoAttr))
          sample_numbers "2024-01-01T00:00:00" always_ok.

(** The sample disk with PCA weights whose two rows differ in length. *)
Definition ragged_pca_world : world :=
  mkWorld (fun p => if String.eqb p "pca_weights.npy"
                    then Loaded [ PList [PFloat "0.5"; PFloat "0.25"];
                                  PList [PFloat "0.75"] ]
                    else sample_arrays p)
          sample_shape missing sample_tables missing sample_numbers
          "2024-01-01T00:00:00" always_ok.

(** A norm table without a [group] column, and one in which group 1
    occurs twice. *)
Definition ungrouped_norms : DataFrame :=
  mkDataFrame ["N"; "E"] [ [CFloat "2.5"; CFloat "3.5"] ].

Definition repeated_group_norms : DataFrame :=
  mkDataFrame ["group"; "N"]
    [ [CInt 1%Z; CFloat "2.5"]; [CInt 2%Z; CFloat "2.0"]; [CInt 1%Z; CFloat "3.0"] ].

End Samples.
Export Samples.

(* ================================================================== *)
(** ** Dictionaries *)

Local Open Scope list_scope.

Lemma pykey_eqb_spec a b : reflect (a = b) (pykey_eqb a b).
Proof.
  destruct a as [x|x], b as [y|y]; simpl; try (constructor; congruence).
  - destruct (Z.eqb_spec x y); constructor; congruence.
  - destruct (String.eqb_spec x y); constructor; congruence.
Qed.

Lemma pykey_eqb_refl k : pykey_eqb k k = true.
Proof. destruct (pykey_eqb_spec k k); congruence. Qed.

Lemma dict_get_set_same k v d : dict_get k (dict_set k v d) = Some v.
Proof.
  induction d as [|[k' v'] r IH]; simpl.
  - now rewrite pykey_eqb_refl.
  - destruct (pykey_eqb k k') eqn:E; simpl; rewrite E; auto.
Qed.

Lemma dict_get_set_other k k' v d :
  k <> k' -> dict_get k (dict_set k' v d) = dict_get k d.
Proof.
  intros N. induction d as [|[k0 v0] r IH]; simpl.
  - destruct (pykey_eqb_spec k k'); congruence.
  - destruct (pykey_eqb_spec k' k0); simpl.
    + subst k0. destruct (pykey_eqb_spec k k'); congruence.
    + destruct (pykey_eqb k k0); auto.
Qed.

Lemma existsb_key_In k ks : existsb (pykey_eqb k) ks = true <-> In k ks.
Proof.
  rewrite existsb_exists. split.
  - intros (x & Hx & E). destruct (pykey_eqb_spec k x); congruence.
  - intros H. exists k. split; auto using pykey_eqb_refl.
Qed.

(** Assigning to a key keeps the key sequence, or extends it by that key. *)
Lemma dict_set_keys k v d :
  map fst (dict_set k v d) =
  if existsb (pykey_eqb k) (map fst d) then map fst d else map fst d ++ [k].
Proof.
  induction d as [|[k' v'] r IH]; simpl; auto.
  destruct (pykey_eqb k k') eqn:E; simpl; auto.
  rewrite IH. destruct (existsb (pykey_eqb k) (map fst r)); auto.
Qed.

Lemma str_unique_snoc ks s :
  str_unique ks = true -> existsb (pykey_eqb (KStr s)) ks = false ->
  str_unique (ks ++ [KStr s]) = true.
Proof.
  induction ks as [|k r IH]; simpl; auto.
  intros H E. apply andb_prop in H as [H H3]. apply andb_prop in H as [H1 H2].
  apply orb_false_elim in E as [E1 E2].
  rewrite H1, IH by auto. simpl. rewrite andb_true_r.
  rewrite existsb_app. simpl. rewrite orb_false_r.
  apply negb_true_iff in H2. rewrite H2. simpl.
  destruct (pykey_eqb_spec k (KStr s)); auto. subst k.
  simpl in E1. now rewrite String.eqb_refl in E1.
Qed.

Lemma dict_set_str_unique s v d :
  str_unique (map fst d) = true ->
  str_unique (map fst (dict_set (KStr s) v d)) = true.
Proof.
  intros H. rewrite dict_set_keys.
  destruct (existsb (pykey_eqb (KStr s)) (map fst d)) eqn:E; auto.
  now apply str_unique_snoc.
Qed.

Lemma dict_set_forall (Q : pyval -> Prop) k v d :
  Q v -> Forall (fun kv => Q (snd kv)) d ->
  Forall (fun kv => Q (snd kv)) (dict_set k v d).
Proof.
  intros Hv H. induction H as [|[k' v'] r Hx Hr IH]; simpl.
  - repeat constructor; auto.
  - destruct (pykey_eqb k k'); constructor; auto.
Qed.

(** On a key sequence without repetition, building a dictionary item by
    item gives back the items. *)
Lemma dict_set_fresh k v d :
  existsb (pykey_eqb k) (map fst d) = false -> dict_set k v d = d ++ [(k, v)].
Proof.
  induction d as [|[k' v'] r IH]; simpl; auto.
  intros E. apply orb_false_elim in E as [E1 E2].
  rewrite E1, IH; auto.
Qed.

Lemma dict_of_fresh_from items acc :
  str_unique (map fst (acc ++ items)) = true ->
  fold_left (fun d kv => dict_set (fst kv) (snd kv) d) items acc = acc ++ items.
Proof.
  revert acc. induction items as [|[k v] r IH]; intros acc H; simpl.
  - now rewrite app_nil_r.
  - assert (E : existsb (pykey_eqb k) (map fst acc) = false).
    { clear IH. induction acc as [|[k0 v0] a IHa]; simpl in *; auto.
      apply andb_prop in H as [H H3]. apply andb_prop in H as [H1 H2].
      rewrite IHa by auto. rewrite orb_false_r.
      apply negb_true_iff in H2. rewrite map_app, existsb_app in H2. simpl in H2.
      apply orb_false_elim in H2 as [_ H2]. apply orb_false_elim in H2 as [H2 _].
      destruct (pykey_eqb_spec k k0); auto. subst.
      now rewrite pykey_eqb_refl in H2. }
    rewrite dict_set_fresh by auto.
    rewrite IH; rewrite <- app_assoc; auto.
Qed.

Lemma dict_of_unique items :
  str_unique (map fst items) = true -> dict_of items = items.
Proof. intros H. unfold dict_of. now rewrite dict_of_fresh_from. Qed.

(* ================================================================== *)
(** ** Serialisation round trip *)

(** Induction over values and over JSON texts, through the lists they
    nest. *)
Lemma pyval_nested_ind (P : pyval -> Prop) :
  P PNone -> (forall b, P (PBool b)) -> (forall z, P (PInt z)) ->
  (forall lit, P (PFloat lit)) -> (forall s, P (PStr s)) ->
  (forall l, Forall P l -> P (PList l)) ->
  (forall d, Forall (fun kv => P (snd kv)) d -> P (PDict d)) ->
  forall v, P v.
Proof.
  intros HN HB HI HF HS HL HD.
  fix IH 1.
  intros [| b | z | lit | s | l | d];
    [exact HN | apply HB | apply HI | apply HF | apply HS | apply HL | apply HD].
  - induction l as [|x r IHr]; constructor; [apply IH | exact IHr].
  - induction d as [|[k x] r IHr]; constructor; [apply IH | exact IHr].
Qed.

Lemma json_nested_ind (P : json -> Prop) :
  P JNull -> (forall b, P (JBool b)) -> (forall z, P (JInt z)) ->
  (forall lit, P (JFloat lit)) -> (forall s, P (JStr s)) ->
  (forall l, Forall P l -> P (JArr l)) ->
  (forall m, Forall (fun kv => P (snd kv)) m -> P (JObj m)) ->
  forall j, P j.
Proof.
  intros HN HB HI HF HS HL HD.
  fix IH 1.
  intros [| b | z | lit | s | l | m];
    [exact HN | apply HB | apply HI | apply HF | apply HS | apply HL | apply HD].
  - induction l as [|x r IHr]; constructor; [apply IH | exact IHr].
  - induction m as [|[k x] r IHr]; constructor; [apply IH | exact IHr].
Qed.

Lemma fold_dict_set_like items : forall acc,
  str_unique (map fst acc) = true ->
  Forall (fun kv => json_like (snd kv) = true) acc ->
  Forall (fun kv => exists s, fst kv = KStr s) items ->
  Forall (fun kv => json_like (snd kv) = true) items ->
  let d := fold_left (fun d kv => dict_set (fst kv) (snd kv) d) items acc in
  str_unique (map fst d) = true /\ Forall (fun kv => json_like (snd kv) = true) d.
Proof.
  induction items as [|[k v] r IH]; intros acc Hu Ha Hk Hv; simpl; auto.
  inversion Hk as [|? ? [s Hs] Hk']; subst. inversion Hv; subst.
  simpl in Hs. subst k. apply IH; auto.
  - now apply dict_set_str_unique.
  - now apply dict_set_forall with (Q := fun v => json_like v = true).
Qed.

(** Whatever [json.load] returns has only [str] keys, none repeated. *)
Lemma json_load_like j : json_like (json_load j) = true.
Proof.
  induction j as [| | | | | l IH | m IH] using json_nested_ind; simpl; auto.
  - induction IH; simpl; auto. now rewrite H, IHIH.
  - unfold dict_of.
    destruct (fold_dict_set_like
      (map (fun kv : string * json => let '(k, x) := kv in (KStr k, json_load x)) m) [])
      as [Hu Hf]; simpl; auto.
    + clear IH. induction m as [|[k x] r IHr]; simpl; constructor; simpl; eauto.
    + induction IH as [|[k x] r Hx Hr IHr]; simpl; constructor; auto.
    + rewrite Hu. simpl. rewrite forallb_forall. intros [k x] Hin.
      rewrite Forall_forall in Hf. apply (Hf (k, x) Hin).
Qed.

Lemma str_unique_all_str ks :
  str_unique ks = true -> forall k, In k ks -> exists s, k = KStr s.
Proof.
  induction ks as [|k0 r IH]; simpl; [tauto|].
  intros H k [E | Hin].
  - subst. destruct k; [discriminate | eauto].
  - apply andb_prop in H as [_ H]. auto.
Qed.

(** On such values, dumping and loading again changes nothing. *)
Lemma like_roundtrip v : json_like v = true -> json_load (json_dump v) = v.
Proof.
  induction v as [| | | | | l IH | d IH] using pyval_nested_ind; simpl; auto.
  - intros H. f_equal. rewrite map_map.
    induction IH as [|x r Hx Hr IHr]; simpl in *; auto.
    apply andb_prop in H as [H1 H2]. now rewrite Hx, IHr.
  - intros H. apply andb_prop in H as [Hu Hv]. f_equal.
    rewrite map_map.
    assert (E : map (fun x : pykey * pyval =>
                 let '(k, x0) := let '(k, x0) := x in (key_str k, json_dump x0) in
                 (KStr k, json_load x0)) d = d).
    { pose proof (str_unique_all_str _ Hu) as Hs. clear Hu.
      induction IH as [|[k x] r Hx Hr IHr]; simpl in *; auto.
      apply andb_prop in Hv as [H1 H2].
      destruct (Hs k) as [s ->]; auto. simpl.
      rewrite Hx, IHr; auto. }
    rewrite E. now apply dict_of_unique.
Qed.

(** Loading, dumping and loading again is the same as loading once. *)
Lemma load_dump_load j : json_load (json_dump (json_load j)) = json_load j.
Proof. apply like_roundtrip, json_load_like. Qed.

Lemma json_like_get k d x :
  json_like (PDict d) = true -> dict_get k d = Some x -> json_like x = true.
Proof.
  simpl. intros H. apply andb_prop in H as [_ H]. rewrite forallb_forall in H.
  induction d as [|[k' v'] r IH]; simpl; [discriminate|].
  intros E. destruct (pykey_eqb k k').
  - injection E as <-. apply (H (k', v')). now left.
  - apply IH; auto. intros y Hy. apply H. now right.
Qed.

(* ================================================================== *)
(** ** Reasoning about runs *)

Lemma log_log s a b : log (log s a) b = log s (a ++ b).
Proof. unfold log. simpl. now rewrite app_assoc. Qed.

Lemma log_nil s : log s [] = s.
Proof. destruct s. unfold log. simpl. now rewrite app_nil_r. Qed.

Lemma prints_only_intro {A} (P : event -> Prop) (m : M A) v evs :
  (forall s, m s = (v, log s evs)) -> Forall P evs -> prints_only P m.
Proof.
  intros H F.
  assert (Ev : value_of m = v) by (unfold value_of; now rewrite H).
  assert (Ee : events_of m = evs) by (unfold events_of; now rewrite H).
  split; rewrite ?Ev, ?Ee; auto.
Qed.

Lemma bind_prints {A B} P (m : M A) (f : A -> M B) s :
  prints_only P m ->
  bind m f s =
  match value_of m with
  | Ret a => f a (log s (events_of m))
  | Raise e => (Raise e, log s (events_of m))
  end.
Proof.
  intros [Hm _]. unfold bind. rewrite Hm. now destruct (value_of m).
Qed.

Lemma try_prints {A} P (body : M A) catches handler s :
  prints_only P body ->
  try_except body catches handler s =
  match value_of body with
  | Ret a => (Ret a, log s (events_of body))
  | Raise e => if catches e then handler e (log s (events_of body))
               else (Raise e, log s (events_of body))
  end.
Proof.
  intros [Hm _]. unfold try_except. rewrite Hm. now destruct (value_of body).
Qed.

Section PrintsOnly.
Variable P : event -> Prop.

Lemma prints_only_ret {A} (a : A) : prints_only P (ret a).
Proof.
  apply prints_only_intro with (v := Ret a) (evs := []); auto.
  intros s. now rewrite log_nil.
Qed.

Lemma prints_only_raise {A} (e : exn) : prints_only P (@raise A e).
Proof.
  apply prints_only_intro with (v := Raise e) (evs := []); auto.
  intros s. now rewrite log_nil.
Qed.

Lemma prints_only_call {A} (o : load A) : prints_only P (call o).
Proof. destruct o; [apply prints_only_raise | apply prints_only_ret]. Qed.

Lemma prints_only_print e : P e -> prints_only P (print e).
Proof.
  intros H. apply prints_only_intro with (v := Ret tt) (evs := [e]); auto.
Qed.

Lemma prints_only_bind {A B} (m : M A) (f : A -> M B) :
  prints_only P m -> (forall a, prints_only P (f a)) ->
  prints_only P (bind m f).
Proof.
  intros Hm Hf.
  destruct (value_of m) as [a|e] eqn:V.
  - destruct (Hf a) as [Hfa Ffa].
    apply prints_only_intro
      with (v := value_of (f a)) (evs := events_of m ++ events_of (f a)).
    + intros s. rewrite (bind_prints P) by auto. rewrite V, Hfa.
      now rewrite log_log.
    + apply Forall_app. split; [apply Hm | auto].
  - apply prints_only_intro with (v := Raise e) (evs := events_of m).
    + intros s. rewrite (bind_prints P) by auto. now rewrite V.
    + apply Hm.
Qed.

Lemma prints_only_try {A} (body : M A) catches handler :
  prints_only P body -> (forall e, prints_only P (handler e)) ->
  prints_only P (try_except body catches handler).
Proof.
  intros Hm Hf.
  destruct (value_of body) as [a|e] eqn:V.
  - apply prints_only_intro with (v := Ret a) (evs := events_of body).
    + intros s. rewrite (try_prints P) by auto. now rewrite V.
    + apply Hm.
  - destruct (catches e) eqn:C.
    + destruct (Hf e) as [Hfe Ffe].
      apply prints_only_intro
        with (v := value_of (handler e))
             (evs := events_of body ++ events_of (handler e)).
      * intros s. rewrite (try_prints P) by auto. rewrite V, C, Hfe.
        now rewrite log_log.
      * apply Forall_app. split; [apply Hm | auto].
    + apply prints_only_intro with (v := Raise e) (evs := events_of body).
      * intros s. rewrite (try_prints P) by auto. now rewrite V, C.
      * apply Hm.
Qed.

Lemma prints_only_for_each {A S} (xs : list A) (body : A -> S -> M S) :
  (forall x acc, prints_only P (body x acc)) ->
  forall acc, prints_only P (for_each xs acc body).
Proof.
  intros Hb. induction xs as [|x r IH]; intros acc; simpl.
  - apply prints_only_ret.
  - apply prints_only_bind; auto.
Qed.

Lemma prints_only_when b m : prints_only P m -> prints_only P (when b m).
Proof. destruct b; simpl; auto using prints_only_ret. Qed.

Lemma prints_only_map_m {A B} (f : A -> M B) xs :
  (forall x, prints_only P (f x)) -> prints_only P (map_m f xs).
Proof.
  intros Hf. induction xs as [|x r IH]; simpl.
  - apply prints_only_ret.
  - apply prints_only_bind; auto. intros y.
    apply prints_only_bind; auto. intros ys. apply prints_only_ret.
Qed.

Lemma prints_only_py_len v : prints_only P (py_len v).
Proof. destruct v; simpl; auto using prints_only_ret, prints_only_raise. Qed.

Lemma prints_only_py_get v k dflt : prints_only P (py_get v k dflt).
Proof. destruct v; simpl; auto using prints_only_ret, prints_only_raise. Qed.

Lemma prints_only_py_keys v : prints_only P (py_keys v).
Proof. destruct v; simpl; auto using prints_only_ret, prints_only_raise. Qed.

Lemma prints_only_py_values v : prints_only P (py_values v).
Proof. destruct v; simpl; auto using prints_only_ret, prints_only_raise. Qed.

Lemma prints_only_py_firstn n v : prints_only P (py_firstn n v).
Proof. destruct v; simpl; auto using prints_only_ret, prints_only_raise. Qed.

Lemma prints_only_py_contains v k : prints_only P (py_contains v k).
Proof. destruct v; simpl; auto using prints_only_ret, prints_only_raise. Qed.

Lemma prints_only_py_getitem v k : prints_only P (py_getitem v k).
Proof.
  destruct v; simpl; auto using prints_only_ret, prints_only_raise.
  destruct (dict_get (KStr k) d); auto using prints_only_ret, prints_only_raise.
Qed.

Lemma prints_only_py_int w c : prints_only P (py_int w c).
Proof.
  destruct c as [|z|lit|s]; simpl; auto using prints_only_ret, prints_only_raise.
  - destruct (int_of_float (num w) lit); simpl;
      auto using prints_only_ret, prints_only_raise.
  - destruct (int_of_str (num w) s); simpl;
      auto using prints_only_ret, prints_only_raise.
Qed.

Lemma prints_only_array_shape w x : prints_only P (array_shape w x).
Proof.
  destruct x; simpl; [apply prints_only_ret|].
  apply prints_only_bind; [apply prints_only_call|]. intros. apply prints_only_ret.
Qed.

Lemma prints_only_attr_or {A} (a : attr A) bad default :
  prints_only P (attr_or a bad default).
Proof. destruct a; simpl; auto using prints_only_ret, prints_only_raise. Qed.

Lemma prints_only_df_getitem w df name : prints_only P (df_getitem w df name).
Proof.
  unfold df_getitem.
  destruct (index_of name (columns df)); auto using prints_only_ret, prints_only_raise.
Qed.

Lemma prints_only_row_getitem df row name : prints_only P (row_getitem df row name).
Proof.
  unfold row_getitem.
  destruct (index_of name (columns df)); auto using prints_only_ret, prints_only_raise.
Qed.

Lemma prints_only_all_len_eq n vs : prints_only P (all_len_eq n vs).
Proof.
  induction vs as [|v r IH]; simpl.
  - apply prints_only_ret.
  - apply prints_only_bind; [apply prints_only_py_len|].
    intros k. destruct (Nat.eqb k n); auto using prints_only_ret.
Qed.

End PrintsOnly.

(** The value and the lines of a sequence of two steps. *)
Lemma value_of_bind {A B} P (m : M A) (f : A -> M B) :
  prints_only P m -> (forall a, prints_only P (f a)) ->
  value_of (bind m f) =
  match value_of m with Ret a => value_of (f a) | Raise e => Raise e end.
Proof.
  intros Hm Hf. unfold value_of at 1. rewrite (bind_prints P) by auto.
  destruct (value_of m) as [a|e]; auto.
  destruct (Hf a) as [E _]. now rewrite E.
Qed.

Lemma events_of_bind {A B} P (m : M A) (f : A -> M B) :
  prints_only P m -> (forall a, prints_only P (f a)) ->
  events_of (bind m f) =
  events_of m ++ match value_of m with Ret a => events_of (f a) | Raise e => [] end.
Proof.
  intros Hm Hf. unfold events_of at 1. rewrite (bind_prints P) by auto.
  destruct (value_of m) as [a|e]; simpl.
  - destruct (Hf a) as [E _]. now rewrite E.
  - now rewrite app_nil_r.
Qed.

Lemma value_of_try {A} P (body : M A) catches handler :
  prints_only P body -> (forall e, prints_only P (handler e)) ->
  value_of (try_except body catches handler) =
  match value_of body with
  | Ret a => Ret a
  | Raise e => if catches e then value_of (handler e) else Raise e
  end.
Proof.
  intros Hm Hf. unfold value_of at 1. rewrite (try_prints P) by auto.
  destruct (value_of body) as [a|e]; auto.
  destruct (catches e); auto.
  destruct (Hf e) as [E _]. now rewrite E.
Qed.

Lemma events_of_try {A} P (body : M A) catches handler :
  prints_only P body -> (forall e, prints_only P (handler e)) ->
  events_of (try_except body catches handler) =
  events_of body ++
  match value_of body with
  | Ret a => []
  | Raise e => if catches e then events_of (handler e) else []
  end.
Proof.
  intros Hm Hf. unfold events_of at 1. rewrite (try_prints P) by auto.
  destruct (value_of body) as [a|e]; simpl; [now rewrite app_nil_r|].
  destruct (catches e); simpl; [|now rewrite app_nil_r].
  destruct (Hf e) as [E _]. now rewrite E.
Qed.

Create HintDb prints.

#[local] Hint Resolve prints_only_ret prints_only_raise prints_only_call
  prints_only_print prints_only_when prints_only_py_len prints_only_py_get
  prints_only_py_keys prints_only_py_values prints_only_py_firstn
  prints_only_py_contains prints_only_py_getitem prints_only_py_int
  prints_only_array_shape prints_only_attr_or
  prints_only_df_getitem prints_only_row_getitem prints_only_all_len_eq
  : prints.

(** Decomposes a computation built from the combinators above. *)
Ltac prints_only_tac :=
  intros;
  repeat first
    [ apply prints_only_bind; [|intros]
    | apply prints_only_try; [|intros]
    | apply prints_only_for_each; intros
    | apply prints_only_map_m; intros
    | apply prints_only_when
    | apply prints_only_print; first [exact I | unfold not_compact_banner; discriminate]
    | match goal with
      | |- prints_only _ (if ?b then _ else _) => destruct b
      | |- prints_only _ (let '(_, _) := ?x in _) => destruct x
      | |- prints_only _ (match ?x with _ => _ end) => destruct x
      end
    | solve [auto with prints] ].

Lemma value_of_ret {A} (a : A) : value_of (ret a) = Ret a.
Proof. reflexivity. Qed.

Lemma value_of_raise {A} e : value_of (@raise A e) = Raise e.
Proof. reflexivity. Qed.

Lemma value_of_print e : value_of (print e) = Ret tt.
Proof. reflexivity. Qed.

Lemma value_of_when_print b e : value_of (when b (print e)) = Ret tt.
Proof. now destruct b. Qed.

Lemma value_of_call {A} (o : load A) :
  value_of (call o) = match o with Raises e => Raise e | Loaded a => Ret a end.
Proof. now destruct o. Qed.

(** Pushes [value_of] through a computation, statement by statement. *)
Ltac value_step :=
  first
    [ rewrite (value_of_bind not_compact_banner) by prints_only_tac
    | rewrite (value_of_try not_compact_banner) by prints_only_tac
    | rewrite value_of_print
    | rewrite value_of_when_print
    | rewrite value_of_call
    | rewrite value_of_ret
    | rewrite value_of_raise ];
  cbv beta iota.

Ltac value_steps := repeat value_step.

(** Skips a leading [print]. *)
Ltac skip_print :=
  rewrite (value_of_bind not_compact_banner) by prints_only_tac;
  rewrite value_of_print; cbv beta iota.

(* ================================================================== *)
(** ** The loaders *)

Lemma value_of_for_each {A S} P (body : A -> S -> M S) :
  (forall x acc, prints_only P (body x acc)) ->
  forall xs acc,
  value_of (for_each xs acc body) =
  fold_left (fun r x => res_bind r (fun a => value_of (body x a))) xs (Ret acc).
Proof.
  intros Hb. induction xs as [|x r IH]; intros acc; simpl; auto.
  rewrite (value_of_bind P); auto using prints_only_for_each.
  destruct (value_of (body x acc)) as [a|e]; auto.
  clear. induction r; simpl; auto.
Qed.

Lemma value_of_guarded {A} (body : M A) ev (default : A) :
  prints_only not_compact_banner body -> not_compact_banner ev ->
  value_of (try_except body is_file_not_found
              (fun _ => bind (print ev) (fun _ => ret default))) =
  guarded (value_of body) default.
Proof.
  intros Hb Hev. rewrite (value_of_try not_compact_banner); auto.
  intros e. apply prints_only_bind; auto using prints_only_print, prints_only_ret.
Qed.

Lemma load_job_file_prints w lang acc :
  prints_only not_compact_banner (load_job_file w lang acc).
Proof. unfold load_job_file. prints_only_tac. Qed.

#[local] Hint Resolve load_job_file_prints : prints.

Lemma load_job_file_value w lang acc :
  value_of (load_job_file w lang acc) =
  match escapes (np_load_tolist w (job_path lang)) with
  | Some e => Raise e
  | None => Ret (dict_set (KStr lang) (PList (job_list w lang)) acc)
  end.
Proof.
  unfold load_job_file, job_list, job_path.
  rewrite value_of_guarded by (try discriminate; prints_only_tac).
  value_steps.
  destruct (np_load_tolist w ("job_" ++ lang ++ ".npy")%string) as [e|l]; simpl.
  - now destruct (is_file_not_found e).
  - now value_steps.
Qed.

Lemma load_multilingual_jobs_prints w :
  prints_only not_compact_banner (load_multilingual_jobs w).
Proof. unfold load_multilingual_jobs. prints_only_tac. Qed.

Lemma load_multilingual_jobs_value w :
  value_of (load_multilingual_jobs w) =
  match jobs_error w with
  | Some e => Raise e
  | None => Ret (jobs_dict w)
  end.
Proof.
  unfold load_multilingual_jobs, jobs_error, jobs_dict.
  value_step. value_step.
  rewrite (value_of_for_each not_compact_banner) by auto with prints.
  cbn [languages fold_left map first_error res_bind].
  repeat (rewrite load_job_file_value;
          match goal with
          | |- context [escapes ?o] => destruct (escapes o); [reflexivity|]
          end; cbn [res_bind]).
  cbn - [job_list when distinct_count]. now value_steps.
Qed.

(** One guarded block of a loader, by cases on the library call. *)
Ltac guarded_case :=
  match goal with
  | |- context [match ?o with Raises _ => _ | Loaded _ => _ end] =>
      destruct o as [?e|?a]; cbn [escapes loaded_or first_error guarded of_load
                                   res_bind res_map];
      [ match goal with
        | |- context [is_file_not_found ?x] => destruct (is_file_not_found x) eqn:?
        end; value_steps; try reflexivity
      | value_steps; try reflexivity ]
  end.

Lemma load_base_job_data_prints w :
  prints_only not_compact_banner (load_base_job_data w).
Proof. unfold load_base_job_data. prints_only_tac. Qed.

Lemma array_shape_value w x :
  value_of (array_shape w x) =
  match x with
  | [] => Ret None
  | _ => res_map Some (of_load (np_array_shape w x))
  end.
Proof.
  destruct x as [|v r]; [reflexivity|]. unfold array_shape.
  value_steps. now destruct (np_array_shape w (v :: r)).
Qed.

(** The block of [load_base_job_data] for [pca_weights.npy]. *)
Lemma pca_block_value w base_data :
  value_of
    (try_except
       (bind (call (np_load_tolist w "pca_weights.npy")) (fun pca_weights =>
        bind (array_shape w pca_weights) (fun shape =>
        bind (print (ShapeLoaded "pca_weights.npy" shape)) (fun _ =>
        ret (dict_set (KStr "pca_weights") (PList pca_weights) base_data)))))
       is_file_not_found
       (fun _ => bind (print (FileMissing "pca_weights.npy"))
                   (fun _ => ret (dict_set (KStr "pca_weights") (PList []) base_data)))) =
  res_map (fun l => dict_set (KStr "pca_weights") (PList l) base_data) (pca_value w).
Proof.
  unfold pca_value.
  rewrite value_of_guarded by (try discriminate; prints_only_tac).
  value_steps.
  destruct (np_load_tolist w "pca_weights.npy") as [e|l]; cbn [of_load res_bind guarded].
  - now destruct (is_file_not_found e).
  - value_step. rewrite array_shape_value.
    destruct l as [|v r]; [now value_steps|].
    destruct (np_array_shape w (v :: r)) as [e|sh]; cbn [of_load res_map guarded].
    + now destruct (is_file_not_found e).
    + now value_steps.
Qed.

Lemma load_base_job_data_value w :
  value_of (load_base_job_data w) =
  match base_error w with
  | Some e => Raise e
  | None => Ret (base_dict w)
  end.
Proof.
  unfold load_base_job_data, base_error, base_dict.
  skip_print. value_step.
  rewrite value_of_guarded by (try discriminate; prints_only_tac).
  value_steps.
  destruct (np_load_tolist w "job_codes.npy") as [e|codes];
    cbn [escapes loaded_or first_error guarded].
  - destruct (is_file_not_found e); [|reflexivity].
    value_step. rewrite pca_block_value. unfold pca_list.
    destruct (pca_value w) as [l|e']; cbn [res_map raised first_error]; [|reflexivity].
    value_steps. now guarded_case.
  - value_steps. cbn [guarded].
    value_step. rewrite pca_block_value. unfold pca_list.
    destruct (pca_value w) as [l|e']; cbn [res_map raised first_error]; [|reflexivity].
    value_steps. now guarded_case.
Qed.

Lemma load_other_files_prints w :
  prints_only not_compact_banner (load_other_files w).
Proof. unfold load_other_files. prints_only_tac. Qed.

Lemma load_other_files_value w :
  value_of (load_other_files w) = Ret (other_dict w).
Proof.
  unfold load_other_files, other_dict, any_exception.
  value_steps.
  destruct (np_load_item w "text_dict.npy"); value_steps;
  destruct (np_load_item w "language_display.npy"); value_steps; reflexivity.
Qed.

Lemma load_question_column_prints w df lang acc :
  prints_only not_compact_banner (load_question_column w df lang acc).
Proof. unfold load_question_column. prints_only_tac. Qed.

#[local] Hint Resolve load_question_column_prints : prints.

Lemma load_question_column_value w df lang acc :
  value_of (load_question_column w df lang acc) =
  match column_or_en w df lang with
  | Some col => Ret (dict_set (KStr lang) (PList (map PStr (map fillna_str col))) acc)
  | None => Raise (KeyError "en")
  end.
Proof.
  unfold load_question_column, has_column, df_getitem, column_or_en, column_at.
  destruct (index_of lang (columns df)).
  - now value_steps.
  - value_steps. destruct (index_of "en" (columns df)); now value_steps.
Qed.

Lemma question_loop_value w df :
  value_of (for_each languages [] (load_question_column w df)) =
  if has_column df "en" then Ret (questions_dict_of w df) else Raise (KeyError "en").
Proof.
  rewrite (value_of_for_each not_compact_banner) by auto with prints.
  unfold has_column, questions_dict_of, question_list.
  cbn [languages fold_left map].
  destruct (index_of "en" (columns df)) as [i|] eqn:En.
  - assert (H : forall lang, exists c, column_or_en w df lang = Some c).
    { intros lang. unfold column_or_en. rewrite En.
      destruct (index_of lang (columns df)); simpl; eauto. }
    destruct (H "en") as [c1 E1], (H "zh") as [c2 E2], (H "es") as [c3 E3],
             (H "fr") as [c4 E4], (H "ru") as [c5 E5], (H "ar") as [c6 E6].
    cbn [res_bind]. rewrite !load_question_column_value.
    rewrite E1. cbn [res_bind]. rewrite load_question_column_value, E2.
    cbn [res_bind]. rewrite load_question_column_value, E3.
    cbn [res_bind]. rewrite load_question_column_value, E4.
    cbn [res_bind]. rewrite load_question_column_value, E5.
    cbn [res_bind]. rewrite load_question_column_value, E6.
    reflexivity.
  - cbn [res_bind]. rewrite load_question_column_value.
    unfold column_or_en. rewrite En. reflexivity.
Qed.

Lemma load_questions_prints w :
  prints_only not_compact_banner (load_questions w).
Proof. unfold load_questions. prints_only_tac. Qed.

Lemma load_questions_value w :
  value_of (load_questions w) = questions_value w.
Proof.
  unfold load_questions, questions_value.
  skip_print.
  rewrite value_of_guarded by (try discriminate; prints_only_tac).
  f_equal. value_steps.
  destruct (pd_read_csv w "questions.tsv") as [e|df]; cbn [of_load res_bind]; auto.
  value_steps. rewrite question_loop_value.
  destruct (has_column df "en"); now value_steps.
Qed.

Lemma norms_row_prints w df row acc :
  prints_only not_compact_banner (norms_row w df row acc).
Proof. unfold norms_row. prints_only_tac. Qed.

#[local] Hint Resolve norms_row_prints : prints.

Lemma norms_json_prints w df : prints_only not_compact_banner (norms_json w df).
Proof. unfold norms_json. prints_only_tac. Qed.

#[local] Hint Resolve norms_json_prints : prints.

Lemma convert_tsv_files_prints w :
  prints_only not_compact_banner (convert_tsv_files w).
Proof. unfold convert_tsv_files. prints_only_tac. Qed.

(** One norm-table block of [convert_tsv_files]. *)
Lemma norms_block_value w path key tsv_data :
  value_of
    (try_except
       (bind (call (pd_read_csv w path)) (fun df =>
        bind (norms_json w df) (fun json =>
        bind (print (FileLoaded path (List.length json))) (fun _ =>
        ret (dict_set (KStr key) (PDict json) tsv_data)))))
       is_file_not_found
       (fun _ => bind (print (FileMissing path))
                   (fun _ => ret (dict_set (KStr key) (PDict []) tsv_data)))) =
  res_map (fun v => dict_set (KStr key) v tsv_data) (norms_value w (pd_read_csv w path)).
Proof.
  unfold norms_value.
  rewrite value_of_guarded by (try discriminate; prints_only_tac).
  value_steps.
  destruct (pd_read_csv w path) as [e|df]; cbn [of_load res_bind guarded res_map].
  - now destruct (is_file_not_found e).
  - value_steps. destruct (value_of (norms_json w df)) as [d|e]; cbn [res_map guarded].
    + now value_steps.
    + now destruct (is_file_not_found e).
Qed.

Lemma convert_tsv_files_value w :
  value_of (convert_tsv_files w) = tsv_value w.
Proof.
  unfold convert_tsv_files, tsv_value.
  skip_print. value_step.
  rewrite norms_block_value.
  destruct (norms_value w (pd_read_csv w "meanNorms.tsv")) as [m|e];
    cbn [res_map res_bind]; auto.
  value_step. rewrite norms_block_value.
  destruct (norms_value w (pd_read_csv w "sdNorms.tsv")) as [sd|e];
    cbn [res_map res_bind]; auto.
  value_step. unfold weights_value.
  rewrite value_of_guarded by (try discriminate; prints_only_tac).
  value_steps.
  destruct (pd_read_csv w "weightsB5.tsv") as [e|df];
    cbn [of_load res_map guarded res_bind].
  - destruct (is_file_not_found e); now value_steps.
  - now value_steps.
Qed.

Lemma load_scaler_prints w : prints_only not_compact_banner (load_scaler w).
Proof. unfold load_scaler. prints_only_tac. Qed.

Lemma attr_or_value {A} (a : attr A) bad default :
  value_of (attr_or a bad default) = attr_value a bad default.
Proof. destruct a; reflexivity. Qed.

Lemma load_scaler_value w : value_of (load_scaler w) = scaler_value w.
Proof.
  unfold load_scaler, scaler_value.
  skip_print.
  rewrite value_of_guarded by (try discriminate; prints_only_tac).
  f_equal. value_steps.
  destruct (joblib_load w "your_scaler.pkl") as [e|sc]; cbn [of_load res_bind];
    [reflexivity|].
  unfold scaler_params_of.
  repeat (value_step; rewrite attr_or_value;
          match goal with
          | |- context [attr_value ?a ?b ?d] =>
              destruct (attr_value a b d); cbn [res_bind]; [|reflexivity]
          end).
  now value_steps.
Qed.

#[local] Hint Resolve load_multilingual_jobs_prints load_base_job_data_prints
  load_other_files_prints load_questions_prints convert_tsv_files_prints
  load_scaler_prints : prints.

(* ================================================================== *)
(** ** The assembled document *)

Lemma complete_data_document w qd nq m sd wt sc :
  complete_data_of w (jobs_dict w) (base_dict w) (other_dict w) qd nq
    [ (KStr "mean_norms", m); (KStr "sd_norms", sd); (KStr "weights", wt) ]
    sc get_translation_texts (List.length (job_list w "en")) =
  document w (mkTables qd nq m sd wt sc).
Proof. reflexivity. Qed.

(* ================================================================== *)
(** ** The summary and validation block *)

Lemma bind_print_run {B} e (f : unit -> M B) s : bind (print e) f s = f tt (log s [e]).
Proof. reflexivity. Qed.

Lemma bind_ret_run {A B} (a : A) (f : A -> M B) s : bind (ret a) f s = f a s.
Proof. reflexivity. Qed.

Lemma lists_dict_get k ls x :
  dict_get (KStr k) (lists_dict ls) = Some x -> x = PList (lookup_list k ls).
Proof.
  unfold lookup_list. intros E. rewrite E.
  induction ls as [|[k' l] r IH]; simpl in *; [discriminate|].
  destruct (String.eqb k k'); auto. now injection E as <-.
Qed.

Lemma py_get_list_run {B} k ls (f : pyval -> M B) s :
  bind (py_get (PDict (lists_dict ls)) k (PList [])) f s =
  f (PList (lookup_list k ls)) s.
Proof.
  cbn [py_get]. rewrite bind_ret_run.
  destruct (dict_get (KStr k) (lists_dict ls)) as [x|] eqn:E.
  - now rewrite (lists_dict_get _ _ _ E).
  - unfold lookup_list. now rewrite E.
Qed.

Lemma all_len_eq_run n ls s :
  all_len_eq n (dict_values (lists_dict ls)) s =
  (Ret (forallb (fun kl => Nat.eqb (List.length (snd kl)) n) ls), s).
Proof.
  induction ls as [|[k l] r IH]; simpl; auto.
  rewrite bind_ret_run. destruct (Nat.eqb (List.length l) n); auto.
Qed.

Lemma bind_all_len_eq_run {B} n ls (f : bool -> M B) s :
  bind (all_len_eq n (dict_values (lists_dict ls))) f s =
  f (forallb (fun kl => Nat.eqb (List.length (snd kl)) n) ls) s.
Proof. unfold bind. now rewrite all_len_eq_run. Qed.

Lemma for_each_unit_run {A} P (body : A -> unit -> M unit) xs :
  (forall x s, exists evs, body x tt s = (Ret tt, log s evs) /\ Forall P evs) ->
  forall s, exists evs, for_each xs tt body s = (Ret tt, log s evs) /\ Forall P evs.
Proof.
  intros Hb. induction xs as [|x r IH]; intros s; simpl.
  - exists []. now rewrite log_nil.
  - destruct (Hb x s) as (e1 & E1 & F1). unfold bind. rewrite E1.
    destruct (IH (log s e1)) as (e2 & E2 & F2). rewrite E2, log_log.
    exists (e1 ++ e2). split; auto. now apply Forall_app.
Qed.

(** What [print_summary] prints for a document of the expected shape,
    and that it returns. *)
Lemma print_summary_run cd qd nq ls jc sf s :
  dict_get (KStr "job_translations") cd = Some (PDict (lists_dict ls)) ->
  dict_get (KStr "job_codes") cd = Some (PList jc) ->
  dict_get (KStr "scaled_features") cd = Some (PList sf) ->
  exists examples,
    Forall example_line examples /\
    print_summary cd qd nq s =
    (Ret tt, log s (summary_lines ls jc sf qd nq ++ examples)).
Proof.
  intros Hjt Hjc Hsf. unfold print_summary.
  cbn [py_get]. rewrite Hjt, Hjc, Hsf.
  rewrite bind_print_run, bind_ret_run, py_get_list_run.
  repeat first [ rewrite bind_print_run | rewrite bind_ret_run
               | rewrite bind_all_len_eq_run | progress cbn [py_len py_values] ].
  rewrite !log_log. cbn [app].
  match goal with
  | |- context [for_each languages tt ?body (log s ?head)] =>
      destruct (for_each_unit_run example_line body languages) with (s := log s head)
        as (evs & E & F)
  end.
  - intros lang s1. cbn [py_contains py_getitem]. rewrite bind_ret_run.
    destruct (dict_get (KStr lang) (lists_dict ls)) as [x|] eqn:E.
    + rewrite (lists_dict_get _ _ _ E). cbn [py_firstn].
      rewrite !bind_ret_run. exists [ExampleJobs lang (firstn 3 (lookup_list lang ls))].
      split; [reflexivity|]. repeat constructor. discriminate.
    + exists []. rewrite log_nil. now split.
  - exists evs. split; auto. rewrite E, log_log. unfold summary_lines, lists_dict.
    now rewrite length_map.
Qed.

(* ================================================================== *)
(** ** The run of [convert_all_data] *)

Lemma loading_events_ok w : Forall not_compact_banner (loading_events w).
Proof.
  unfold loading_events. repeat (apply Forall_app; split);
  match goal with |- Forall _ (events_of ?m) =>
    assert (H : prints_only not_compact_banner m) by auto with prints; apply H end.
Qed.

Lemma bind_ret_write {B} name v (f : unit -> M B) s :
  bind (write_json WriteOk name v) f s =
  f tt (mkState (console s) (fs_put name (Text (json_dump v)) (files s))).
Proof. reflexivity. Qed.

Ltac raised :=
  rewrite ?log_log; eexists; split; [|reflexivity];
  repeat (apply Forall_app; split);
  match goal with
  | |- Forall _ (events_of ?m) =>
      let H := fresh in
      assert (H : prints_only not_compact_banner m) by auto with prints; apply H
  end.

Lemma convert_all_data_try_run w s :
  match inputs_of w with
  | Raise e =>
      exists evs, Forall not_compact_banner evs /\
        convert_all_data_try w s = (Raise e, log s evs)
  | Ret t =>
      exists examples, Forall example_line examples /\
        let before := loading_events w ++
             [ Progress "Building complete data structure...";
               Progress "Saving to JSON file..." ] in
        convert_all_data_try w s =
        match open_write w output_file with
        | WriteOk =>
            (Ret (Some output_file),
             mkState (console s ++ before ++ [Saved output_file]
                        ++ summary_lines (job_lists w)
                             (loaded_or [] (np_load_tolist w "job_codes.npy"))
                             (loaded_or [] (np_load_tolist w "scaled_job_features.npy"))
                             (t_questions t) (t_n_questions t)
                        ++ examples)
                     (fs_put output_file (Text (json_dump (PDict (document w t))))
                             (files s)))
        | OpenFails => (Raise OSError, log s before)
        | DumpFails =>
            (Raise OSError,
             mkState (console s ++ before) (fs_put output_file Torn (files s)))
        end
  end.
Proof.
  unfold convert_all_data_try, inputs_of, loading_events.
  rewrite (bind_prints not_compact_banner) by auto with prints.
  rewrite load_multilingual_jobs_value.
  destruct (jobs_error w) as [e|]; [raised|].
  rewrite (bind_prints not_compact_banner) by auto with prints.
  rewrite load_base_job_data_value.
  destruct (base_error w) as [e|]; [raised|].
  rewrite (bind_prints not_compact_banner) by auto with prints.
  rewrite load_other_files_value.
  rewrite (bind_prints not_compact_banner) by auto with prints.
  rewrite load_questions_value. unfold tables_of.
  destruct (questions_value w) as [[qd nq]|e]; cbn [res_bind fst snd]; [|raised].
  rewrite (bind_prints not_compact_banner) by auto with prints.
  rewrite convert_tsv_files_value. unfold tsv_value.
  destruct (norms_value w (pd_read_csv w "meanNorms.tsv")) as [m|e];
    cbn [res_bind]; [|raised].
  destruct (norms_value w (pd_read_csv w "sdNorms.tsv")) as [sd|e];
    cbn [res_bind]; [|raised].
  destruct (weights_value w (pd_read_csv w "weightsB5.tsv")) as [wt|e];
    cbn [res_bind]; [|raised].
  rewrite (bind_prints not_compact_banner) by auto with prints.
  rewrite load_scaler_value.
  destruct (scaler_value w) as [sc|e]; cbn [res_bind]; [|raised].
  rewrite bind_print_run.
  change (py_len (get_or (jobs_dict w) "en" (PList [])))
    with (@ret nat (List.length (job_list w "en"))).
  rewrite bind_ret_run, bind_print_run, complete_data_document.
  rewrite !log_log.
  set (t := mkTables qd nq m sd wt sc).
  destruct (open_write w output_file).
  - rewrite bind_ret_write, bind_print_run.
    match goal with
    | |- context [bind (print_summary _ _ _) _ ?s1] =>
        destruct (print_summary_run (document w t) qd nq (job_lists w)
                    (loaded_or [] (np_load_tolist w "job_codes.npy"))
                    (loaded_or [] (np_load_tolist w "scaled_job_features.npy")) s1)
          as (examples & F & E); try reflexivity
    end.
    exists examples. split; auto.
    unfold bind at 1. rewrite E. unfold ret, log. cbn [console files t_questions t_n_questions t].
    f_equal. f_equal. rewrite <- !app_assoc. reflexivity.
  - exists []. split; auto. unfold bind, write_json, log.
    now rewrite <- !app_assoc.
  - exists []. split; auto. unfold bind, write_json, log. cbn [console files].
    now rewrite <- !app_assoc.
Qed.

(* ================================================================== *)
(** ** The full document, read back *)

Lemma rt_list l : rt (PList l) = PList (map rt l).
Proof. unfold rt. simpl. now rewrite map_map. Qed.

Lemma rt_like v : json_like v = true -> rt v = v.
Proof. apply like_roundtrip. Qed.

Lemma rt_is_like v : json_like (rt v) = true.
Proof. apply json_load_like. Qed.

(** A dictionary with distinct [str] keys keeps its keys and order. *)
Lemma rt_str_dict d :
  str_unique (map fst d) = true ->
  rt (PDict d) = PDict (map (fun kv => (fst kv, rt (snd kv))) d).
Proof.
  intros Hu. unfold rt. simpl. rewrite map_map. f_equal.
  assert (E : map (fun x : pykey * pyval =>
               let '(k, x0) := let '(k, x0) := x in (key_str k, json_dump x0) in
               (KStr k, json_load x0)) d =
              map (fun kv => (fst kv, json_load (json_dump (snd kv)))) d).
  { pose proof (str_unique_all_str _ Hu) as Hs. clear Hu.
    induction d as [|[k x] r IH]; simpl in *; auto.
    destruct (Hs k) as [s0 ->]; auto. simpl. now rewrite IH by auto. }
  rewrite E. apply dict_of_unique.
  rewrite map_map. simpl. exact Hu.
Qed.

Lemma translations_like : json_like get_translation_texts = true.
Proof. vm_compute. reflexivity. Qed.

Lemma metadata_like w t : json_like (PDict (metadata_of w t)) = true.
Proof. reflexivity. Qed.

Lemma full_document_parsed w t :
  json_load (json_dump (PDict (document w t))) = PDict (parsed_document w t).
Proof.
  change (rt (PDict (document w t)) = PDict (parsed_document w t)).
  rewrite rt_str_dict by reflexivity.
  unfold document, parsed_document. cbn [map fst snd].
  rewrite !rt_list.
  rewrite (rt_like get_translation_texts) by apply translations_like.
  rewrite (rt_like (PDict (metadata_of w t))) by apply metadata_like.
  rewrite (rt_str_dict (jobs_dict w)) by reflexivity.
  unfold jobs_dict. cbn [languages map fst snd].
  rewrite !rt_list. reflexivity.
Qed.

(* ================================================================== *)
(** ** The compact step *)

Lemma compact_data_of_prints fd : prints_only not_compact_banner (compact_data_of fd).
Proof. unfold compact_data_of. prints_only_tac. Qed.

Lemma py_get_dict d k dflt : py_get (PDict d) k dflt = ret (get_or d k dflt).
Proof. reflexivity. Qed.

Lemma value_of_bind_ret {A B} (a : A) (f : A -> M B) :
  value_of (bind (ret a) f) = value_of (f a).
Proof. reflexivity. Qed.

Lemma value_of_bind_raise {A B} e (f : A -> M B) :
  value_of (bind (raise e) f) = Raise e.
Proof. reflexivity. Qed.

Lemma value_of_bind_len {B} v (f : nat -> M B) :
  (forall n, prints_only not_compact_banner (f n)) ->
  value_of (bind (py_len v) f) =
  match value_of (py_len v) with Ret n => value_of (f n) | Raise e => Raise e end.
Proof. intros. apply (value_of_bind not_compact_banner); auto with prints. Qed.

Ltac not_a_dict := cbn [py_get py_keys]; rewrite value_of_bind_raise; discriminate.

Ltac go :=
  repeat first
    [ rewrite py_get_dict
    | rewrite value_of_bind_ret
    | match goal with H : get_or _ _ _ = PDict _ |- _ => rewrite H end ].

Lemma compact_data_of_inv fd cd :
  value_of (compact_data_of fd) = Ret cd ->
  exists d td jt qs nj nq,
    fd = PDict d /\
    get_or d "translations" (PDict []) = PDict td /\
    get_or d "job_translations" (PDict []) = PDict jt /\
    get_or d "questions" (PDict []) = PDict qs /\
    value_of (py_len (get_or jt "en" (PList []))) = Ret nj /\
    value_of (py_len (get_or qs "en" (PList []))) = Ret nq /\
    cd = compact_of d (get_or td "trait_names" (PDict []))
           (get_or td "disclaimer" (PDict [])) nj nq
           (PList (map key_val (dict_keys jt))).
Proof.
  unfold compact_data_of.
  destruct fd as [| | | | | |d]; try not_a_dict.
  go.
  destruct (get_or d "translations" (PDict [])) as [| | | | | |td] eqn:Et;
    try not_a_dict.
  go.
  destruct (get_or d "job_translations" (PDict [])) as [| | | | | |jt] eqn:Ej;
    try not_a_dict.
  go.
  rewrite value_of_bind_len by prints_only_tac.
  destruct (value_of (py_len (get_or jt "en" (PList [])))) as [nj|] eqn:Enj;
    [|discriminate].
  go.
  destruct (get_or d "questions" (PDict [])) as [| | | | | |qs] eqn:Eq;
    try not_a_dict.
  go.
  rewrite value_of_bind_len by prints_only_tac.
  destruct (value_of (py_len (get_or qs "en" (PList [])))) as [nq|] eqn:Enq;
    [|discriminate].
  go. cbn [py_keys]. go. rewrite value_of_ret.
  intros H. injection H as <-.
  exists d, td, jt, qs, nj, nq. repeat split; auto.
  unfold compact_of. now rewrite Ej, Eq.
Qed.

(* ================================================================== *)
(** ** The questions handed to the assembly *)

Lemma strs_forallb l : forallb json_like (map PStr l) = true.
Proof. induction l; simpl; auto. Qed.

Lemma strs_like l : json_like (PList (map PStr l)) = true.
Proof. apply strs_forallb. Qed.

Lemma column_at_length w df i : List.length (column_at w df i) = List.length (rows df).
Proof. unfold column_at, series, column_cells. now rewrite !length_map. Qed.

Lemma column_or_en_length w df lang c :
  column_or_en w df lang = Some c -> List.length c = List.length (rows df).
Proof.
  unfold column_or_en.
  destruct (index_of lang (columns df)); [intros [= <-]; apply column_at_length|].
  destruct (index_of "en" (columns df)); simpl; [intros [= <-]; apply column_at_length|discriminate].
Qed.

Lemma question_list_length w df lang :
  has_column df "en" = true ->
  exists l, question_list w df lang = PList (map PStr l) /\
            List.length l = List.length (rows df).
Proof.
  unfold has_column, question_list. intros H.
  destruct (column_or_en w df lang) as [c|] eqn:E.
  - exists (map fillna_str c). split; auto.
    rewrite length_map. eapply column_or_en_length; eauto.
  - unfold column_or_en in E.
    destruct (index_of lang (columns df)); [discriminate|].
    destruct (index_of "en" (columns df)); discriminate.
Qed.

(** The questions a run hands to the assembly: nothing, or six columns of
    strings, one entry per row of the table. *)
Lemma questions_value_shape w qd nq :
  questions_value w = Ret (qd, nq) ->
  (qd = [] /\ nq = 0%nat) \/
  (exists df, pd_read_csv w "questions.tsv" = Loaded df /\
              has_column df "en" = true /\
              qd = questions_dict_of w df /\ nq = List.length (rows df)).
Proof.
  unfold questions_value.
  destruct (pd_read_csv w "questions.tsv") as [e|df]; cbn [of_load res_bind guarded].
  - destruct (is_file_not_found e); [|discriminate]. intros [= <- <-]. now left.
  - destruct (has_column df "en") eqn:H; cbn [guarded]; [|discriminate].
    intros [= <- <-]. right. exists df. auto.
Qed.

Lemma questions_dict_like w df :
  has_column df "en" = true -> json_like (PDict (questions_dict_of w df)) = true.
Proof.
  intros H. unfold questions_dict_of. cbn [languages map].
  destruct (question_list_length w df "en" H) as (l1 & -> & _).
  destruct (question_list_length w df "zh" H) as (l2 & -> & _).
  destruct (question_list_length w df "es" H) as (l3 & -> & _).
  destruct (question_list_length w df "fr" H) as (l4 & -> & _).
  destruct (question_list_length w df "ru" H) as (l5 & -> & _).
  destruct (question_list_length w df "ar" H) as (l6 & -> & _).
  cbn [json_like map fst str_unique existsb pykey_eqb String.eqb Ascii.eqb Bool.eqb
       negb andb orb forallb].
  now rewrite !strs_forallb.
Qed.

Lemma tables_questions w t :
  inputs_of w = Ret t -> questions_value w = Ret (t_questions t, t_n_questions t).
Proof.
  unfold inputs_of, tables_of.
  destruct (jobs_error w); [discriminate|].
  destruct (base_error w); [discriminate|].
  destruct (questions_value w) as [[qd nq]|]; cbn [res_bind]; [|discriminate].
  destruct (norms_value _); cbn [res_bind]; [|discriminate].
  destruct (norms_value _); cbn [res_bind]; [|discriminate].
  destruct (weights_value _); cbn [res_bind]; [|discriminate].
  destruct (scaler_value w); cbn [res_bind]; [|discriminate].
  now intros [= <-].
Qed.

Lemma questions_readback w t :
  inputs_of w = Ret t ->
  rt (PDict (t_questions t)) = PDict (t_questions t) /\
  value_of (py_len (get_or (t_questions t) "en" (PList []))) = Ret (t_n_questions t).
Proof.
  intros H. apply tables_questions in H.
  destruct (questions_value_shape _ _ _ H) as [[-> ->] | (df & _ & Hen & -> & ->)].
  - split; reflexivity.
  - split; [apply rt_like, questions_dict_like; auto|].
    unfold questions_dict_of. cbn [languages map get_or dict_get pykey_eqb String.eqb Ascii.eqb Bool.eqb].
    destruct (question_list_length w df "en" Hen) as (l & -> & L).
    cbn [py_len]. rewrite value_of_ret, length_map. now rewrite L.
Qed.


(* ================================================================== *)
(** ** The whole run *)

Lemma compact_value w t :
  inputs_of w = Ret t ->
  value_of (compact_data_of (PDict (parsed_document w t))) = Ret (compact_document w t).
Proof.
  intros H. destruct (questions_readback w t H) as [Hq Hn].
  unfold compact_data_of.
  repeat (rewrite py_get_dict, value_of_bind_ret).
  change (get_or (parsed_document w t) "translations" (PDict []))
    with get_translation_texts.
  change (py_get get_translation_texts "trait_names" (PDict []))
    with (@ret pyval (translations_field "trait_names")).
  rewrite !value_of_bind_ret.
  change (py_get get_translation_texts "disclaimer" (PDict []))
    with (@ret pyval (translations_field "disclaimer")).
  rewrite !value_of_bind_ret.
  change (py_get (get_or (parsed_document w t) "job_translations" (PDict [])) "en"
            (PList []))
    with (@ret pyval (PList (map rt (job_list w "en")))).
  rewrite value_of_bind_ret. cbn [py_len]. rewrite !value_of_bind_ret.
  change (get_or (parsed_document w t) "questions" (PDict []))
    with (rt (PDict (t_questions t))).
  rewrite Hq, py_get_dict, value_of_bind_ret.
  rewrite value_of_bind_len by prints_only_tac. rewrite Hn.
  rewrite !value_of_bind_ret.
  change (py_keys (get_or (parsed_document w t) "job_translations" (PDict [])))
    with (@ret pyval (PList (map PStr languages))).
  rewrite value_of_bind_ret, value_of_ret, length_map.
  unfold compact_document, compact_of.
  change (get_or (parsed_document w t) "questions" (PDict []))
    with (rt (PDict (t_questions t))).
  rewrite Hq. reflexivity.
Qed.

Lemma compact_data_of_silent fd : events_of (compact_data_of fd) = [].
Proof.
  assert (H : prints_only (fun _ => False) (compact_data_of fd))
    by (unfold compact_data_of; prints_only_tac).
  destruct H as [_ F]. destruct (events_of (compact_data_of fd)); auto.
  inversion F; contradiction.
Qed.

Lemma bind_prints_state {A B} (m : M A) (f : A -> M B) s :
  bind m f s = match m s with
               | (Ret a, s') => f a s'
               | (Raise e, s') => (Raise e, s')
               end.
Proof. reflexivity. Qed.

(** The compact step on a disk that holds a full document. *)
Lemma create_compact_version_run w s j cd :
  fs_lookup output_file (files s) = Some (Text j) ->
  value_of (compact_data_of (json_load j)) = Ret cd ->
  open_write w compact_file = WriteOk ->
  create_compact_version w s =
  (Ret tt,
   mkState (console s ++ [Progress "Creating compact version..."; Saved compact_file])
           (fs_put compact_file (Text (json_dump (PDict cd))) (files s))).
Proof.
  intros Hf Hv Hw. unfold create_compact_version.
  rewrite bind_print_run. unfold try_except, read_json.
  unfold bind at 1. cbn [files log]. fold output_file. rewrite Hf.
  rewrite (bind_prints not_compact_banner) by apply compact_data_of_prints.
  rewrite Hv, compact_data_of_silent, log_nil, Hw.
  unfold bind, write_json, print, log. cbn [console files].
  now rewrite <- app_assoc.
Qed.

(** The whole of [convert_all_data] when the loaders return and the full
    file can be written. *)
Lemma convert_all_data_ok w s t :
  inputs_of w = Ret t -> open_write w output_file = WriteOk ->
  exists evs,
    convert_all_data w s =
    (Ret (Some output_file),
     mkState (console s ++ Progress "Converting all data to JSON format..."
                :: loading_events w ++ evs)
             (fs_put output_file (Text (json_dump (PDict (document w t)))) (files s))).
Proof.
  intros Hi Hw. unfold convert_all_data. rewrite bind_print_run.
  unfold try_except.
  pose proof (convert_all_data_try_run w
                (log s [Progress "Converting all data to JSON format..."])) as R.
  rewrite Hi, Hw in R. destruct R as (examples & _ & E). rewrite E.
  eexists. unfold log. cbn [console files]. f_equal. f_equal.
  rewrite <- !app_assoc. cbn [app]. repeat f_equal.
Qed.

(** The whole run when, in addition, the compact file can be written:
    both documents are on disk. *)
Lemma main_ok w s t :
  inputs_of w = Ret t -> open_write w output_file = WriteOk ->
  open_write w compact_file = WriteOk ->
  exists evs,
    main w s =
    (Ret tt,
     mkState (console s ++ Progress "Converting all data to JSON format..."
                :: loading_events w ++ evs)
             (fs_put compact_file (Text (json_dump (PDict (compact_document w t))))
                (fs_put output_file (Text (json_dump (PDict (document w t))))
                   (files s)))).
Proof.
  intros Hi Hw Hc. unfold main.
  destruct (convert_all_data_ok w s t Hi Hw) as (evs & E).
  unfold bind at 1. rewrite E.
  rewrite bind_prints_state.
  assert (Hv : value_of (compact_data_of
                 (json_load (json_dump (PDict (document w t))))) =
               Ret (compact_document w t))
    by (rewrite full_document_parsed; now apply compact_value).
  match goal with
  | |- context [create_compact_version w ?s1] =>
      assert (Hf : fs_lookup output_file (files s1) =
                   Some (Text (json_dump (PDict (document w t)))))
        by reflexivity;
      rewrite (create_compact_version_run w s1 _ _ Hf Hv Hc)
  end.
  exists (evs ++ [ Progress "Creating compact version..."; Saved compact_file;
                   Progress "All conversions complete!";
                   Progress "Generated files:"; Progress "Next steps:" ]).
  rewrite !bind_print_run. unfold print, log. cbn [console files].
  f_equal. f_equal. rewrite <- !app_assoc. cbn [app].
  now rewrite <- !app_assoc.
Qed.

Lemma bind_print_run_end e s : print e s = (Ret tt, log s [e]).
Proof. reflexivity. Qed.

(** The whole run when the body of the [try] block raises. *)
Lemma main_failed w s e s1 :
  convert_all_data_try w (log s [Progress "Converting all data to JSON format..."])
    = (Raise e, s1) ->
  main w s =
  (Ret tt,
   log s1 [ ConversionError e; Traceback e;
            Progress "Conversion failed. Please check the error messages above." ]).
Proof.
  intros H. unfold main, convert_all_data.
  rewrite bind_prints_state, bind_print_run. unfold try_except. rewrite H.
  cbn [any_exception]. rewrite !bind_print_run. unfold ret.
  rewrite bind_print_run_end, !log_log. reflexivity.
Qed.

(* ================================================================== *)
(** ** The documents on disk *)

Lemma fs_lookup_put_same n f fs : fs_lookup n (fs_put n f fs) = Some f.
Proof. unfold fs_put. simpl. now rewrite String.eqb_refl. Qed.

Lemma fs_lookup_filter_other n m fs :
  String.eqb n m = false ->
  fs_lookup n (filter (fun nf => negb (String.eqb m (fst nf))) fs) = fs_lookup n fs.
Proof.
  intros H. induction fs as [|[k f] r IH]; simpl; auto.
  destruct (String.eqb_spec m k); simpl.
  - subst k. now rewrite H.
  - now rewrite IH.
Qed.

Lemma fs_lookup_put_other n m f fs :
  String.eqb n m = false -> fs_lookup n (fs_put m f fs) = fs_lookup n fs.
Proof.
  intros H. unfold fs_put. simpl. rewrite H. now apply fs_lookup_filter_other.
Qed.

(** The full document on disk after a successful [convert_all_data]. *)
Lemma full_doc_after_convert w s t :
  inputs_of w = Ret t -> open_write w output_file = WriteOk ->
  read_doc output_file (snd (convert_all_data w s)) = Some (PDict (parsed_document w t)).
Proof.
  intros Hi Hw. destruct (convert_all_data_ok w s t Hi Hw) as (evs & E).
  rewrite E. unfold read_doc. cbn [snd files].
  now rewrite fs_lookup_put_same, full_document_parsed.
Qed.

(** Both documents on disk after a successful run. *)
Lemma docs_after_main w s t :
  inputs_of w = Ret t -> open_write w output_file = WriteOk ->
  open_write w compact_file = WriteOk ->
  read_doc output_file (snd (main w s)) = Some (PDict (parsed_document w t)) /\
  read_doc compact_file (snd (main w s)) = Some (rt (PDict (compact_document w t))).
Proof.
  intros Hi Hw Hc. destruct (main_ok w s t Hi Hw Hc) as (evs & E).
  rewrite E. unfold read_doc. cbn [snd files]. split.
  - rewrite fs_lookup_put_other by reflexivity.
    now rewrite fs_lookup_put_same, full_document_parsed.
  - now rewrite fs_lookup_put_same.
Qed.

Lemma jobs_error_none w :
  (forall lang, In lang languages -> escapes (np_load_tolist w (job_path lang)) = None) ->
  jobs_error w = None.
Proof.
  intros H. unfold jobs_error. cbn [languages map].
  rewrite !H by (cbn; tauto). reflexivity.
Qed.


(* ================================================================== *)
(** ** Job translations and the metadata derived from them *)

(** C9: whichever job-name files exist, [job_translations] has exactly the
    six keys en, zh, es, fr, ru, ar in that order, a missing file
    contributing the empty list, and [metadata.languages_available] of the
    full document is that six-element list. *)
Theorem C9_six_language_keys (w : world) :
  (forall lang, In lang languages ->
     escapes (np_load_tolist w (job_path lang)) = None) ->
  exists jt,
    value_of (load_multilingual_jobs w) = Ret jt /\
    dict_keys jt = map KStr languages /\
    (forall lang, In lang languages ->
       np_load_tolist w (job_path lang) = Raises FileNotFoundError ->
       dict_get (KStr lang) jt = Some (PList [])) /\
    (forall s t, inputs_of w = Ret t -> open_write w output_file = WriteOk ->
       exists full jt',
         read_doc output_file (snd (convert_all_data w s)) = Some full /\
         at_path ["job_translations"] full = Some (PDict jt') /\
         dict_keys jt' = map KStr languages /\
         at_path ["metadata"; "languages_available"] full =
           Some (PList (map PStr languages))).
Proof.
  intros H. exists (jobs_dict w).
  rewrite load_multilingual_jobs_value, (jobs_error_none w H).
  repeat split.
  - intros lang Hin E. unfold jobs_dict, job_list.
    cbn in Hin. decompose [or] Hin; subst; try contradiction;
      cbn [languages map dict_get pykey_eqb String.eqb Ascii.eqb Bool.eqb];
      rewrite E; reflexivity.
  - intros s t Hi Hw. eexists. eexists.
    rewrite (full_doc_after_convert w s t Hi Hw).
    repeat split; reflexivity.
Qed.

Lemma sample_inputs :
  { t | inputs_of sample_world = Ret t }.
Proof. eexists. vm_compute. reflexivity. Defined.

Lemma C9_six_language_keys_witness :
  exists jt,
    value_of (load_multilingual_jobs sample_world) = Ret jt /\
    dict_keys jt = map KStr languages /\
    dict_get (KStr "ru") jt = Some (PList []) /\
    exists full jt',
      read_doc output_file (snd (convert_all_data sample_world empty_state)) = Some full /\
      at_path ["job_translations"] full = Some (PDict jt') /\
      dict_keys jt' = map KStr languages /\
      at_path ["metadata"; "languages_available"] full =
        Some (PList (map PStr languages)).
Proof.
  destruct (C9_six_language_keys sample_world) as (jt & Hv & Hk & Hm & Hd).
  - intros lang Hin. cbn in Hin.
    decompose [or] Hin; subst; try contradiction; reflexivity.
  - exists jt. repeat split; auto.
    + apply Hm; [cbn; tauto | reflexivity].
    + apply (Hd empty_state (proj1_sig sample_inputs)); reflexivity.
Defined.

(** C4: in the full document, [metadata.n_jobs] is the length of the
    English job list (the empty list when the English file is missing),
    and [metadata.languages_available] lists the keys of
    [job_translations]; the static placeholder 263 of [get_metadata] is
    overridden. *)
Theorem C4_metadata_recomputed (w : world) (s : state) (t : tables) :
  inputs_of w = Ret t -> open_write w output_file = WriteOk ->
  exists full jt en,
    read_doc output_file (snd (convert_all_data w s)) = Some full /\
    at_path ["job_translations"] full = Some (PDict jt) /\
    at_path ["job_translations"; "en"] full = Some (PList en) /\
    (np_load_tolist w "job_en.npy" = Raises FileNotFoundError -> en = []) /\
    at_path ["metadata"; "n_jobs"] full = Some (PInt (Z.of_nat (List.length en))) /\
    at_path ["metadata"; "languages_available"] full =
      Some (PList (map key_val (dict_keys jt))) /\
    dict_get (KStr "n_jobs") (get_metadata w) = Some (PInt 263).
Proof.
  intros Hi Hw. eexists. eexists. eexists.
  rewrite (full_doc_after_convert w s t Hi Hw).
  split; [reflexivity|]. split; [reflexivity|]. split; [reflexivity|].
  split; [|split; [|split]]; try reflexivity.
  - unfold job_list, job_path. cbn [append]. intros ->. reflexivity.
  - cbn. now rewrite length_map.
Qed.

Lemma C4_metadata_recomputed_witness :
  exists full,
    read_doc output_file (snd (convert_all_data sample_world empty_state)) = Some full /\
    at_path ["metadata"; "n_jobs"] full = Some (PInt 2) /\
    at_path ["metadata"; "languages_available"] full =
      Some (PList (map PStr languages)).
Proof.
  destruct (C4_metadata_recomputed sample_world empty_state (proj1_sig sample_inputs))
    as (full & jt & en & Hf & Hjt & Hen & _ & Hn & Hl & _); try reflexivity.
  exists full. split; auto.
  assert (E : full = PDict (parsed_document sample_world (proj1_sig sample_inputs))).
  { rewrite (full_doc_after_convert _ _ (proj1_sig sample_inputs)) in Hf
      by reflexivity. now injection Hf. }
  subst full. split.
  - rewrite Hn. vm_compute in Hen. injection Hen as <-. reflexivity.
  - rewrite Hl. vm_compute in Hjt. injection Hjt as <-. reflexivity.
Defined.

(* ================================================================== *)
(** ** The compact document and the question counts *)

Lemma get_or_like d k dflt :
  json_like (PDict d) = true -> json_like dflt = true ->
  json_like (get_or d k dflt) = true.
Proof.
  intros Hd Hf. unfold get_or.
  destruct (dict_get (KStr k) d) eqn:E; auto. eapply json_like_get; eauto.
Qed.

Lemma keys_like ks : json_like (PList (map key_val ks)) = true.
Proof. simpl. induction ks as [|[z|s0] r IH]; simpl; auto. Qed.

Lemma compact_of_like d tn dc nj nq langs :
  json_like (PDict d) = true -> json_like tn = true -> json_like dc = true ->
  json_like langs = true ->
  json_like (PDict (compact_of d tn dc nj nq langs)) = true.
Proof.
  intros Hd Ht Hc Hl. unfold compact_of.
  cbn [json_like map fst forallb].
  rewrite !get_or_like, Ht, Hc, Hl by (auto; reflexivity).
  reflexivity.
Qed.

Lemma parsed_document_like w t : json_like (PDict (parsed_document w t)) = true.
Proof. rewrite <- full_document_parsed. apply json_load_like. Qed.

Lemma translations_field_like k : json_like (translations_field k) = true.
Proof.
  unfold translations_field.
  pose proof translations_like as H.
  destruct get_translation_texts; auto. apply get_or_like; auto.
Qed.

Lemma compact_document_like w t : json_like (PDict (compact_document w t)) = true.
Proof.
  apply compact_of_like; auto using parsed_document_like, translations_field_like.
Qed.

(** The compact document on disk after a successful run. *)
Lemma compact_doc_after_main w s t :
  inputs_of w = Ret t -> open_write w output_file = WriteOk ->
  open_write w compact_file = WriteOk ->
  read_doc compact_file (snd (main w s)) = Some (PDict (compact_document w t)).
Proof.
  intros Hi Hw Hc. destruct (docs_after_main w s t Hi Hw Hc) as [_ E].
  rewrite E. f_equal. apply rt_like, compact_document_like.
Qed.

(** The document the compact step builds is read back as it was built. *)
Lemma compact_built_like fd cd :
  json_like fd = true ->
  value_of (compact_data_of fd) = Ret cd -> json_like (PDict cd) = true.
Proof.
  intros Hlike Hv.
  destruct (compact_data_of_inv _ _ Hv)
    as (d & td & jt & qs & nj & nq & Hd & Ht & Hj & Hq & Hnj & Hnq & Hcd).
  rewrite Hd in Hlike.
  assert (Htd : json_like (PDict td) = true).
  { rewrite <- Ht. apply get_or_like; auto. }
  rewrite Hcd. apply compact_of_like; auto.
  - apply get_or_like; auto.
  - apply get_or_like; auto.
  - apply keys_like.
Qed.

(** The compact step measures the English question list of the document
    it has read, and stores that length. *)
Lemma compact_counts_questions fd cd :
  value_of (compact_data_of fd) = Ret cd ->
  exists n,
    value_of (py_len (match at_path ["questions"; "en"] fd with
                      | Some v => v
                      | None => PList []
                      end)) = Ret n /\
    at_path ["metadata"; "n_questions"] (PDict cd) = Some (PInt (Z.of_nat n)).
Proof.
  intros Hv.
  destruct (compact_data_of_inv _ _ Hv)
    as (d & td & jt & qs & nj & nq & Hd & Ht & Hj & Hq & Hnj & Hnq & Hcd).
  exists nq. subst fd cd. split; [|reflexivity].
  cbn [at_path]. unfold get_or in Hq, Hnq.
  destruct (dict_get (KStr "questions") d) as [x|].
  - subst x. destruct (dict_get (KStr "en") qs); exact Hnq.
  - injection Hq as <-. exact Hnq.
Qed.

(** C7: in a run, the full document's [metadata.n_questions] is the row
    count of the question table, while the compact document's is the
    length of the English question sequence found in the full document
    read back from disk.  The second is recomputed, not copied: whatever
    document the full file holds, the compact step stores the length of
    the English question list it reads there, and on a full file whose
    own [metadata.n_questions] is 5 and whose English list has two
    questions the compact document says 2. *)
Theorem C7_two_derivations_of_n_questions (w : world) (s : state) (t : tables) :
  inputs_of w = Ret t -> open_write w output_file = WriteOk ->
  open_write w compact_file = WriteOk ->
  (exists full compact qd nq n,
    read_doc output_file (snd (main w s)) = Some full /\
    read_doc compact_file (snd (main w s)) = Some compact /\
    value_of (load_questions w) = Ret (qd, nq) /\
    (forall df, pd_read_csv w "questions.tsv" = Loaded df ->
       nq = List.length (rows df)) /\
    at_path ["metadata"; "n_questions"] full = Some (PInt (Z.of_nat nq)) /\
    value_of (py_len (match at_path ["questions"; "en"] full with
                      | Some v => v
                      | None => PList []
                      end)) = Ret n /\
    at_path ["metadata"; "n_questions"] compact = Some (PInt (Z.of_nat n))) /\
  (forall s0 j cd,
     fs_lookup output_file (files s0) = Some (Text j) ->
     value_of (compact_data_of (json_load j)) = Ret cd ->
     exists n,
       value_of (py_len (match at_path ["questions"; "en"] (json_load j) with
                         | Some v => v
                         | None => PList []
                         end)) = Ret n /\
       read_doc compact_file (snd (create_compact_version w s0)) = Some (PDict cd) /\
       at_path ["metadata"; "n_questions"] (PDict cd) = Some (PInt (Z.of_nat n))) /\
  (exists full compact,
     read_doc output_file stale_full_state = Some full /\
     read_doc compact_file (snd (create_compact_version w stale_full_state))
       = Some compact /\
     at_path ["metadata"; "n_questions"] full = Some (PInt 5) /\
     at_path ["metadata"; "n_questions"] compact = Some (PInt 2)).
Proof.
  intros Hi Hw Hc.
  assert (Step : forall s0 j cd,
            fs_lookup output_file (files s0) = Some (Text j) ->
            value_of (compact_data_of (json_load j)) = Ret cd ->
            read_doc compact_file (snd (create_compact_version w s0)) = Some (PDict cd)).
  { intros s0 j cd Hf Hv.
    rewrite (create_compact_version_run w s0 j cd Hf Hv Hc).
    unfold read_doc. cbn [snd files]. rewrite fs_lookup_put_same. f_equal.
    apply like_roundtrip. apply (compact_built_like (json_load j)); [|exact Hv].
    apply json_load_like. }
  split; [|split].
  2:{ intros s0 j cd Hf Hv.
      destruct (compact_counts_questions _ _ Hv) as (n & Hn & Hm).
      exists n. split; [exact Hn|]. split; [|exact Hm]. now apply (Step s0 j). }
  2:{ eexists. eexists. split; [reflexivity|]. split; [|split].
      - apply (Step stale_full_state stale_full_json); reflexivity.
      - reflexivity.
      - reflexivity. }
  destruct (docs_after_main w s t Hi Hw Hc) as [Hf _].
  pose proof (compact_doc_after_main w s t Hi Hw Hc) as Hcd.
  destruct (questions_readback w t Hi) as [Hq Hn].
  pose proof (tables_questions w t Hi) as Hv.
  exists (PDict (parsed_document w t)), (PDict (compact_document w t)),
         (t_questions t), (t_n_questions t), (t_n_questions t).
  repeat split; auto.
  - now rewrite load_questions_value.
  - intros df Hdf.
    destruct (questions_value_shape _ _ _ Hv) as [[E1 E2] | (df' & Hdf' & _ & E1 & E2)].
    + exfalso. unfold questions_value in Hv. rewrite Hdf in Hv.
      cbn [of_load res_bind] in Hv.
      destruct (has_column df "en"); cbn [guarded is_file_not_found] in Hv.
      * injection Hv as Hv _. rewrite E1 in Hv. discriminate.
      * discriminate.
    + rewrite Hdf in Hdf'. now injection Hdf' as <-.
  - cbn [at_path parsed_document dict_get pykey_eqb String.eqb Ascii.eqb Bool.eqb].
    rewrite Hq. cbn [at_path]. unfold get_or in Hn.
    destruct (dict_get (KStr "en") (t_questions t)); exact Hn.
Qed.

Lemma C7_two_derivations_of_n_questions_witness :
  exists full compact,
    read_doc output_file (snd (main sample_world empty_state)) = Some full /\
    read_doc compact_file (snd (main sample_world empty_state)) = Some compact /\
    at_path ["metadata"; "n_questions"] full = Some (PInt 2) /\
    at_path ["metadata"; "n_questions"] compact = Some (PInt 2).
Proof.
  destruct (C7_two_derivations_of_n_questions sample_world empty_state
              (proj1_sig sample_inputs))
    as ((full & compact & qd & nq & n & Hf & Hc & Hv & Hr & Hfn & Hl & Hcn) & _);
    try reflexivity.
  exists full, compact. repeat split; auto.
  - rewrite Hfn. vm_compute in Hv. now injection Hv as _ <-.
  - rewrite Hcn.
    vm_compute in Hf. injection Hf as <-. vm_compute in Hl. now injection Hl as <-.
Defined.

(* ================================================================== *)
(** ** The question table *)


Lemma questions_loaded w df qd n :
  pd_read_csv w "questions.tsv" = Loaded df ->
  value_of (load_questions w) = Ret (qd, n) ->
  has_column df "en" = true /\ qd = questions_dict_of w df /\ n = List.length (rows df).
Proof.
  intros Hdf. rewrite load_questions_value. unfold questions_value. rewrite Hdf.
  cbn [of_load res_bind].
  destruct (has_column df "en"); cbn [guarded is_file_not_found]; [|discriminate].
  intros [= <- <-]. auto.
Qed.

Lemma questions_dict_get w df lang :
  In lang languages ->
  dict_get (KStr lang) (questions_dict_of w df) = Some (question_list w df lang).
Proof.
  intros Hin. cbn in Hin.
  decompose [or] Hin; subst; try contradiction; reflexivity.
Qed.

(** The entry of a question list for a row of the table: the text of
    the cell, and the empty string for a missing cell. *)
Lemma question_list_cells w df lang :
  has_column df "en" = true ->
  exists i l,
    index_of (if has_column df lang then lang else "en") (columns df) = Some i /\
    question_list w df lang = PList (map PStr l) /\
    List.length l = List.length (rows df) /\
    forall r row, nth_error (rows df) r = Some row ->
      nth_error l r =
      Some (fillna_str (upcast w (column_dtype df i) (nth i row CNaN))).
Proof.
  unfold has_column, question_list, column_or_en, column_at. intros Hen.
  assert (G : forall i,
            List.length (map fillna_str (series w df i)) = List.length (rows df) /\
            forall r row, nth_error (rows df) r = Some row ->
              nth_error (map fillna_str (series w df i)) r =
              Some (fillna_str (upcast w (column_dtype df i) (nth i row CNaN)))).
  { intros i. split.
    - unfold series, column_cells. now rewrite !length_map.
    - intros r row Hr. unfold series, column_cells.
      rewrite !nth_error_map, Hr. reflexivity. }
  destruct (index_of lang (columns df)) as [i|] eqn:El.
  - exists i, (map fillna_str (series w df i)). destruct (G i). auto.
  - destruct (index_of "en" (columns df)) as [i|] eqn:Ee; [|discriminate].
    exists i, (map fillna_str (series w df i)). destruct (G i). auto.
Qed.

(** C10: when the question table loads, the assembled questions hold the
    six languages, each a sequence of strings with one entry per table
    row: the text of the cell of that row in the language's column (the
    English column when the language has none), and the empty string
    where the cell is missing; and in every run that writes both
    documents the two [n_questions] values are equal. *)
Theorem C10_question_sequences_match_row_count
    (w : world) (df : DataFrame) (qd : dict) (n : nat) :
  pd_read_csv w "questions.tsv" = Loaded df ->
  value_of (load_questions w) = Ret (qd, n) ->
  n = List.length (rows df) /\
  dict_keys qd = map KStr languages /\
  (forall lang, In lang languages ->
     exists i l,
       index_of (if has_column df lang then lang else "en") (columns df) = Some i /\
       dict_get (KStr lang) qd = Some (PList (map PStr l)) /\
       List.length l = n /\
       forall r row, nth_error (rows df) r = Some row ->
         (nth i row CNaN = CNaN -> nth_error l r = Some EmptyString) /\
         (forall text, nth i row CNaN = CStr text -> nth_error l r = Some text)) /\
  (forall s t, inputs_of w = Ret t -> open_write w output_file = WriteOk ->
     open_write w compact_file = WriteOk ->
     exists full compact,
       read_doc output_file (snd (main w s)) = Some full /\
       read_doc compact_file (snd (main w s)) = Some compact /\
       at_path ["metadata"; "n_questions"] full = Some (PInt (Z.of_nat n)) /\
       at_path ["metadata"; "n_questions"] compact = Some (PInt (Z.of_nat n))).
Proof.
  intros Hdf Hv. destruct (questions_loaded w df qd n Hdf Hv) as (Hen & -> & ->).
  repeat split.
  - intros lang Hin. rewrite questions_dict_get by auto.
    destruct (question_list_cells w df lang Hen) as (i & l & Hi & E & L & Hc).
    exists i, l. split; [exact Hi|]. split; [now rewrite E|]. split; [exact L|].
    intros r row Hr. rewrite (Hc r row Hr). split.
    + intros ->. now destruct (column_dtype df i).
    + intros text ->. now destruct (column_dtype df i).
  - intros s t Hi Hw Hc.
    destruct (docs_after_main w s t Hi Hw Hc) as [Hf _].
    pose proof (compact_doc_after_main w s t Hi Hw Hc) as Hcd.
    pose proof (tables_questions w t Hi) as Ht.
    rewrite load_questions_value, Ht in Hv. injection Hv as _ Hn.
    exists (PDict (parsed_document w t)), (PDict (compact_document w t)).
    repeat split; auto; cbn; now rewrite Hn.
Qed.

Lemma C10_question_sequences_match_row_count_witness :
  (exists l, dict_get (KStr "zh") (questions_dict_of sample_world sample_questions)
             = Some (PList (map PStr l)) /\ List.length l = 2%nat /\
             nth_error l 0 = Some EmptyString /\
             nth_error l 1 = Some "Wo hen jiantan") /\
  exists full compact,
    read_doc output_file (snd (main sample_world empty_state)) = Some full /\
    read_doc compact_file (snd (main sample_world empty_state)) = Some compact /\
    at_path ["metadata"; "n_questions"] full = Some (PInt 2) /\
    at_path ["metadata"; "n_questions"] compact = Some (PInt 2).
Proof.
  destruct (C10_question_sequences_match_row_count sample_world sample_questions
              (questions_dict_of sample_world sample_questions) 2)
    as (_ & _ & Hl & Hr); try reflexivity.
  split.
  - destruct (Hl "zh") as (i & l & Hi & Hd & Hn & Hc); [cbn; tauto|].
    injection Hi as <-. exists l. split; [exact Hd|]. split; [exact Hn|]. split.
    + apply (proj1 (Hc 0%nat [CStr "I worry"; CNaN] eq_refl)). reflexivity.
    + apply (proj2 (Hc 1%nat [CStr "I talk a lot"; CStr "Wo hen jiantan"] eq_refl)).
      reflexivity.
  - apply (Hr empty_state (proj1_sig sample_inputs)); reflexivity.
Defined.

Lemma events_of_for_each_in {A S} P (body : A -> S -> M S) e x :
  (forall y a, prints_only P (body y a)) ->
  (forall y a, exists a', value_of (body y a) = Ret a') ->
  (forall a, In e (events_of (body x a))) ->
  forall xs acc, In x xs -> In e (events_of (for_each xs acc body)).
Proof.
  intros Hp Hv He. induction xs as [|y r IH]; intros acc Hin; [contradiction|].
  cbn [for_each]. rewrite (events_of_bind P); auto using prints_only_for_each.
  apply in_or_app. destruct Hin as [-> | Hin]; [left; apply He|].
  right. destruct (Hv y acc) as [a' ->]. auto.
Qed.

Lemma fallback_logged_by_loader w df X :
  pd_read_csv w "questions.tsv" = Loaded df -> has_column df "en" = true ->
  In X languages -> has_column df X = false ->
  In (QuestionFallback X) (events_of (load_questions w)).
Proof.
  intros Hdf Hen Hin Hx. unfold load_questions.
  rewrite (events_of_bind not_compact_banner) by prints_only_tac.
  rewrite value_of_print. apply in_or_app. right.
  rewrite (events_of_try not_compact_banner) by prints_only_tac.
  apply in_or_app. left. rewrite Hdf.
  rewrite (events_of_bind not_compact_banner) by prints_only_tac.
  cbn [call]. rewrite value_of_ret. apply in_or_app. right.
  rewrite (events_of_bind not_compact_banner) by prints_only_tac.
  rewrite value_of_print. apply in_or_app. right.
  rewrite (events_of_bind not_compact_banner) by prints_only_tac.
  apply in_or_app. left.
  apply (events_of_for_each_in not_compact_banner) with (x := X); auto with prints.
  - intros y a. rewrite load_question_column_value.
    unfold column_or_en. unfold has_column in Hen.
    destruct (index_of y (columns df)); eauto.
    destruct (index_of "en" (columns df)); [simpl; eauto | discriminate].
  - intros a. unfold load_question_column. rewrite Hx.
    rewrite (events_of_bind not_compact_banner) by prints_only_tac.
    apply in_or_app. left. now left.
Qed.

Lemma fallback_same_as_english w df X :
  has_column df X = false -> question_list w df X = question_list w df "en".
Proof.
  unfold has_column, question_list, column_or_en. intros Hx.
  destruct (index_of X (columns df)); [discriminate|].
  destruct (index_of "en" (columns df)); reflexivity.
Qed.

(** C5: when the question table has an English column but none for one of
    the six languages X, the questions of X are those of English, and the
    fallback is printed; so it is in the full document of a run. *)
Theorem C5_missing_column_copies_english (w : world) (df : DataFrame) (X : string) :
  pd_read_csv w "questions.tsv" = Loaded df ->
  has_column df "en" = true -> In X languages -> has_column df X = false ->
  exists qd en,
    value_of (load_questions w) = Ret (qd, List.length (rows df)) /\
    dict_get (KStr "en") qd = Some en /\
    dict_get (KStr X) qd = Some en /\
    In (QuestionFallback X) (events_of (load_questions w)) /\
    (forall s t, inputs_of w = Ret t -> open_write w output_file = WriteOk ->
       open_write w compact_file = WriteOk ->
       exists full,
         read_doc output_file (snd (main w s)) = Some full /\
         at_path ["questions"; "en"] full = Some en /\
         at_path ["questions"; X] full = Some en /\
         In (QuestionFallback X) (console (snd (main w s)))).
Proof.
  intros Hdf Hen Hin Hx.
  assert (Hv : value_of (load_questions w) =
               Ret (questions_dict_of w df, List.length (rows df))).
  { rewrite load_questions_value. unfold questions_value. rewrite Hdf.
    cbn [of_load res_bind]. now rewrite Hen. }
  exists (questions_dict_of w df), (question_list w df "en").
  split; [exact Hv|]. split; [reflexivity|].
  split; [rewrite questions_dict_get, (fallback_same_as_english w df X Hx) by auto;
          reflexivity|].
  split; [now apply fallback_logged_by_loader with (df := df)|].
  intros s t Hi Hw Hc.
  destruct (docs_after_main w s t Hi Hw Hc) as [Hf _].
  pose proof (tables_questions w t Hi) as Ht.
  rewrite load_questions_value, Ht in Hv. injection Hv as Hq _.
  destruct (questions_readback w t Hi) as [Hrt _].
  exists (PDict (parsed_document w t)). split; auto.
  cbn [at_path parsed_document dict_get pykey_eqb String.eqb Ascii.eqb Bool.eqb].
  rewrite Hrt, Hq. cbn [at_path].
  rewrite !questions_dict_get by (auto; cbn; tauto).
  rewrite (fallback_same_as_english w df X Hx).
  split; [reflexivity|]. split; [reflexivity|].
  destruct (main_ok w s t Hi Hw Hc) as (evs & E). rewrite E. cbn [snd console].
  apply in_or_app. right. right. apply in_or_app. left.
  unfold loading_events. rewrite !in_app_iff. right. right. right. left.
  now apply fallback_logged_by_loader with (df := df).
Qed.


Lemma C5_missing_column_copies_english_witness :
  exists full,
    read_doc output_file (snd (main sample_world empty_state)) = Some full /\
    at_path ["questions"; "fr"] full = Some (PList [PStr "I worry"; PStr "I talk a lot"]) /\
    at_path ["questions"; "fr"] full = at_path ["questions"; "en"] full /\
    In (QuestionFallback "fr") (console (snd (main sample_world empty_state))).
Proof.
  destruct (C5_missing_column_copies_english sample_world sample_questions "fr")
    as (qd & en & Hv & He & Hx & _ & Hr);
    [reflexivity | reflexivity | cbn; tauto | reflexivity |].
  destruct (Hr empty_state (proj1_sig sample_inputs)) as (full & Hf & Hfe & Hfx & Hl);
    [reflexivity | reflexivity | reflexivity |].
  exists full. vm_compute in Hv. injection Hv as <-.
  vm_compute in He. injection He as <-.
  split; [exact Hf|]. split; [exact Hfx|]. split; [|exact Hl].
  rewrite Hfx. symmetry. exact Hfe.
Defined.

(* ================================================================== *)
(** ** The validation lines *)

(** C1, as stated, fails: the validator prints one line for all the job
    lists together.  For the document whose Chinese list is one short it
    prints exactly three validation lines, the first one false; for the
    document whose Spanish list is one short it prints the same lines,
    although the language-by-language verdicts of the two documents
    differ.  So the lines do not say which language failed, nor report
    success for the others. *)
Lemma C1_counterexample :
  validation_lines (document_with lists_short_zh) =
    [ Validation "Job translations" false; Validation "Job codes" true;
      Validation "Scaled features" true ] /\
  validation_lines (document_with lists_short_es) =
    validation_lines (document_with lists_short_zh) /\
  spec_per_language_check lists_short_zh <> spec_per_language_check lists_short_es.
Proof.
  split; [vm_compute; reflexivity|]. split; [vm_compute; reflexivity|].
  vm_compute. discriminate.
Qed.

Lemma forallb_len_iff n (ls : list (string * list pyval)) :
  forallb (fun kl => Nat.eqb (List.length (snd kl)) n) ls = true <->
  (forall k l, In (k, l) ls -> List.length l = n).
Proof.
  rewrite forallb_forall. split.
  - intros H k l Hin. apply Nat.eqb_eq. apply (H (k, l) Hin).
  - intros H [k l] Hin. apply Nat.eqb_eq. simpl. eauto.
Qed.

Lemma filter_none {A} (f : A -> bool) l :
  Forall (fun x => f x = false) l -> filter f l = [].
Proof. induction 1; simpl; auto. now rewrite H. Qed.

(** C1, amended: for a document whose job translations are the lists
    [ls], [print_summary] returns and adds exactly three validation lines
    to the console; the one for the job translations is a single flag,
    true exactly when every language's list has the length of the English
    list, hence false as soon as one list is one entry short. *)
Theorem C1_validator_prints_one_flag
    (cd qd : dict) (nq : nat) (ls : list (string * list pyval))
    (jc sf : list pyval) (s : state) :
  dict_get (KStr "job_translations") cd = Some (PDict (lists_dict ls)) ->
  dict_get (KStr "job_codes") cd = Some (PList jc) ->
  dict_get (KStr "scaled_features") cd = Some (PList sf) ->
  let n_jobs := List.length (lookup_list "en" ls) in
  let flag := forallb (fun kl => Nat.eqb (List.length (snd kl)) n_jobs) ls in
  fst (print_summary cd qd nq s) = Ret tt /\
  filter is_validation (console (snd (print_summary cd qd nq s))) =
    filter is_validation (console s) ++
    [ Validation "Job translations" flag;
      Validation "Job codes" (Nat.eqb (List.length jc) n_jobs);
      Validation "Scaled features" (Nat.eqb (List.length sf) n_jobs) ] /\
  (flag = true <-> forall k l, In (k, l) ls -> List.length l = n_jobs) /\
  (forall k l, In (k, l) ls -> S (List.length l) = n_jobs -> flag = false).
Proof.
  intros Hjt Hjc Hsf n_jobs flag.
  destruct (print_summary_run cd qd nq ls jc sf s Hjt Hjc Hsf) as (ex & F & E).
  rewrite E. cbn [fst snd log console]. split; [reflexivity|]. split; [|split].
  - rewrite !filter_app. f_equal. unfold summary_lines. cbn [filter is_validation].
    rewrite filter_none; [reflexivity|].
    eapply Forall_impl; [|exact F]. intros e [H _]. exact H.
  - apply forallb_len_iff.
  - intros k l Hin Hl. destruct flag eqn:Ef; auto.
    apply forallb_len_iff with (k := k) (l := l) in Ef; auto. lia.
Qed.

Lemma C1_validator_prints_one_flag_witness :
  filter is_validation
    (console (snd (print_summary (document_with lists_short_zh) [] 0 empty_state))) =
  [ Validation "Job translations" false; Validation "Job codes" true;
    Validation "Scaled features" true ].
Proof.
  destruct (C1_validator_prints_one_flag (document_with lists_short_zh) [] 0
              lists_short_zh [PInt 11; PInt 12]
              [PList [PFloat "0.5"]; PList [PFloat "-0.5"]] empty_state)
    as (_ & H & _); [reflexivity | reflexivity | reflexivity |].
  rewrite H. reflexivity.
Defined.

(* ================================================================== *)
(** ** Failures *)

Lemma first_error_some e es :
  In (Some e) es -> exists e', first_error es = Some e'.
Proof.
  induction es as [|[x|] r IH]; simpl; [contradiction | eauto |].
  intros [H | H]; [discriminate | auto].
Qed.

Lemma tables_of_raised w :
  (exists e, raised (questions_value w) = Some e) \/
  (exists e, raised (norms_value w (pd_read_csv w "meanNorms.tsv")) = Some e) \/
  (exists e, raised (norms_value w (pd_read_csv w "sdNorms.tsv")) = Some e) \/
  (exists e, raised (weights_value w (pd_read_csv w "weightsB5.tsv")) = Some e) \/
  (exists e, raised (scaler_value w) = Some e) ->
  exists e', tables_of w = Raise e'.
Proof.
  unfold tables_of.
  destruct (questions_value w); cbn [res_bind raised]; [|eauto].
  destruct (norms_value w (pd_read_csv w "meanNorms.tsv")); cbn [res_bind raised]; [|eauto].
  destruct (norms_value w (pd_read_csv w "sdNorms.tsv")); cbn [res_bind raised]; [|eauto].
  destruct (weights_value w (pd_read_csv w "weightsB5.tsv")); cbn [res_bind raised]; [|eauto].
  destruct (scaler_value w); cbn [res_bind raised]; [|eauto].
  intros [[e H] | [[e H] | [[e H] | [[e H] | [e H]]]]]; discriminate.
Qed.

(** A failure of any guarded input makes the loading phase raise. *)
Lemma source_failure_raises w src e :
  source_failure w src = Some e -> exists e', inputs_of w = Raise e'.
Proof.
  unfold inputs_of. intros H.
  destruct (jobs_error w) as [e0|] eqn:Ej; [eauto|].
  destruct src; cbn [source_failure] in H.
  - exfalso. destruct (existsb (String.eqb lang) languages) eqn:El; [|discriminate].
    apply existsb_exists in El as (x & Hin & Ex). apply String.eqb_eq in Ex. subst x.
    destruct (first_error_some e
                (map (fun lang => escapes (np_load_tolist w (job_path lang))) languages))
      as [e' He'].
    + rewrite <- H. apply (in_map (fun lang => escapes (np_load_tolist w (job_path lang)))).
      exact Hin.
    + unfold jobs_error in Ej. congruence.
  - unfold base_error. cbn [first_error]. rewrite H. eauto.
  - unfold base_error. cbn [first_error]. rewrite H.
    destruct (escapes (np_load_tolist w "job_codes.npy")); eauto.
  - unfold base_error. cbn [first_error]. rewrite H.
    destruct (escapes (np_load_tolist w "job_codes.npy")); eauto.
    destruct (raised (pca_value w)); eauto.
  - destruct (base_error w); eauto. apply tables_of_raised. eauto.
  - destruct (base_error w); eauto. apply tables_of_raised. eauto 6.
  - destruct (base_error w); eauto. apply tables_of_raised. eauto 7.
  - destruct (base_error w); eauto. apply tables_of_raised. eauto 8.
  - destruct (base_error w); eauto. apply tables_of_raised. eauto 9.
Qed.

(** When the loading phase raises, the run prints the diagnostic and
    leaves the disk as it was. *)
Lemma main_when_loading_raises w s e :
  inputs_of w = Raise e ->
  exists evs,
    main w s = (Ret tt, mkState (console s ++ evs) (files s)) /\
    In (ConversionError e) evs /\ In (Traceback e) evs /\
    Forall not_compact_banner evs.
Proof.
  intros Hi.
  pose proof (convert_all_data_try_run w (log s [conversion_banner])) as R.
  rewrite Hi in R. destruct R as (evs & F & E).
  rewrite (main_failed w s e _ E). rewrite !log_log.
  eexists. split; [reflexivity|]. split; [|split].
  - rewrite !in_app_iff. right. right. cbn. tauto.
  - rewrite !in_app_iff. right. right. cbn. tauto.
  - repeat (apply Forall_app; split); auto; repeat constructor; discriminate.
Qed.

(** C2, as stated, fails: when [meanNorms.tsv] exists but cannot be
    parsed, the run does not substitute the empty mapping and carry on:
    it prints the error and writes neither output file. *)
Lemma C2_counterexample :
  pd_read_csv broken_norms_world "meanNorms.tsv" = Raises ParserError /\
  fst (main broken_norms_world empty_state) = Ret tt /\
  In (ConversionError ParserError) (console (snd (main broken_norms_world empty_state))) /\
  read_doc output_file (snd (main broken_norms_world empty_state)) = None /\
  read_doc compact_file (snd (main broken_norms_world empty_state)) = None.
Proof.
  split; [reflexivity|]. split; [vm_compute; reflexivity|].
  split; [|split; vm_compute; reflexivity].
  vm_compute. tauto.
Qed.

(** C2, amended: only the two auxiliary mappings [text_dict] and
    [language_display] fall back to [{}] on any failure, and their loader
    always returns.  For every other input, a failure that is not
    file-not-found reaches the handler of [convert_all_data]: the run
    prints the error and the traceback, returns, and leaves the disk
    unchanged, so neither output file is written. *)
Theorem C2_only_auxiliary_mappings_degrade
    (w : world) (s : state) (src : source) (e : exn) :
  source_failure w src = Some e ->
  (exists e' evs,
     main w s = (Ret tt, mkState (console s ++ evs) (files s)) /\
     In (ConversionError e') evs /\ In (Traceback e') evs) /\
  value_of (load_other_files w) = Ret (other_dict w) /\
  (forall e0, np_load_item w "text_dict.npy" = Raises e0 ->
     dict_get (KStr "text_dict") (other_dict w) = Some (PDict [])) /\
  (forall e0, np_load_item w "language_display.npy" = Raises e0 ->
     dict_get (KStr "language_display") (other_dict w) = Some (PDict [])).
Proof.
  intros H. split; [|split; [apply load_other_files_value|split]].
  - destruct (source_failure_raises w src e H) as [e' Hi].
    destruct (main_when_loading_raises w s e' Hi) as (evs & E & H1 & H2 & _).
    eauto.
  - intros e0 E. unfold other_dict. cbn [dict_get pykey_eqb String.eqb Ascii.eqb Bool.eqb].
    now rewrite E.
  - intros e0 E. unfold other_dict. cbn [dict_get pykey_eqb String.eqb Ascii.eqb Bool.eqb].
    now rewrite E.
Qed.

Lemma C2_only_auxiliary_mappings_degrade_witness :
  (exists e' evs,
     main broken_norms_world empty_state =
       (Ret tt, mkState (console empty_state ++ evs) (files empty_state)) /\
     In (ConversionError e') evs /\ In (Traceback e') evs) /\
  value_of (load_other_files broken_norms_world) = Ret (other_dict broken_norms_world).
Proof.
  destruct (C2_only_auxiliary_mappings_degrade broken_norms_world empty_state
              SMeanNorms ParserError) as (H1 & H2 & _); [reflexivity|].
  split; [exact H1 | exact H2].
Defined.

(** C8: when the body of the [try] block of [convert_all_data] raises,
    whether a loader let an exception through or the full file could not
    be written, the run prints the error message and the traceback,
    returns, never prints the banner of the compact step, and leaves
    [app_data_compact.json] as it was. *)
Theorem C8_failure_skips_compact_step (w : world) (s : state) (e : exn) (s1 : state) :
  convert_all_data_try w (log s [conversion_banner]) = (Raise e, s1) ->
  exists evs,
    main w s = (Ret tt, mkState (console s ++ evs) (files s1)) /\
    In (ConversionError e) evs /\ In (Traceback e) evs /\
    Forall not_compact_banner evs /\
    fs_lookup compact_file (files s1) = fs_lookup compact_file (files s).
Proof.
  intros H. rewrite (main_failed w s e s1 H).
  pose proof (convert_all_data_try_run w (log s [conversion_banner])) as R.
  assert (K : exists evs, Forall not_compact_banner evs /\
                console s1 = console s ++ conversion_banner :: evs /\
                fs_lookup compact_file (files s1) = fs_lookup compact_file (files s)).
  { destruct (inputs_of w) as [t|e0].
    - destruct R as (ex & _ & E). rewrite E in H.
      destruct (open_write w output_file); [discriminate | |];
        injection H as _ <-;
        exists (loading_events w ++
                [ Progress "Building complete data structure...";
                  Progress "Saving to JSON file..." ]);
        (split; [|split]).
      + apply Forall_app. split; [apply loading_events_ok|].
        repeat constructor; discriminate.
      + cbn [log console]. now rewrite <- app_assoc.
      + reflexivity.
      + apply Forall_app. split; [apply loading_events_ok|].
        repeat constructor; discriminate.
      + cbn [log console]. now rewrite <- app_assoc.
      + cbn [files log]. now rewrite fs_lookup_put_other by reflexivity.
    - destruct R as (evs & F & E). rewrite E in H. injection H as _ <-.
      exists evs. split; [auto|split]; cbn [log console files]; auto.
      now rewrite <- app_assoc. }
  destruct K as (evs & F & Ec & Ef).
  exists (conversion_banner :: evs ++
          [ ConversionError e; Traceback e;
            Progress "Conversion failed. Please check the error messages above." ]).
  split; [|split; [|split; [|split]]]; auto.
  - unfold log. rewrite Ec. f_equal. rewrite <- app_assoc. reflexivity.
  - right. rewrite in_app_iff. right. cbn. tauto.
  - right. rewrite in_app_iff. right. cbn. tauto.
  - constructor; [discriminate|]. apply Forall_app. split; auto.
    repeat constructor; discriminate.
Qed.

Lemma C8_failure_skips_compact_step_witness :
  exists evs,
    fst (main read_only_world empty_state) = Ret tt /\
    console (snd (main read_only_world empty_state)) = evs /\
    In (ConversionError OSError) evs /\ In (Traceback OSError) evs /\
    Forall not_compact_banner evs.
Proof.
  destruct (C8_failure_skips_compact_step read_only_world empty_state OSError
              (snd (convert_all_data_try read_only_world
                      (log empty_state [conversion_banner]))))
    as (evs & E & H1 & H2 & F & _); [vm_compute; reflexivity|].
  exists evs. rewrite E. cbn [fst snd console empty_state app]. auto.
Defined.

(* ================================================================== *)
(** ** The compact fields against the full document *)

Lemma at_path_top k d v :
  at_path [k] (PDict d) = Some v -> dict_get (KStr k) d = Some v.
Proof. cbn [at_path]. now destruct (dict_get (KStr k) d). Qed.

Lemma get_or_some d k dflt v :
  dict_get (KStr k) d = Some v -> get_or d k dflt = v.
Proof. unfold get_or. now intros ->. Qed.

(** C3: the compact step takes its data from the text of
    [app_data_complete.json] on disk.  Whenever it builds the compact
    document from that text and writes it, every whitelisted field that
    the full document has is, in the compact document read back, equal to
    the field of the full document read back; the same holds for the
    [trait_names] and [disclaimer] sub-fields of [translations]. *)
Theorem C3_compact_fields_equal_full
    (w : world) (s : state) (j : json) (cd : dict) :
  fs_lookup output_file (files s) = Some (Text j) ->
  value_of (compact_data_of (json_load j)) = Ret cd ->
  open_write w compact_file = WriteOk ->
  let s' := snd (create_compact_version w s) in
  read_doc output_file s' = Some (json_load j) /\
  read_doc compact_file s' = Some (PDict cd) /\
  forall path v, In path whitelist ->
    at_path path (json_load j) = Some v -> at_path path (PDict cd) = Some v.
Proof.
  intros Hf Hv Hw s'. subst s'.
  rewrite (create_compact_version_run w s j cd Hf Hv Hw). cbn [snd].
  destruct (compact_data_of_inv _ _ Hv)
    as (d & td & jt & qs & nj & nq & Hd & Ht & Hj & Hq & Hnj & Hnq & Hcd).
  pose proof (json_load_like j) as Hlike. rewrite Hd in Hlike.
  assert (Htd : json_like (PDict td) = true).
  { rewrite <- Ht. apply get_or_like; auto. }
  assert (Hcl : json_like (PDict cd) = true).
  { rewrite Hcd. apply compact_of_like; auto.
    - apply get_or_like; auto.
    - apply get_or_like; auto.
    - apply keys_like. }
  split; [|split].
  - unfold read_doc. cbn [files].
    rewrite fs_lookup_put_other by reflexivity. now rewrite Hf.
  - unfold read_doc. cbn [files]. rewrite fs_lookup_put_same.
    f_equal. now apply like_roundtrip.
  - intros path v Hin Hp. rewrite Hd in Hp. rewrite Hcd.
    cbn [whitelist In] in Hin.
    decompose [or] Hin; clear Hin; subst; try contradiction;
      try (apply at_path_top in Hp; unfold compact_of;
           cbn [at_path dict_get pykey_eqb String.eqb Ascii.eqb Bool.eqb];
           now rewrite (get_or_some _ _ _ _ Hp)).
    + cbn [at_path] in Hp.
      destruct (dict_get (KStr "translations") d) as [x|] eqn:Ex; [|discriminate].
      rewrite (get_or_some _ _ (PDict []) _ Ex) in Ht. subst x.
      destruct (dict_get (KStr "trait_names") td) as [y|] eqn:Ey; [|discriminate].
      injection Hp as ->. unfold compact_of.
      cbn [at_path dict_get pykey_eqb String.eqb Ascii.eqb Bool.eqb].
      now rewrite (get_or_some _ _ _ _ Ey).
    + cbn [at_path] in Hp.
      destruct (dict_get (KStr "translations") d) as [x|] eqn:Ex; [|discriminate].
      rewrite (get_or_some _ _ (PDict []) _ Ex) in Ht. subst x.
      destruct (dict_get (KStr "disclaimer") td) as [y|] eqn:Ey; [|discriminate].
      injection Hp as ->. unfold compact_of.
      cbn [at_path dict_get pykey_eqb String.eqb Ascii.eqb Bool.eqb].
      now rewrite (get_or_some _ _ _ _ Ey).
Qed.

Lemma C3_compact_fields_equal_full_witness :
  let s := snd (convert_all_data sample_world empty_state) in
  exists compact,
    read_doc compact_file (snd (create_compact_version sample_world s)) = Some compact /\
    at_path ["mean_norms"] compact =
      Some (PDict [ (KStr "1", PList [PFloat "2.5"; PFloat "3.5"]);
                    (KStr "2", PList [PFloat "2.5"; PFloat "nan"]) ]).
Proof.
  intros s.
  destruct (C3_compact_fields_equal_full sample_world s
              (json_dump (PDict (document sample_world (proj1_sig sample_inputs))))
              (compact_document sample_world (proj1_sig sample_inputs)))
    as (_ & Hc & Hp);
    [vm_compute; reflexivity | vm_compute; reflexivity | reflexivity |].
  eexists. split; [exact Hc|].
  apply Hp; [cbn; tauto | vm_compute; reflexivity].
Defined.

(* ================================================================== *)
(** ** Missing input files *)

Ltac split_input i Hv :=
  destruct i as [lang| | | | | | | | | |]; cbn [valid_input] in Hv;
  [ cbn [languages In] in Hv; decompose [or] Hv; clear Hv; subst;
    try contradiction | .. ].

(** Replaces a loader result in the environment without [i] by the result
    in [w], or by the default when the loader reads the deleted file. *)
Ltac same_or_default w :=
  repeat match goal with
  | |- context [questions_value (without ?i w)] =>
      first [ change (questions_value (without i w)) with (questions_value w)
            | change (questions_value (without i w))
                with (@Ret (dict * nat) ([], 0%nat)) ]
  | |- context [norms_value (without ?i w) (pd_read_csv (without ?i w) ?p)] =>
      first [ change (norms_value (without i w) (pd_read_csv (without i w) p))
                with (norms_value w (pd_read_csv w p))
            | change (norms_value (without i w) (pd_read_csv (without i w) p))
                with (@Ret pyval (PDict [])) ]
  | |- context [weights_value (without ?i w) (pd_read_csv (without ?i w) ?p)] =>
      first [ change (weights_value (without i w) (pd_read_csv (without i w) p))
                with (weights_value w (pd_read_csv w p))
            | change (weights_value (without i w) (pd_read_csv (without i w) p))
                with (@Ret pyval (PList [])) ]
  | |- context [scaler_value (without ?i w)] =>
      first [ change (scaler_value (without i w)) with (scaler_value w)
            | change (scaler_value (without i w)) with (@Ret dict []) ]
  end.

(** Deleting one input file never makes the loading phase raise. *)
Lemma inputs_without i w t :
  valid_input i -> inputs_of w = Ret t ->
  inputs_of (without i w) = Ret (tables_without i t).
Proof.
  intros Hv Hi. unfold inputs_of, jobs_error, base_error in *.
  cbn [languages map first_error job_path append] in *.
  destruct (raised (pca_value w)) eqn:Ep.
  { exfalso.
    repeat match type of Hi with
           | context [escapes (np_load_tolist w ?p)] =>
               destruct (escapes (np_load_tolist w p)); [discriminate Hi|]
           end.
    discriminate Hi. }
  repeat match type of Hi with
         | context [escapes (np_load_tolist w ?p)] =>
             let E := fresh "E" in
             destruct (escapes (np_load_tolist w p)) eqn:E; [discriminate Hi|]
         end.
  assert (T : tables_of (without i w) = Ret (tables_without i t)).
  { unfold tables_of in *.
    destruct (questions_value w) as [[qd nq]|] eqn:Q; [|discriminate Hi].
    destruct (norms_value w (pd_read_csv w "meanNorms.tsv")) as [m|] eqn:M;
      [|discriminate Hi].
    destruct (norms_value w (pd_read_csv w "sdNorms.tsv")) as [sd|] eqn:S;
      [|discriminate Hi].
    destruct (weights_value w (pd_read_csv w "weightsB5.tsv")) as [wt|] eqn:W;
      [|discriminate Hi].
    destruct (scaler_value w) as [sc|] eqn:C; [|discriminate Hi].
    cbn [res_bind fst snd] in Hi. injection Hi as <-.
    split_input i Hv; same_or_default w; rewrite ?Q, ?M, ?S, ?W, ?C; reflexivity. }
  split_input i Hv;
    lazymatch goal with
    | |- context [pca_value (without IPcaWeights w)] =>
        change (raised (pca_value (without IPcaWeights w))) with (@None exn)
    | |- context [pca_value (without ?i w)] =>
        change (pca_value (without i w)) with (pca_value w); rewrite Ep
    end;
    cbn [without np_load_tolist absent input_path job_path append
         String.eqb Ascii.eqb Bool.eqb escapes is_file_not_found];
    rewrite ?E, ?E0, ?E1, ?E2, ?E3, ?E4, ?E5, ?E6, ?E7; cbn [first_error];
    exact T.
Qed.

Lemma defaults_in_full i w t p v :
  valid_input i -> In (p, v) (defaults i) ->
  at_path p (PDict (parsed_document (without i w) (tables_without i t))) = Some v.
Proof.
  intros Hv Hin.
  split_input i Hv; cbn [defaults In String.eqb Ascii.eqb Bool.eqb] in Hin;
    decompose [or] Hin; clear Hin; try contradiction;
    match goal with H : (_, _) = (_, _) |- _ => injection H as <- <- end;
    reflexivity.
Qed.

(** Walks down the keys of two documents that have the same shape. *)
Ltac touched H := cbn in H; discriminate H.

Ltac walk k H inner :=
  repeat match goal with
  | |- context [String.eqb k ?c] =>
      destruct (String.eqb_spec k c) as [->|?];
      [ first [ reflexivity | inner H ] | ]
  end;
  reflexivity.

Ltac second_level H :=
  match goal with
  | |- context [at_path ?rest _] =>
      is_var rest;
      destruct rest as [|?sk ?rest'];
      [ touched H
      | cbn - [rt] ;
        match goal with
        | |- context [String.eqb ?sk _] => walk sk H touched
        end ]
  end.

Lemma unaffected_in_full i w t p :
  valid_input i -> forallb (apart p) (touches i) = true ->
  at_path p (PDict (parsed_document (without i w) (tables_without i t))) =
  at_path p (PDict (parsed_document w t)).
Proof.
  intros Hv H.
  destruct p as [|k rest]; [destruct i; discriminate H|].
  cbn [at_path parsed_document dict_get pykey_eqb].
  split_input i Hv.
  all: walk k H ltac:(fun H => first [touched H | second_level H]).
Qed.

Ltac second_level_compact H :=
  match goal with
  | |- context [at_path ?rest _] =>
      is_var rest;
      destruct rest as [|?sk ?rest'];
      [ touched H
      | cbn - [rt translations_field] ;
        match goal with
        | |- context [String.eqb ?sk _] => walk sk H touched
        end ]
  end.

Lemma unaffected_in_compact i w t p :
  valid_input i -> forallb (apart p) (touches i) = true ->
  at_path p (PDict (compact_document (without i w) (tables_without i t))) =
  at_path p (PDict (compact_document w t)).
Proof.
  intros Hv H.
  destruct p as [|k rest]; [destruct i; discriminate H|].
  cbn [at_path compact_document compact_of dict_get pykey_eqb].
  split_input i Hv.
  all: walk k H ltac:(fun H => first [touched H | second_level_compact H]).
Qed.

Lemma defaults_in_compact i w t p v x :
  valid_input i -> In (p, v) (defaults i) ->
  at_path p (PDict (compact_document (without i w) (tables_without i t))) = Some x ->
  x = v.
Proof.
  intros Hv Hin.
  split_input i Hv; cbn [defaults In String.eqb Ascii.eqb Bool.eqb] in Hin;
    decompose [or] Hin; clear Hin; try contradiction;
    match goal with H : (_, _) = (_, _) |- _ => injection H as <- <- end;
    intros Hx;
    match goal with
    | Hx : ?l = Some x |- x = ?v0 =>
        first [ assert (E : l = Some v0) by reflexivity; congruence
              | assert (E : l = None) by reflexivity; congruence ]
    end.
Qed.

(** C6: deleting any one optional input file from a disk on which the
    run succeeds leaves a run that still returns and writes both
    documents.  In the full document every field the input determines
    has its empty default ([[]], [{}] or 0); in the compact document the
    same holds for those of these fields it keeps; and every field apart
    from them is, in both documents, what it was with the file present. *)
Theorem C6_missing_input_degrades
    (i : input) (w : world) (s : state) (t : tables) :
  valid_input i -> inputs_of w = Ret t ->
  open_write w output_file = WriteOk -> open_write w compact_file = WriteOk ->
  exists full' compact' full compact,
    fst (main (without i w) s) = Ret tt /\
    read_doc output_file (snd (main (without i w) s)) = Some full' /\
    read_doc compact_file (snd (main (without i w) s)) = Some compact' /\
    read_doc output_file (snd (main w s)) = Some full /\
    read_doc compact_file (snd (main w s)) = Some compact /\
    (forall p v, In (p, v) (defaults i) -> at_path p full' = Some v) /\
    (forall p v x, In (p, v) (defaults i) ->
       at_path p compact' = Some x -> x = v) /\
    (forall p, forallb (apart p) (touches i) = true ->
       at_path p full' = at_path p full /\
       at_path p compact' = at_path p compact).
Proof.
  intros Hv Hi Hw Hc.
  pose proof (inputs_without i w t Hv Hi) as Hi'.
  assert (Hw' : open_write (without i w) output_file = WriteOk) by exact Hw.
  assert (Hc' : open_write (without i w) compact_file = WriteOk) by exact Hc.
  exists (PDict (parsed_document (without i w) (tables_without i t))),
         (PDict (compact_document (without i w) (tables_without i t))),
         (PDict (parsed_document w t)), (PDict (compact_document w t)).
  split; [|split; [|split; [|split; [|split; [|split; [|split]]]]]].
  - destruct (main_ok (without i w) s _ Hi' Hw' Hc') as (evs & E). now rewrite E.
  - apply (docs_after_main (without i w) s _ Hi' Hw' Hc').
  - apply (compact_doc_after_main (without i w) s _ Hi' Hw' Hc').
  - apply (docs_after_main w s t Hi Hw Hc).
  - apply (compact_doc_after_main w s t Hi Hw Hc).
  - intros p v Hin. now apply defaults_in_full.
  - intros p v x Hin Hx. now apply (defaults_in_compact i w t p v x).
  - intros p Hp. split; [now apply unaffected_in_full | now apply unaffected_in_compact].
Qed.

Lemma C6_missing_input_degrades_witness :
  exists full',
    fst (main (without (IJobNames "en") sample_world) empty_state) = Ret tt /\
    read_doc output_file (snd (main (without (IJobNames "en") sample_world) empty_state))
      = Some full' /\
    at_path ["job_translations"; "en"] full' = Some (PList []) /\
    at_path ["metadata"; "n_jobs"] full' = Some (PInt 0) /\
    at_path ["job_codes"] full' = Some (PList [PInt 11; PInt 12]).
Proof.
  destruct (C6_missing_input_degrades (IJobNames "en") sample_world empty_state
              (proj1_sig sample_inputs))
    as (full' & compact' & full & compact & Hr & Hf' & _ & Hf & _ & Hd & _ & Hu);
    [cbn; tauto | reflexivity | reflexivity | reflexivity |].
  exists full'. split; [exact Hr|]. split; [exact Hf'|].
  split; [apply Hd; cbn; tauto|]. split; [apply Hd; cbn; tauto|].
  destruct (Hu ["job_codes"]) as [E _]; [reflexivity|]. rewrite E.
  vm_compute in Hf. injection Hf as <-. reflexivity.
Defined.

(* ================================================================== *)
(** ** What a run leaves alone, and the failures of the compact step *)

(** The compact step on any disk: it returns, and a file other than
    [app_data_compact.json] is left as it was. *)
Lemma create_compact_version_frame w s n :
  String.eqb n compact_file = false ->
  fst (create_compact_version w s) = Ret tt /\
  fs_lookup n (files (snd (create_compact_version w s))) = fs_lookup n (files s).
Proof.
  intros Hn. unfold create_compact_version.
  rewrite bind_print_run. unfold try_except, read_json.
  rewrite bind_prints_state. cbn [files log].
  destruct (fs_lookup "app_data_complete.json" (files s)) as [[j|]|];
    try (cbn; auto; fail).
  rewrite (bind_prints not_compact_banner) by apply compact_data_of_prints.
  rewrite compact_data_of_silent, log_nil.
  destruct (value_of (compact_data_of (json_load j))) as [cd|e]; [|cbn; auto].
  unfold bind, write_json.
  destruct (open_write w compact_file); cbn [fst snd files print any_exception log];
    rewrite ?fs_lookup_put_other by exact Hn; auto.
Qed.

(** X1: a run always returns, whatever the disk holds and however the
    library calls end, and it leaves every file other than the two output
    files as it was. *)
Theorem main_returns_and_touches_only_outputs (w : world) (s : state) (n : string) :
  String.eqb n output_file = false -> String.eqb n compact_file = false ->
  fst (main w s) = Ret tt /\
  fs_lookup n (files (snd (main w s))) = fs_lookup n (files s).
Proof.
  intros Ho Hc. unfold main, convert_all_data.
  rewrite bind_prints_state, bind_print_run. unfold try_except.
  pose proof (convert_all_data_try_run w (log s [conversion_banner])) as R.
  fold conversion_banner.
  assert (K : exists r s1, convert_all_data_try w (log s [conversion_banner]) = (r, s1) /\
                (r = Ret (Some output_file) \/ exists e, r = Raise e) /\
                fs_lookup n (files s1) = fs_lookup n (files s)).
  { destruct (inputs_of w) as [t|e].
    - destruct R as (ex & _ & E). rewrite E.
      destruct (open_write w output_file); eexists; eexists;
        (split; [reflexivity|]); (split; [eauto|]);
        cbn [files log]; rewrite ?fs_lookup_put_other by exact Ho; reflexivity.
    - destruct R as (evs & _ & E). rewrite E. eexists. eexists.
      split; [reflexivity|]. split; [eauto|]. reflexivity. }
  destruct K as (r & s1 & E & [-> | [e ->]] & F); rewrite E.
  - rewrite bind_prints_state.
    destruct (create_compact_version_frame w s1 n Hc) as [Hr Hf].
    destruct (create_compact_version w s1) as [r2 s2]. cbn [fst snd] in Hr, Hf.
    subst r2. rewrite !bind_print_run. cbn [fst snd print files log].
    split; [reflexivity | congruence].
  - cbn [any_exception]. rewrite !bind_print_run. unfold ret.
    cbn [fst snd print files log]. auto.
Qed.

Lemma main_returns_and_touches_only_outputs_witness :
  fst (main sample_world stale_state) = Ret tt /\
  fs_lookup "notes.txt" (files (snd (main sample_world stale_state))) = Some Torn.
Proof.
  destruct (main_returns_and_touches_only_outputs sample_world stale_state "notes.txt")
    as [H1 H2]; [reflexivity | reflexivity |].
  split; [exact H1 | rewrite H2; reflexivity].
Defined.

(** X2: when the full document is written but the compact file cannot be,
    the failure is only printed: the run still announces that all
    conversions are complete, the full document is on disk, and, if the
    compact file could not even be opened, its previous content stays. *)
Theorem compact_failure_is_only_printed (w : world) (s : state) (t : tables) :
  inputs_of w = Ret t -> open_write w output_file = WriteOk ->
  open_write w compact_file <> WriteOk ->
  fst (main w s) = Ret tt /\
  In (CompactFailed OSError) (console (snd (main w s))) /\
  In (Progress "All conversions complete!") (console (snd (main w s))) /\
  read_doc output_file (snd (main w s)) = Some (PDict (parsed_document w t)) /\
  (open_write w compact_file = OpenFails ->
   fs_lookup compact_file (files (snd (main w s))) = fs_lookup compact_file (files s)) /\
  (open_write w compact_file = DumpFails ->
   read_doc compact_file (snd (main w s)) = None).
Proof.
  intros Hi Hw Hc. unfold main.
  destruct (convert_all_data_ok w s t Hi Hw) as (evs & E).
  rewrite bind_prints_state, E.
  assert (Hv : value_of (compact_data_of
                 (json_load (json_dump (PDict (document w t))))) =
               Ret (compact_document w t))
    by (rewrite full_document_parsed; now apply compact_value).
  unfold create_compact_version.
  rewrite bind_prints_state, bind_print_run. unfold try_except, read_json.
  rewrite bind_prints_state. cbn [files log].
  change (fs_lookup "app_data_complete.json" (fs_put output_file ?f ?fs))
    with (fs_lookup output_file (fs_put output_file f fs)).
  rewrite fs_lookup_put_same.
  rewrite (bind_prints not_compact_banner) by apply compact_data_of_prints.
  rewrite Hv, compact_data_of_silent, log_nil.
  unfold bind at 2. unfold write_json.
  destruct (open_write w compact_file) eqn:Ew; [congruence | |];
    cbn [any_exception print]; unfold bind, print, log, read_doc;
    cbn [fst snd console files].
  - split; [reflexivity|]. split; [|split; [|split; [|split]]].
    + rewrite !in_app_iff. cbn. tauto.
    + rewrite !in_app_iff. cbn. tauto.
    + now rewrite fs_lookup_put_same, full_document_parsed.
    + intros _. now rewrite fs_lookup_put_other by reflexivity.
    + discriminate.
  - split; [reflexivity|]. split; [|split; [|split; [|split]]].
    + rewrite !in_app_iff. cbn. tauto.
    + rewrite !in_app_iff. cbn. tauto.
    + rewrite fs_lookup_put_other by reflexivity.
      now rewrite fs_lookup_put_same, full_document_parsed.
    + discriminate.
    + intros _. now rewrite fs_lookup_put_same.
Qed.

Lemma compact_failure_is_only_printed_witness :
  In (CompactFailed OSError) (console (snd (main compact_read_only_world stale_state))) /\
  In (Progress "All conversions complete!")
     (console (snd (main compact_read_only_world stale_state))) /\
  fs_lookup compact_file (files (snd (main compact_read_only_world stale_state))) =
    Some (Text (JObj [("stale", JBool true)])).
Proof.
  destruct (compact_failure_is_only_printed compact_read_only_world stale_state
              (proj1_sig sample_inputs))
    as (_ & H1 & H2 & _ & H3 & _); [reflexivity | reflexivity | discriminate |].
  split; [exact H1|]. split; [exact H2|]. rewrite H3; reflexivity.
Defined.

(** X3: when the full file is missing or torn, or its content does not
    have the shape the lookups need, the compact step prints its banner
    and one failure line naming the exception, returns, and leaves the
    disk exactly as it was. *)
Theorem compact_step_fails_quietly (w : world) (s : state) (e : exn) :
  compact_input_error s = Some e ->
  create_compact_version w s =
  (Ret tt, log s [ Progress "Creating compact version..."; CompactFailed e ]).
Proof.
  unfold compact_input_error, create_compact_version. intros H.
  rewrite bind_print_run. unfold try_except, read_json.
  rewrite bind_prints_state. cbn [files log]. fold output_file.
  destruct (fs_lookup output_file (files s)) as [[j|]|].
  - rewrite (bind_prints not_compact_banner) by apply compact_data_of_prints.
    rewrite compact_data_of_silent, log_nil.
    destruct (value_of (compact_data_of (json_load j))); [discriminate|].
    injection H as ->. cbn [any_exception]. unfold print, log. cbn [console files].
    rewrite <- ?app_assoc. reflexivity.
  - injection H as <-. cbn [any_exception]. unfold print, log. cbn [console files].
    rewrite <- ?app_assoc. reflexivity.
  - injection H as <-. cbn [any_exception]. unfold print, log. cbn [console files].
    rewrite <- ?app_assoc. reflexivity.
Qed.

Lemma compact_step_fails_quietly_witness :
  create_compact_version sample_world stale_state =
  (Ret tt, log stale_state [ Progress "Creating compact version...";
                             CompactFailed FileNotFoundError ]).
Proof.
  apply (compact_step_fails_quietly sample_world stale_state FileNotFoundError).
  reflexivity.
Defined.

Lemma get_or_none d k dflt : dict_get (KStr k) d = None -> get_or d k dflt = dflt.
Proof. unfold get_or. now intros ->. Qed.

(** X4: a full document that is not a JSON object makes the compact step
    fail with [AttributeError]; for one that is an object, every copied
    top-level field it lacks gets its empty default in the compact
    document. *)
Theorem compact_fills_absent_fields (full : pyval) :
  match full with
  | PDict d =>
      forall cd, value_of (compact_data_of full) = Ret cd ->
      forall k dflt, In (k, dflt) compact_defaults ->
        dict_get (KStr k) d = None -> dict_get (KStr k) cd = Some dflt
  | _ => value_of (compact_data_of full) = Raise AttributeError
  end.
Proof.
  destruct full as [| | | | | |d]; try reflexivity.
  intros cd Hv k dflt Hin Hk.
  destruct (compact_data_of_inv _ _ Hv)
    as (d' & td & jt & qs & nj & nq & Hd & Ht & Hj & Hq & Hnj & Hnq & Hcd).
  injection Hd as <-. subst cd.
  cbn [compact_defaults In] in Hin.
  decompose [or] Hin; clear Hin; try contradiction;
    match goal with H : (_, _) = (_, _) |- _ => injection H as <- <- end;
    unfold compact_of;
    cbn [dict_get pykey_eqb String.eqb Ascii.eqb Bool.eqb];
    now rewrite (get_or_none _ _ _ Hk).
Qed.

Lemma compact_fills_absent_fields_witness :
  dict_get (KStr "weights") (compact_of [] (PDict []) (PDict []) 0 0 (PList [])) =
  Some (PList []).
Proof.
  apply (compact_fills_absent_fields (PDict []) _ eq_refl "weights" (PList []));
    [cbn; tauto | reflexivity].
Defined.

(* ================================================================== *)
(** ** The layout of the written documents, and running again *)

(** X5: the layout of the two written documents does not depend on the
    inputs.  The full document always has the same fifteen top-level keys,
    eight metadata keys, the six language keys and the norm groups under
    the string keys 1 to 4, and its [job_names] is its English job list;
    the compact document always has the same eleven top-level keys, two
    translation keys and three metadata keys. *)
Theorem written_documents_layout (w : world) (s : state) (t : tables) :
  inputs_of w = Ret t -> open_write w output_file = WriteOk ->
  open_write w compact_file = WriteOk ->
  exists full compact,
    read_doc output_file (snd (main w s)) = Some full /\
    read_doc compact_file (snd (main w s)) = Some compact /\
    keys_at [] full =
      Some [ "job_translations"; "job_codes"; "pca_weights"; "scaled_features";
             "job_names"; "text_dict"; "language_display"; "questions";
             "mean_norms"; "sd_norms"; "weights"; "scaler_params";
             "translations"; "metadata"; "norm_groups" ] /\
    keys_at ["metadata"] full =
      Some [ "version"; "created_at"; "data_sources"; "languages_supported";
             "n_jobs"; "model_info"; "n_questions"; "languages_available" ] /\
    keys_at ["job_translations"] full = Some languages /\
    keys_at ["norm_groups"] full = Some ["1"; "2"; "3"; "4"] /\
    at_path ["job_names"] full = at_path ["job_translations"; "en"] full /\
    keys_at [] compact =
      Some [ "job_translations"; "job_codes"; "scaled_features"; "pca_weights";
             "questions"; "mean_norms"; "sd_norms"; "weights"; "scaler_params";
             "translations"; "metadata" ] /\
    keys_at ["translations"] compact = Some ["trait_names"; "disclaimer"] /\
    keys_at ["metadata"] compact = Some ["n_jobs"; "n_questions"; "languages"].
Proof.
  intros Hi Hw Hc.
  destruct (docs_after_main w s t Hi Hw Hc) as [Hf _].
  pose proof (compact_doc_after_main w s t Hi Hw Hc) as Hk.
  exists (PDict (parsed_document w t)), (PDict (compact_document w t)).
  split; [exact Hf|]. split; [exact Hk|].
  repeat (split; [reflexivity|]). reflexivity.
Qed.

Lemma written_documents_layout_witness :
  exists full compact,
    read_doc output_file (snd (main sample_world empty_state)) = Some full /\
    read_doc compact_file (snd (main sample_world empty_state)) = Some compact /\
    keys_at ["norm_groups"] full = Some ["1"; "2"; "3"; "4"] /\
    keys_at ["metadata"] compact = Some ["n_jobs"; "n_questions"; "languages"].
Proof.
  destruct (written_documents_layout sample_world empty_state (proj1_sig sample_inputs))
    as (full & compact & H1 & H2 & _ & _ & _ & H3 & _ & _ & _ & H4);
    [reflexivity | reflexivity | reflexivity |].
  exists full, compact.
  split; [exact H1|]. split; [exact H2|]. split; [exact H3|exact H4].
Defined.

Lemma full_document_at_time now w t p :
  apart p ["metadata"; "created_at"] = true ->
  at_path p (PDict (parsed_document (at_time now w) t)) =
  at_path p (PDict (parsed_document w t)).
Proof.
  intros H.
  destruct p as [|k rest]; [discriminate H|].
  cbn [at_path parsed_document dict_get pykey_eqb].
  walk k H ltac:(fun H => first [touched H | second_level H]).
Qed.

(** X6: running again on the same inputs at another time, from whatever
    the disk then holds, writes the same compact document, and a full
    document that differs from the earlier one at most in
    [metadata.created_at], which holds the new time. *)
Theorem rerun_differs_only_in_timestamp
    (w : world) (s s' : state) (t : tables) (now : string) :
  inputs_of w = Ret t -> open_write w output_file = WriteOk ->
  open_write w compact_file = WriteOk ->
  read_doc compact_file (snd (main (at_time now w) s')) =
    read_doc compact_file (snd (main w s)) /\
  exists full full',
    read_doc output_file (snd (main w s)) = Some full /\
    read_doc output_file (snd (main (at_time now w) s')) = Some full' /\
    at_path ["metadata"; "created_at"] full' = Some (PStr now) /\
    forall p, apart p ["metadata"; "created_at"] = true ->
      at_path p full' = at_path p full.
Proof.
  intros Hi Hw Hc.
  assert (Hi' : inputs_of (at_time now w) = Ret t) by exact Hi.
  destruct (docs_after_main w s t Hi Hw Hc) as [Hf _].
  destruct (docs_after_main (at_time now w) s' t Hi' Hw Hc) as [Hf' _].
  pose proof (compact_doc_after_main w s t Hi Hw Hc) as Hk.
  pose proof (compact_doc_after_main (at_time now w) s' t Hi' Hw Hc) as Hk'.
  split.
  - rewrite Hk, Hk'. reflexivity.
  - exists (PDict (parsed_document w t)), (PDict (parsed_document (at_time now w) t)).
    split; [exact Hf|]. split; [exact Hf'|]. split; [reflexivity|].
    intros p Hp. now apply full_document_at_time.
Qed.

Lemma rerun_differs_only_in_timestamp_witness :
  read_doc compact_file
    (snd (main (at_time "2025-06-30T12:00:00" sample_world)
               (snd (main sample_world empty_state)))) =
  read_doc compact_file (snd (main sample_world empty_state)).
Proof.
  apply (rerun_differs_only_in_timestamp sample_world empty_state
           (snd (main sample_world empty_state)) (proj1_sig sample_inputs)
           "2025-06-30T12:00:00"); reflexivity.
Defined.

(* ================================================================== *)
(** ** The length warning of the job loader *)

Lemma distinct_count_two l :
  (1 <? distinct_count l)%nat = true <->
  exists a b, In a l /\ In b l /\ a <> b.
Proof.
  unfold distinct_count. rewrite Nat.ltb_lt.
  pose proof (NoDup_nodup Nat.eq_dec l) as N.
  pose proof (nodup_In Nat.eq_dec l) as I.
  destruct (nodup Nat.eq_dec l) as [|x [|y u]]; cbn [List.length].
  - split; [lia|]. intros (a & _ & Ha & _). now apply I in Ha.
  - split; [lia|]. intros (a & b & Ha & Hb & Hab).
    apply I in Ha, Hb. destruct Ha as [<-|[]], Hb as [<-|[]]. congruence.
  - split; [|lia]. intros _. exists x, y.
    split; [apply I; cbn; auto|]. split; [apply I; cbn; auto|].
    inversion N as [|? ? Hx _]. intros ->. apply Hx. now left.
Qed.

Lemma load_job_file_no_warning w lang acc :
  prints_only no_length_warning (load_job_file w lang acc).
Proof.
  unfold load_job_file.
  repeat first
    [ apply prints_only_bind; [|intros]
    | apply prints_only_try; [|intros]
    | apply prints_only_when
    | apply prints_only_print; intros l; discriminate
    | apply prints_only_call
    | apply prints_only_ret ].
Qed.

Lemma jobs_loop_value w :
  jobs_error w = None ->
  value_of (for_each languages ([] : dict) (load_job_file w)) = Ret (jobs_dict w).
Proof.
  unfold jobs_error, jobs_dict.
  rewrite (value_of_for_each not_compact_banner) by auto with prints.
  cbn [languages fold_left map first_error res_bind].
  repeat (rewrite load_job_file_value;
          match goal with
          | |- context [escapes ?o] => destruct (escapes o); [discriminate|]
          end; cbn [res_bind first_error]).
  reflexivity.
Qed.

Lemma load_multilingual_jobs_events w :
  jobs_error w = None ->
  events_of (load_multilingual_jobs w) =
  Progress "Loading multilingual job files..."
  :: events_of (for_each languages ([] : dict) (load_job_file w))
  ++ (if (1 <? distinct_count (job_lengths w))%nat
      then [LengthWarning (job_lengths w)] else []).
Proof.
  intros H. unfold load_multilingual_jobs.
  rewrite (events_of_bind not_compact_banner) by prints_only_tac.
  change (events_of (print ?e)) with [e]. rewrite value_of_print.
  cbn [app]. f_equal.
  rewrite (events_of_bind not_compact_banner) by prints_only_tac.
  rewrite (jobs_loop_value w H). f_equal.
  unfold jobs_dict, job_lengths.
  cbn - [job_list distinct_count Nat.ltb]. unfold events_of.
  cbn - [job_list distinct_count Nat.ltb].
  now destruct (1 <? distinct_count _)%nat.
Qed.

(** X7: when the six job files load or are missing, the loader prints the
    length warning exactly when two of the six lists differ in length,
    and the warning carries the six lengths in language order. *)
Theorem length_warning_iff_lengths_differ (w : world) (l : list nat) :
  jobs_error w = None ->
  In (LengthWarning l) (events_of (load_multilingual_jobs w)) <->
  l = job_lengths w /\ exists a b, In a l /\ In b l /\ a <> b.
Proof.
  intros H. rewrite (load_multilingual_jobs_events w H).
  assert (N : ~ In (LengthWarning l)
                (events_of (for_each languages ([] : dict) (load_job_file w)))).
  { destruct (prints_only_for_each no_length_warning languages (load_job_file w)
                (load_job_file_no_warning w) []) as [_ F].
    rewrite Forall_forall in F. intros Hin. exact (F _ Hin l eq_refl). }
  cbn [In]. rewrite in_app_iff.
  destruct (1 <? distinct_count (job_lengths w))%nat eqn:E.
  - apply distinct_count_two in E. cbn [In]. split.
    + intros [Hd | [Hn | [Hl | []]]]; [discriminate | contradiction |].
      injection Hl as <-. auto.
    + intros [-> _]. auto.
  - split.
    + intros [Hd | [Hn | []]]; [discriminate | contradiction].
    + intros [-> D]. apply distinct_count_two in D. congruence.
Qed.

Lemma length_warning_iff_lengths_differ_witness :
  In (LengthWarning [2; 1; 2; 0; 0; 0]%nat)
     (events_of (load_multilingual_jobs sample_world)).
Proof.
  apply (length_warning_iff_lengths_differ sample_world [2; 1; 2; 0; 0; 0]%nat);
    [reflexivity|].
  split; [reflexivity|]. exists 2%nat, 1%nat. cbn. split; [auto|]. split; [auto|discriminate].
Defined.

(* ================================================================== *)
(** ** A question table without an English column *)

(** X8: a question table without an [en] column makes [load_questions]
    raise [KeyError] for [en], whatever other columns it has; the run then
    prints a conversion error, returns, and leaves the disk as it was.
    When the job files and the base arrays load, the error printed is
    that [KeyError]. *)
Theorem questions_need_english_column (w : world) (s : state) (df : DataFrame) :
  pd_read_csv w "questions.tsv" = Loaded df -> has_column df "en" = false ->
  value_of (load_questions w) = Raise (KeyError "en") /\
  fst (main w s) = Ret tt /\
  files (snd (main w s)) = files s /\
  exists e, In (ConversionError e) (console (snd (main w s))) /\
    (jobs_error w = None -> base_error w = None -> e = KeyError "en").
Proof.
  intros Hdf Hen.
  assert (Hq : questions_value w = Raise (KeyError "en")).
  { unfold questions_value. rewrite Hdf. cbn [of_load res_bind]. now rewrite Hen. }
  split; [now rewrite load_questions_value|].
  assert (Hi : exists e, inputs_of w = Raise e /\
                 (jobs_error w = None -> base_error w = None -> e = KeyError "en")).
  { unfold inputs_of, tables_of. rewrite Hq. cbn [res_bind].
    destruct (jobs_error w) as [e|]; [exists e; split; [reflexivity|discriminate]|].
    destruct (base_error w) as [e|]; [exists e; split; [reflexivity|discriminate]|].
    exists (KeyError "en"). split; reflexivity. }
  destruct Hi as (e & Hi & He).
  destruct (main_when_loading_raises w s e Hi) as (evs & E & Hc & _ & _).
  rewrite E. cbn [fst snd files console].
  split; [reflexivity|]. split; [reflexivity|].
  exists e. split; [|exact He]. apply in_or_app. right. exact Hc.
Qed.

Lemma questions_need_english_column_witness :
  value_of (load_questions no_english_world) = Raise (KeyError "en") /\
  files (snd (main no_english_world stale_state)) = files stale_state.
Proof.
  destruct (questions_need_english_column no_english_world stale_state
              (mkDataFrame ["zh"] [[CStr "Wo hen jiantan"]]))
    as (H1 & _ & H2 & _); [reflexivity | reflexivity |].
  split; [exact H1 | exact H2].
Defined.

(* ================================================================== *)
(** ** The norm tables *)

Lemma py_int_value w c : value_of (py_int w c) = int_of_cell w c.
Proof.
  destruct c as [|z|lit|s]; cbn [py_int int_of_cell]; try reflexivity.
  - now destruct (int_of_float (num w) lit).
  - now destruct (int_of_str (num w) s).
Qed.

Lemma norms_row_value w df row acc :
  value_of (norms_row w df row acc) =
  res_map (fun g => dict_set (KInt g) (row_values row) acc) (group_of w df row).
Proof.
  unfold norms_row, group_of, row_getitem.
  rewrite (value_of_bind not_compact_banner) by prints_only_tac.
  destruct (index_of "group" (columns df)) as [i|]; [|reflexivity].
  rewrite value_of_ret.
  rewrite (value_of_bind not_compact_banner) by prints_only_tac.
  rewrite py_int_value. now destruct (int_of_cell w (nth i row CNaN)).
Qed.

Lemma fold_raise {A S} (f : A -> S -> res S) xs e :
  fold_left (fun r x => res_bind r (f x)) xs (Raise e) = Raise e.
Proof. induction xs; simpl; auto. Qed.

(** The loop over the rows raises at the first row without a group
    number, with the exception of that row. *)
Lemma norms_fold_raises w df rs acc e :
  fold_left (fun r row => res_bind r (fun a => value_of (norms_row w df row a)))
            rs (Ret acc) = Raise e <->
  exists pre row post,
    rs = pre ++ row :: post /\ forallb (has_group w df) pre = true /\
    group_of w df row = Raise e.
Proof.
  revert acc. induction rs as [|r rs IH]; intros acc.
  - split; [discriminate|]. intros (pre & row & post & H & _). now destruct pre.
  - cbn [fold_left res_bind]. rewrite norms_row_value.
    destruct (group_of w df r) as [g|e0] eqn:G; cbn [res_map].
    + rewrite IH. split.
      * intros (pre & row & post & -> & Hp & Hr). exists (r :: pre), row, post.
        split; [reflexivity|]. split; [|exact Hr].
        cbn [forallb]. unfold has_group at 1. now rewrite G.
      * intros (pre & row & post & H & Hp & Hr).
        destruct pre as [|r' pre]; cbn [app] in H; injection H as -> ->.
        -- congruence.
        -- cbn [forallb] in Hp. apply andb_prop in Hp as [_ Hp].
           exists pre, row, post. auto.
    + rewrite (fold_raise (fun row a => value_of (norms_row w df row a))). split.
      * intros H. injection H as ->. exists [], r, rs. auto.
      * intros (pre & row & post & H & Hp & Hr).
        destruct pre as [|r' pre]; cbn [app] in H; injection H as -> ->.
        -- congruence.
        -- cbn [forallb] in Hp. apply andb_prop in Hp as [Hp _].
           unfold has_group in Hp. rewrite G in Hp. discriminate.
Qed.

(** When the loop returns, every row had a group number and was
    assigned in turn. *)
Lemma norms_fold_returns w df rs acc d :
  fold_left (fun r row => res_bind r (fun a => value_of (norms_row w df row a)))
            rs (Ret acc) = Ret d ->
  d = fold_left (fun a row =>
                   match group_of w df row with
                   | Ret g => dict_set (KInt g) (row_values row) a
                   | Raise _ => a
                   end) rs acc.
Proof.
  revert acc. induction rs as [|r rs IH]; intros acc; cbn [fold_left res_bind].
  - intros H. now injection H.
  - rewrite norms_row_value. destruct (group_of w df r) as [g|e0]; cbn [res_map].
    + apply IH.
    + rewrite (fold_raise (fun row a => value_of (norms_row w df row a))).
      discriminate.
Qed.

Lemma norms_json_fold w df :
  value_of (norms_json w df) =
  fold_left (fun r row => res_bind r (fun a => value_of (norms_row w df row a)))
            (df_values w df) (Ret []).
Proof.
  unfold norms_json.
  now rewrite (value_of_for_each not_compact_banner) by auto with prints.
Qed.

(** The exceptions of [int(row['group'])]. *)
Lemma group_error_class w df row e :
  group_of w df row = Raise e ->
  if has_column df "group" then e = ValueError \/ e = OverflowError
  else e = KeyError "group".
Proof.
  unfold group_of, has_column. destruct (index_of "group" (columns df)) as [i|].
  - destruct (nth i row CNaN) as [|z|lit|s]; cbn [int_of_cell].
    + intros H. injection H as <-. now left.
    + discriminate.
    + destruct (int_of_float (num w) lit); cbn [conversion_value];
        intros H; try discriminate H; injection H as <-; auto.
    + destruct (int_of_str (num w) s); cbn [conversion_value];
        intros H; try discriminate H; injection H as <-; auto.
  - intros H. now injection H as <-.
Qed.

(** X9: building a norm mapping raises exactly when some row of the
    table has no group number, and then with the exception of the first
    such row, the rows before it having been converted: [KeyError] for
    [group] when the table has no such column, and otherwise the
    [ValueError] or [OverflowError] that [int] raises on the cell.  A
    table without rows never raises, with or without the column. *)
Theorem norms_json_raises (w : world) (df : DataFrame) (e : exn) :
  value_of (norms_json w df) = Raise e <->
  exists pre row post,
    df_values w df = pre ++ row :: post /\
    forallb (has_group w df) pre = true /\
    group_of w df row = Raise e /\
    (if has_column df "group" then e = ValueError \/ e = OverflowError
     else e = KeyError "group").
Proof.
  rewrite norms_json_fold, norms_fold_raises. split.
  - intros (pre & row & post & H1 & H2 & H3). exists pre, row, post.
    split; [exact H1|]. split; [exact H2|]. split; [exact H3|].
    now apply (group_error_class w df row).
  - intros (pre & row & post & H1 & H2 & H3 & _). exists pre, row, post. auto.
Qed.

Lemma norms_json_raises_witness :
  value_of (norms_json sample_world ungrouped_norms) = Raise (KeyError "group").
Proof.
  apply (norms_json_raises sample_world ungrouped_norms (KeyError "group")).
  exists [], [CFloat "2.5"; CFloat "3.5"], []. split; [reflexivity|].
  split; [reflexivity|]. split; reflexivity.
Defined.

Lemma find_snoc {A} (f : A -> bool) l x :
  find f (l ++ [x]) =
  match find f l with Some y => Some y | None => if f x then Some x else None end.
Proof.
  induction l as [|a l IH]; simpl; [reflexivity|]. now destruct (f a).
Qed.

Lemma norms_lookup w df g rs acc :
  dict_get (KInt g)
    (fold_left (fun a row =>
                  match group_of w df row with
                  | Ret g' => dict_set (KInt g') (row_values row) a
                  | Raise _ => a
                  end) rs acc) =
  match find (in_group w df g) (rev rs) with
  | Some row => Some (row_values row)
  | None => dict_get (KInt g) acc
  end.
Proof.
  revert acc. induction rs as [|row rs IH]; intros acc; [reflexivity|].
  cbn [fold_left rev]. rewrite IH, find_snoc.
  destruct (find (in_group w df g) (rev rs)); [reflexivity|].
  unfold in_group. destruct (group_of w df row) as [g'|]; [|reflexivity].
  destruct (Z.eqb_spec g' g) as [->|Hn].
  - apply dict_get_set_same.
  - apply dict_get_set_other. congruence.
Qed.

Lemma norms_int_keys w df rs acc :
  Forall (fun k => exists g, k = KInt g) (dict_keys acc) ->
  Forall (fun k => exists g, k = KInt g)
    (dict_keys (fold_left (fun a row =>
                  match group_of w df row with
                  | Ret g' => dict_set (KInt g') (row_values row) a
                  | Raise _ => a
                  end) rs acc)).
Proof.
  revert acc. induction rs as [|row rs IH]; intros acc H; [exact H|].
  cbn [fold_left]. apply IH.
  destruct (group_of w df row) as [g|]; [|exact H].
  unfold dict_keys in *. rewrite dict_set_keys.
  destruct (existsb (pykey_eqb (KInt g)) (map fst acc)); [exact H|].
  apply Forall_app. split; [exact H|]. repeat constructor. eauto.
Qed.

Lemma norms_json_lookup w df d :
  value_of (norms_json w df) = Ret d ->
  Forall (fun k => exists g, k = KInt g) (dict_keys d) /\
  forall g, dict_get (KInt g) d =
            option_map row_values (find (in_group w df g) (rev (df_values w df))).
Proof.
  rewrite norms_json_fold. intros H. apply norms_fold_returns in H. subst d. split.
  - apply norms_int_keys. constructor.
  - intros g. rewrite norms_lookup.
    now destruct (find (in_group w df g) (rev (df_values w df))).
Qed.

(** X10: when a norm mapping is built, it has integer keys only, and
    under each group number it holds the values after the first one of
    the last row with that group, taken from the rows as [iterrows]
    yields them (in a table that mixes integer and float columns, every
    integer as the float it has become): a later row of the same group
    replaces an earlier one. *)
Theorem norms_json_last_row_wins (w : world) (df : DataFrame) (d : dict) :
  value_of (norms_json w df) = Ret d ->
  Forall (fun k => exists g, k = KInt g) (dict_keys d) /\
  forall g, dict_get (KInt g) d =
            option_map row_values (find (in_group w df g) (rev (df_values w df))).
Proof. apply norms_json_lookup. Qed.

Lemma norms_json_last_row_wins_witness :
  dict_get (KInt 1%Z) [ (KInt 1%Z, PList [PFloat "3.0"]); (KInt 2%Z, PList [PFloat "2.0"]) ] =
  Some (PList [PFloat "3.0"]).
Proof.
  exact (proj2 (norms_json_last_row_wins sample_world repeated_group_norms
                  [ (KInt 1%Z, PList [PFloat "3.0"]); (KInt 2%Z, PList [PFloat "2.0"]) ]
                  eq_refl) 1%Z).
Defined.

(* ================================================================== *)
(** ** The scaler parameters *)

(** X11: the scaler parameters are all or nothing.  When [load_scaler]
    returns, either the file was missing and the mapping is empty, or the
    mapping has exactly the five keys in source order, with the five trait
    labels as feature names and with an empty list, or zero for the
    sample count, in place of each attribute the scaler object lacks; and
    then every attribute the object has could be converted. *)
Theorem scaler_params_all_or_nothing (w : world) (d : dict) :
  value_of (load_scaler w) = Ret d ->
  match joblib_load w "your_scaler.pkl" with
  | Raises e => e = FileNotFoundError /\ d = []
  | Loaded sc =>
      dict_keys d = [ KStr "mean"; KStr "scale"; KStr "var";
                      KStr "n_samples_seen"; KStr "feature_names" ] /\
      dict_get (KStr "feature_names") d = Some trait_labels /\
      (mean_ sc = NoAttr -> dict_get (KStr "mean") d = Some (PList [])) /\
      (scale_ sc = NoAttr -> dict_get (KStr "scale") d = Some (PList [])) /\
      (var_ sc = NoAttr -> dict_get (KStr "var") d = Some (PList [])) /\
      (n_samples_seen_ sc = NoAttr -> dict_get (KStr "n_samples_seen") d = Some (PInt 0)) /\
      mean_ sc <> BadAttr /\ scale_ sc <> BadAttr /\ var_ sc <> BadAttr /\
      n_samples_seen_ sc <> BadAttr
  end.
Proof.
  rewrite load_scaler_value. unfold scaler_value.
  destruct (joblib_load w "your_scaler.pkl") as [e|sc];
    cbn [of_load res_bind guarded].
  - destruct e; cbn [is_file_not_found]; intros H; try discriminate.
    injection H as <-. auto.
  - unfold scaler_params_of.
    destruct (mean_ sc), (scale_ sc), (var_ sc), (n_samples_seen_ sc);
      cbn [attr_value res_bind guarded is_file_not_found]; intros H;
      try discriminate H; injection H as <-;
      (split; [reflexivity|]); (split; [reflexivity|]);
      (split; [intros E; try discriminate E; reflexivity|]);
      (split; [intros E; try discriminate E; reflexivity|]);
      (split; [intros E; try discriminate E; reflexivity|]);
      (split; [intros E; try discriminate E; reflexivity|]);
      repeat split; discriminate.
Qed.

Lemma scaler_params_all_or_nothing_witness :
  dict_get (KStr "n_samples_seen")
    [ (KStr "mean", PList []); (KStr "scale", PList []); (KStr "var", PList []);
      (KStr "n_samples_seen", PInt 0); (KStr "feature_names", trait_labels) ] =
  Some (PInt 0).
Proof.
  apply (scaler_params_all_or_nothing bare_scaler_world
           [ (KStr "mean", PList []); (KStr "scale", PList []); (KStr "var", PList []);
             (KStr "n_samples_seen", PInt 0); (KStr "feature_names", trait_labels) ]
           eq_refl).
  reflexivity.
Defined.

(* ================================================================== *)
(** ** The validation lines of a whole run *)

(** The same decomposition as [prints_only_tac], for lines that are
    recognised by evaluating a test. *)
Ltac prints_with solve_line :=
  intros;
  repeat first
    [ apply prints_only_bind; [|intros]
    | apply prints_only_try; [|intros]
    | apply prints_only_for_each; intros
    | apply prints_only_map_m; intros
    | apply prints_only_when
    | apply prints_only_print; solve_line
    | match goal with
      | |- prints_only _ (if ?b then _ else _) => destruct b
      | |- prints_only _ (let '(_, _) := ?x in _) => destruct x
      | |- prints_only _ (match ?x with _ => _ end) => destruct x
      end
    | solve [auto with prints] ].

Lemma loading_prints_no_validation w : Forall not_validation (loading_events w).
Proof.
  unfold loading_events. repeat (apply Forall_app; split);
  match goal with |- Forall _ (events_of ?m) =>
    assert (H : prints_only not_validation m); [|apply H] end.
  - unfold load_multilingual_jobs, load_job_file. prints_with reflexivity.
  - unfold load_base_job_data. prints_with reflexivity.
  - unfold load_other_files. prints_with reflexivity.
  - unfold load_questions, load_question_column. prints_with reflexivity.
  - unfold convert_tsv_files, norms_json, norms_row. prints_with reflexivity.
  - unfold load_scaler. prints_with reflexivity.
Qed.

Lemma create_compact_version_lines w s :
  exists evs,
    console (snd (create_compact_version w s)) = console s ++ evs /\
    fst (create_compact_version w s) = Ret tt /\
    Forall not_validation evs.
Proof.
  unfold create_compact_version.
  rewrite bind_print_run. unfold try_except, read_json.
  rewrite bind_prints_state. cbn [files log].
  destruct (fs_lookup "app_data_complete.json" (files s)) as [[j|]|].
  - rewrite (bind_prints not_compact_banner) by apply compact_data_of_prints.
    rewrite compact_data_of_silent, log_nil.
    destruct (value_of (compact_data_of (json_load j))) as [cd|e].
    + unfold bind, write_json.
      destruct (open_write w compact_file);
        cbn [fst snd files print any_exception log console];
        rewrite <- ?app_assoc; eexists; (split; [reflexivity|]);
        (split; [reflexivity|]); repeat constructor.
    + cbn [any_exception print fst snd log console]. rewrite <- ?app_assoc.
      eexists; (split; [reflexivity|]); (split; [reflexivity|]); repeat constructor.
  - cbn [any_exception print fst snd log console]. rewrite <- ?app_assoc.
    eexists; (split; [reflexivity|]); (split; [reflexivity|]); repeat constructor.
  - cbn [any_exception print fst snd log console]. rewrite <- ?app_assoc.
    eexists; (split; [reflexivity|]); (split; [reflexivity|]); repeat constructor.
Qed.

(** X12: a run whose loaders return and whose full document is written
    prints exactly three validation lines, whatever becomes of the
    compact step: one flag that is true when all six job lists have the
    length of the English list, one comparing the number of job codes
    with that length, one comparing the number of feature rows with it.
    The flags do not stop the run: the full document is on disk even when
    they are false. *)
Theorem run_prints_three_validation_lines (w : world) (s : state) (t : tables) :
  inputs_of w = Ret t -> open_write w output_file = WriteOk ->
  filter is_validation (console (snd (main w s))) =
  filter is_validation (console s) ++
  [ Validation "Job translations"
      (forallb (fun lang => Nat.eqb (List.length (job_list w lang))
                                    (List.length (job_list w "en"))) languages);
    Validation "Job codes"
      (Nat.eqb (List.length (loaded_or [] (np_load_tolist w "job_codes.npy")))
               (List.length (job_list w "en")));
    Validation "Scaled features"
      (Nat.eqb (List.length (loaded_or [] (np_load_tolist w "scaled_job_features.npy")))
               (List.length (job_list w "en"))) ] /\
  exists full, read_doc output_file (snd (main w s)) = Some full.
Proof.
  intros Hi Hw.
  pose proof (convert_all_data_try_run w
                (log s [Progress "Converting all data to JSON format..."])) as R.
  rewrite Hi, Hw in R. destruct R as (examples & F & E).
  unfold main, convert_all_data.
  rewrite bind_prints_state, bind_print_run. unfold try_except. rewrite E.
  rewrite bind_prints_state.
  match goal with
  | |- context [create_compact_version w ?s1] =>
      destruct (create_compact_version_lines w s1) as (evs & Hc & Hr & Fc);
      pose proof (create_compact_version_frame w s1 output_file eq_refl) as [_ Hfs];
      destruct (create_compact_version w s1) as [r s2]
  end.
  cbn [fst snd] in Hc, Hr, Hfs. subst r.
  rewrite !bind_print_run. unfold print, log, read_doc. cbn [fst snd console files].
  split.
  - rewrite Hc. unfold log. cbn [console].
    rewrite !filter_app.
    rewrite (filter_none is_validation (loading_events w))
      by apply loading_prints_no_validation.
    rewrite (filter_none is_validation examples)
      by (eapply Forall_impl; [|exact F]; intros e [H _]; exact H).
    rewrite (filter_none is_validation evs) by exact Fc.
    cbn - [job_list loaded_or Nat.eqb]. rewrite !app_nil_r. reflexivity.
  - rewrite Hfs. cbn [files]. rewrite fs_lookup_put_same. eauto.
Qed.

Lemma run_prints_three_validation_lines_witness :
  filter is_validation (console (snd (main sample_world empty_state))) =
  [ Validation "Job translations" false; Validation "Job codes" true;
    Validation "Scaled features" false ] /\
  exists full, read_doc output_file (snd (main sample_world empty_state)) = Some full.
Proof.
  exact (run_prints_three_validation_lines sample_world empty_state
           (proj1_sig sample_inputs) eq_refl eq_refl).
Defined.

(* ================================================================== *)
(** ** The norm tables as a consumer reads them *)

(** The decimal string of an integer determines it. *)
Lemma str_of_Z_parsed z :
  NilZero.int_of_string (str_of_Z z) = Some (Z.to_int z).
Proof.
  unfold str_of_Z. apply NilZero.isi.
  - destruct z; cbn; try discriminate.
    intros H. injection H as H. now apply DecimalPos.Unsigned.to_uint_nonnil in H.
  - destruct z; cbn; try discriminate.
    intros H. injection H as H. now apply DecimalPos.Unsigned.to_uint_nonnil in H.
Qed.

Lemma str_of_Z_inj a b : str_of_Z a = str_of_Z b -> a = b.
Proof.
  intros H. pose proof (str_of_Z_parsed a) as Ha.
  rewrite H, str_of_Z_parsed in Ha. injection Ha as Ha.
  now apply DecimalZ.to_int_inj.
Qed.

(** Reading a key of a dictionary built item by item: the last item with
    that key. *)
Lemma dict_of_get k items acc :
  dict_get k (fold_left (fun d kv => dict_set (fst kv) (snd kv) d) items acc) =
  match find (fun kv => pykey_eqb (fst kv) k) (rev items) with
  | Some kv => Some (snd kv)
  | None => dict_get k acc
  end.
Proof.
  revert acc. induction items as [|[k' v] r IH]; intros acc; [reflexivity|].
  cbn [fold_left rev fst snd]. rewrite IH, find_snoc. cbn [fst snd].
  destruct (find (fun kv => pykey_eqb (fst kv) k) (rev r)); [reflexivity|].
  destruct (pykey_eqb_spec k' k) as [->|Hn].
  - apply dict_get_set_same.
  - apply dict_get_set_other. congruence.
Qed.

(** What a consumer finds under the decimal string of an integer key,
    in a dictionary of integer keys that went through a file: the value
    that the dictionary held last under that key. *)
Lemma rt_int_dict_get d g :
  Forall (fun k => exists z, k = KInt z) (dict_keys d) ->
  at_path [str_of_Z g] (rt (PDict d)) =
  option_map (fun kv => rt (snd kv))
    (find (fun kv => pykey_eqb (fst kv) (KInt g)) (rev d)).
Proof.
  intros Hk. unfold rt. cbn [json_dump json_load at_path].
  unfold dict_of. rewrite dict_of_get. cbn [dict_get].
  rewrite map_map, <- map_rev.
  assert (Hr : Forall (fun kv : pykey * pyval => exists z, fst kv = KInt z) (rev d)).
  { apply Forall_rev. unfold dict_keys in Hk. now rewrite Forall_map in Hk. }
  induction Hr as [|[k v] r [z Hz] _ IH]; [reflexivity|].
  cbn [map find fst snd] in *. subst k. cbn [key_str pykey_eqb].
  destruct (Z.eqb_spec z g) as [->|Hn].
  - now rewrite String.eqb_refl.
  - destruct (String.eqb_spec (str_of_Z z) (str_of_Z g)) as [E|_].
    + apply str_of_Z_inj in E. contradiction.
    + destruct (find _ (map _ r)); exact IH.
Qed.

Lemma nodup_snoc {A} (l : list A) k : NoDup l -> ~ In k l -> NoDup (l ++ [k]).
Proof.
  induction 1 as [|x l Hx Hl IH]; intros Hk; cbn [app].
  - constructor; [intros []|constructor].
  - constructor.
    + rewrite in_app_iff. cbn [In]. intros [H | [H | []]]; [auto|].
      subst. apply Hk. now left.
    + apply IH. intros H. apply Hk. now right.
Qed.

Lemma dict_set_nodup k v d :
  NoDup (dict_keys d) -> NoDup (dict_keys (dict_set k v d)).
Proof.
  unfold dict_keys. intros H. rewrite dict_set_keys.
  destruct (existsb (pykey_eqb k) (map fst d)) eqn:E; [exact H|].
  apply nodup_snoc; [exact H|]. rewrite <- existsb_key_In. congruence.
Qed.

Lemma find_key_nodup k v (l : list (pykey * pyval)) :
  NoDup (map fst l) -> In (k, v) l ->
  find (fun kv => pykey_eqb (fst kv) k) l = Some (k, v).
Proof.
  induction l as [|[k' v'] r IH]; cbn [map fst In find]; intros N [];
    inversion N as [|? ? Hx Hr]; subst.
  - injection H as -> ->. now rewrite pykey_eqb_refl.
  - destruct (pykey_eqb_spec k' k) as [->|_]; [|auto].
    exfalso. apply Hx. change k with (fst (k, v)). now apply in_map.
Qed.

Lemma find_key_absent k (l : list (pykey * pyval)) :
  ~ In k (map fst l) -> find (fun kv => pykey_eqb (fst kv) k) l = None.
Proof.
  induction l as [|[k' v'] r IH]; cbn [map fst In find]; intros N; [reflexivity|].
  destruct (pykey_eqb_spec k' k) as [->|_]; [exfalso; auto|auto].
Qed.

Lemma dict_get_in k d v : dict_get k d = Some v -> In (k, v) d.
Proof.
  induction d as [|[k' v'] r IH]; cbn [dict_get]; [discriminate|].
  destruct (pykey_eqb_spec k k') as [->|_].
  - intros H. injection H as ->. now left.
  - intros H. right. auto.
Qed.

Lemma dict_get_absent k d : dict_get k d = None -> ~ In k (map fst d).
Proof.
  induction d as [|[k' v'] r IH]; cbn [dict_get map fst In]; [tauto|].
  destruct (pykey_eqb_spec k k') as [->|Hn]; [discriminate|].
  intros H [E | Hin]; [congruence | now apply IH].
Qed.

Lemma find_last_is_get k d :
  NoDup (dict_keys d) ->
  option_map snd (find (fun kv => pykey_eqb (fst kv) k) (rev d)) = dict_get k d.
Proof.
  intros N. destruct (dict_get k d) as [v|] eqn:E.
  - rewrite (find_key_nodup k v); [reflexivity | |].
    + rewrite map_rev. now apply NoDup_rev.
    + rewrite <- in_rev. now apply dict_get_in.
  - rewrite find_key_absent; [reflexivity|].
    rewrite map_rev, <- in_rev. now apply dict_get_absent.
Qed.

Lemma norms_json_keys_nodup w df d :
  value_of (norms_json w df) = Ret d -> NoDup (dict_keys d).
Proof.
  rewrite norms_json_fold.
  assert (G : forall rs acc d',
             NoDup (dict_keys acc) ->
             fold_left (fun r x => res_bind r (fun a => value_of (norms_row w df x a)))
                       rs (Ret acc) = Ret d' ->
             NoDup (dict_keys d')).
  { induction rs as [|row rs IH]; intros acc d' N; cbn [fold_left res_bind].
    - intros H. injection H as <-. exact N.
    - rewrite norms_row_value. destruct (group_of w df row) as [g|]; cbn [res_map].
      + apply IH. now apply dict_set_nodup.
      + rewrite (fold_raise (fun row a => value_of (norms_row w df row a))).
        discriminate. }
  apply G. constructor.
Qed.

(** No exception of the loop over the rows is taken for a missing file. *)
Lemma group_error_not_missing w df row e :
  group_of w df row = Raise e -> is_file_not_found e = false.
Proof.
  unfold group_of. destruct (index_of "group" (columns df)) as [i|].
  - destruct (nth i row CNaN) as [|z|lit|s]; cbn [int_of_cell].
    + intros H. now injection H as <-.
    + discriminate.
    + destruct (int_of_float (num w) lit); cbn [conversion_value];
        intros H; try discriminate H; now injection H as <-.
    + destruct (int_of_str (num w) s); cbn [conversion_value];
        intros H; try discriminate H; now injection H as <-.
  - intros H. now injection H as <-.
Qed.

Lemma norms_json_error_not_missing w df e :
  value_of (norms_json w df) = Raise e -> is_file_not_found e = false.
Proof.
  rewrite norms_json_fold, norms_fold_raises.
  intros (pre & row & post & _ & _ & H). now apply group_error_not_missing in H.
Qed.

Lemma row_values_like row : json_like (row_values row) = true.
Proof.
  unfold row_values. cbn [json_like]. apply forallb_forall.
  intros v Hv. apply in_map_iff in Hv as (c & <- & _). now destruct c.
Qed.

Lemma norms_of_table w t file df :
  inputs_of w = Ret t -> pd_read_csv w file = Loaded df ->
  (file = "meanNorms.tsv" ->
   exists d, value_of (norms_json w df) = Ret d /\ t_mean_norms t = PDict d) /\
  (file = "sdNorms.tsv" ->
   exists d, value_of (norms_json w df) = Ret d /\ t_sd_norms t = PDict d).
Proof.
  unfold inputs_of, tables_of. intros Hi Hdf.
  destruct (jobs_error w); [discriminate|]. destruct (base_error w); [discriminate|].
  destruct (questions_value w) as [qn|]; [|discriminate]. cbn [res_bind] in Hi.
  destruct (norms_value w (pd_read_csv w "meanNorms.tsv")) as [m|] eqn:Em;
    [|discriminate]. cbn [res_bind] in Hi.
  destruct (norms_value w (pd_read_csv w "sdNorms.tsv")) as [sd|] eqn:Es;
    [|discriminate]. cbn [res_bind] in Hi.
  destruct (weights_value w (pd_read_csv w "weightsB5.tsv")); [|discriminate].
  destruct (scaler_value w); [|discriminate]. cbn [res_bind] in Hi.
  injection Hi as <-. cbn [t_mean_norms t_sd_norms].
  split; intros ->; rewrite Hdf in *; unfold norms_value in *;
    cbn [of_load res_bind] in *;
    destruct (value_of (norms_json w df)) as [d|e] eqn:V;
    cbn [res_map guarded] in *.
  - injection Em as <-. eauto.
  - rewrite (norms_json_error_not_missing w df e V) in Em. discriminate.
  - injection Es as <-. eauto.
  - rewrite (norms_json_error_not_missing w df e V) in Es. discriminate.
Qed.

(** X13: the norm tables are read back under string keys.  In the full
    document as a consumer parses it, the values of group [g] of a norm
    table are found under the decimal string of [g]: the values after the
    first one of the last row that [int] converts to [g], taken from the
    rows as [iterrows] yields them, and nothing when the table has no
    such row. *)
Theorem norms_read_back_under_decimal_keys
    (w : world) (s : state) (t : tables) (file field : string)
    (df : DataFrame) (g : Z) :
  inputs_of w = Ret t -> open_write w output_file = WriteOk ->
  In (file, field) norm_tables -> pd_read_csv w file = Loaded df ->
  exists full,
    read_doc output_file (snd (convert_all_data w s)) = Some full /\
    at_path [field; str_of_Z g] full =
      option_map row_values (find (in_group w df g) (rev (df_values w df))).
Proof.
  intros Hi Hw Hin Hdf.
  exists (PDict (parsed_document w t)).
  split; [now apply full_doc_after_convert|].
  destruct (norms_of_table w t file df Hi Hdf) as [Hm Hs].
  assert (H : exists d, value_of (norms_json w df) = Ret d /\
                at_path [field; str_of_Z g] (PDict (parsed_document w t)) =
                at_path [str_of_Z g] (rt (PDict d))).
  { cbn [norm_tables In] in Hin. destruct Hin as [E | [E | []]];
      injection E as <- <-.
    - destruct (Hm eq_refl) as (d & Hd & Ht). exists d. split; [exact Hd|].
      rewrite <- Ht. reflexivity.
    - destruct (Hs eq_refl) as (d & Hd & Ht). exists d. split; [exact Hd|].
      rewrite <- Ht. reflexivity. }
  destruct H as (d & Hd & ->).
  destruct (norms_json_lookup w df d Hd) as [Hk Hg].
  rewrite rt_int_dict_get by exact Hk.
  pose proof (find_last_is_get (KInt g) d (norms_json_keys_nodup w df d Hd)) as Hf.
  rewrite Hg in Hf.
  destruct (find (fun kv => pykey_eqb (fst kv) (KInt g)) (rev d)) as [[k v]|];
    cbn [option_map snd] in *.
  - destruct (find (in_group w df g) (rev (df_values w df))) as [row|];
      cbn [option_map] in *; [|discriminate].
    injection Hf as ->. f_equal. apply rt_like, row_values_like.
  - destruct (find (in_group w df g) (rev (df_values w df)));
      [discriminate|reflexivity].
Qed.

Lemma norms_read_back_under_decimal_keys_witness :
  exists full,
    read_doc output_file (snd (convert_all_data sample_world empty_state)) = Some full /\
    at_path ["mean_norms"; "2"] full = Some (PList [PFloat "2.5"; PFloat "nan"]).
Proof.
  exact (norms_read_back_under_decimal_keys sample_world empty_state
           (proj1_sig sample_inputs) "meanNorms.tsv" "mean_norms"
           (mkDataFrame ["group"; "N"; "E"]
              [ [CFloat "1.0"; CFloat "2.5"; CFloat "3.5"];
                [CFloat "2.0"; CFloat "2.5"; CNaN] ]) 2%Z
           eq_refl eq_refl (or_introl eq_refl) eq_refl).
Defined.

(* ================================================================== *)
(** ** The counts of the two documents *)

(** X14: the two documents of a run agree on their counts.  The compact
    document's [metadata.n_jobs], measured on the English list read back
    from the full file, equals the full document's [metadata.n_jobs], and
    its [metadata.languages] equals the full document's
    [metadata.languages_available]. *)
Theorem documents_agree_on_metadata (w : world) (s : state) (t : tables) :
  inputs_of w = Ret t -> open_write w output_file = WriteOk ->
  open_write w compact_file = WriteOk ->
  exists full compact,
    read_doc output_file (snd (main w s)) = Some full /\
    read_doc compact_file (snd (main w s)) = Some compact /\
    at_path ["metadata"; "n_jobs"] compact = at_path ["metadata"; "n_jobs"] full /\
    at_path ["metadata"; "languages"] compact =
      at_path ["metadata"; "languages_available"] full.
Proof.
  intros Hi Hw Hc.
  destruct (docs_after_main w s t Hi Hw Hc) as [Hf _].
  pose proof (compact_doc_after_main w s t Hi Hw Hc) as Hk.
  exists (PDict (parsed_document w t)), (PDict (compact_document w t)).
  split; [exact Hf|]. split; [exact Hk|]. split; reflexivity.
Qed.

Lemma documents_agree_on_metadata_witness :
  exists full compact,
    read_doc output_file (snd (main sample_world empty_state)) = Some full /\
    read_doc compact_file (snd (main sample_world empty_state)) = Some compact /\
    at_path ["metadata"; "n_jobs"] compact = at_path ["metadata"; "n_jobs"] full /\
    at_path ["metadata"; "languages"] compact =
      at_path ["metadata"; "languages_available"] full.
Proof.
  exact (documents_agree_on_metadata sample_world empty_state
           (proj1_sig sample_inputs) eq_refl eq_refl eq_refl).
Defined.

(* ================================================================== *)
(** ** PCA weights that do not form an array *)

(** X15: the message about the PCA weights needs their shape.  When the
    loaded list is not empty and [np.array] raises on it, as it does on
    rows of different lengths, the exception is not a missing file: it
    leaves [load_base_job_data], the run prints a conversion error,
    returns, and writes nothing.  When the job codes load or are
    missing, the exception that leaves the loader is that of
    [np.array]. *)
Theorem pca_weights_must_form_an_array
    (w : world) (s : state) (l : list pyval) (e : exn) :
  np_load_tolist w "pca_weights.npy" = Loaded l -> l <> [] ->
  np_array_shape w l = Raises e -> is_file_not_found e = false ->
  (escapes (np_load_tolist w "job_codes.npy") = None ->
   value_of (load_base_job_data w) = Raise e) /\
  fst (main w s) = Ret tt /\
  files (snd (main w s)) = files s /\
  exists e', In (ConversionError e') (console (snd (main w s))).
Proof.
  intros Hl Hne Hs He.
  assert (Hp : pca_value w = Raise e).
  { unfold pca_value. rewrite Hl. cbn [of_load res_bind].
    destruct l as [|v r]; [contradiction|].
    rewrite Hs. cbn [of_load res_map guarded]. now rewrite He. }
  split.
  - intros Hc. rewrite load_base_job_data_value. unfold base_error.
    rewrite Hc, Hp. reflexivity.
  - assert (Hi : exists e', inputs_of w = Raise e').
    { unfold inputs_of, base_error. rewrite Hp. cbn [raised first_error].
      destruct (jobs_error w); [eauto|].
      destruct (escapes (np_load_tolist w "job_codes.npy")); eauto. }
    destruct Hi as (e' & Hi).
    destruct (main_when_loading_raises w s e' Hi) as (evs & E & Hc & _ & _).
    rewrite E. cbn [fst snd files console].
    split; [reflexivity|]. split; [reflexivity|].
    exists e'. apply in_or_app. right. exact Hc.
Qed.

Lemma pca_weights_must_form_an_array_witness :
  value_of (load_base_job_data ragged_pca_world) = Raise ValueError /\
  files (snd (main ragged_pca_world stale_state)) = files stale_state.
Proof.
  destruct (pca_weights_must_form_an_array ragged_pca_world stale_state
              [ PList [PFloat "0.5"; PFloat "0.25"]; PList [PFloat "0.75"] ]
              ValueError)
    as (H1 & _ & H2 & _); [reflexivity | discriminate | reflexivity | reflexivity |].
  split; [apply H1; reflexivity | exact H2].
Defined.
